(** * Session manager v1.1: line model, selection engine and save workflow

    A shallow embedding of [session-manager-v1.1.ts] (class
    [ClaudeSessionManager]) together with the properties of the
    line parser, the selection commands and the backup-then-overwrite
    save.

    Conventions of the embedding:
    - a JavaScript string is a [string]; a character stands for one code
      unit.  Every string operation the program uses ([split] on
      [/\r?\n/], [join], [trim], [replace], [===]) works code unit by
      code unit;
    - [undefined] is [None] in an [option json];
    - an expression that may throw has a [result]: [Returns] or
      [Throws]; an [async] method is a function of the monad [M], which
      threads the object and the storage and carries the exception;
    - the file system is a map from paths to contents, with the list
      of the calls made and the answers (success or failure) the
      environment gives to the calls to come;
    - the answers of the interactive prompts and the clock are arguments
      of the methods; console output is not modelled, except for the
      three outcomes of [saveChanges];
    - [JSON.parse], [JSON.stringify] and number formatting belong to the
      JavaScript runtime and are fields of the class [JSRuntime]. *)

From Stdlib Require Import Ascii ZArith Bool Lia DecimalString.
From stdpp Require Import base option list strings gmap.
From stdpp Require Import sorting.

(** ** Strings *)

Module Str.

Definition LF : ascii := "010"%char.
Definition CR : ascii := "013"%char.

Definition is_LF (c : ascii) : bool := Ascii.eqb c LF.
Definition is_CR (c : ascii) : bool := Ascii.eqb c CR.

(** Puts [c] in front of the first segment. *)
Definition cons_head (c : ascii) (segs : list string) : list string :=
  match segs with
  | [] => [String c ""]
  | h :: t => String c h :: t
  end.

(** [s.split(/\r?\n/)]: a separator is a line feed, taken together with
    the carriage return right before it when there is one. *)
Fixpoint split_lines (s : string) : list string :=
  match s with
  | "" => [""]
  | String c rest =>
      if is_LF c then "" :: split_lines rest
      else
        match rest with
        | String c2 rest' =>
            if is_CR c && is_LF c2 then "" :: split_lines rest'
            else cons_head c (split_lines rest)
        | "" => cons_head c (split_lines rest)
        end
  end.

(** [segs.join(sep)] on an array of strings. *)
Fixpoint join (sep : string) (segs : list string) : string :=
  match segs with
  | [] => ""
  | [s] => s
  | s :: rest => s +:+ sep +:+ join sep rest
  end.

Definition NL : string := String LF "".

(** White space and line terminators of [String.prototype.trim] among
    the code units below 256. *)
Definition is_white (c : ascii) : bool :=
  match c with
  | "009" | "010" | "011" | "012" | "013" | " " | "160" => true
  | _ => false
  end%char.

Fixpoint trim_start (s : string) : string :=
  match s with
  | "" => ""
  | String c rest => if is_white c then trim_start rest else s
  end.

Definition trim (s : string) : string :=
  String.rev (trim_start (String.rev (trim_start s))).

(** [s.replace(/c/g, d)] for one-character patterns. *)
Fixpoint replace_char (c d : ascii) (s : string) : string :=
  match s with
  | "" => ""
  | String x rest =>
      String (if Ascii.eqb x c then d else x) (replace_char c d rest)
  end.

(** The text with every CR LF pair turned into a single LF. *)
Fixpoint crlf_to_lf (s : string) : string :=
  match s with
  | "" => ""
  | String c rest =>
      match rest with
      | String c2 rest' =>
          if is_CR c && is_LF c2 then String LF (crlf_to_lf rest')
          else String c (crlf_to_lf rest)
      | "" => String c ""
      end
  end.

(** Number of line feeds, which is the number of [/\r?\n/] matches. *)
Fixpoint count_LF (s : string) : nat :=
  match s with
  | "" => 0
  | String c rest => (if is_LF c then 1 else 0) + count_LF rest
  end.

(** Whether CR LF occurs somewhere in the text. *)
Fixpoint has_crlf (s : string) : bool :=
  match s with
  | "" => false
  | String c rest =>
      match rest with
      | String c2 _ => (is_CR c && is_LF c2) || has_crlf rest
      | "" => false
      end
  end.

(** The text without the line terminators at its end. *)
Fixpoint drop_eol_start (s : string) : string :=
  match s with
  | "" => ""
  | String c rest => if is_LF c || is_CR c then drop_eol_start rest else s
  end.

Definition strip_trailing_eol (s : string) : string :=
  String.rev (drop_eol_start (String.rev s)).

End Str.

(** Two texts that differ at most in the line terminators at their end. *)
Definition same_up_to_trailing_newline (a b : string) : Prop :=
  Str.strip_trailing_eol a = Str.strip_trailing_eol b.

(** ** JavaScript values produced by [JSON.parse] *)

Section JSValues.
Context {number : Type}.

#[local] Unset Elimination Schemes.
Inductive json : Type :=
| JNull
| JBool (b : bool)
| JNumber (n : number)
| JString (s : string)
| JArray (items : list json)
| JObject (members : list (string * json)).
#[local] Set Elimination Schemes.

End JSValues.
Global Arguments json : clear implicits.

(** The part of the JavaScript runtime the program calls.  [JSON_parse]
    is [None] where [JSON.parse] throws a [SyntaxError];
    [number_isZero] tells the two zeros, the only falsy numbers a JSON
    text can give, from the other numbers. *)
Class JSRuntime (number : Type) := {
  number_isZero : number -> bool;
  Number_toString : number -> string;
  JSON_parse : string -> option (json number);
  JSON_stringify : json number -> string
}.

(** ** Exceptions *)

(** The calls the program makes to [fs-extra]. *)
Inductive fs_call : Type :=
| PathExists (path : string)
| EnsureDir (path : string)
| ReadFile (path : string)
| WriteFile (path data : string).

(** What the program can throw: a [TypeError] from reading a property
    of [null], its own [Error], and the rejection of a file-system
    call. *)
Inductive exn : Type :=
| TypeError
| Error (message : string)
| SystemError (call : fs_call).

(** The outcome of an expression that may throw. *)
Inductive result (A : Type) : Type :=
| Returns (a : A)
| Throws (e : exn).
Global Arguments Returns {A} a.
Global Arguments Throws {A} e.

Global Instance result_ret : MRet result := fun A a => Returns a.
Global Instance result_bind : MBind result := fun A B k r =>
  match r with
  | Returns a => k a
  | Throws e => Throws e
  end.

(** [l.map(f)] for a callback that may throw: the elements are visited
    in order, up to the first exception. *)
Section MapThrowing.
Context {A B : Type} (f : A -> result B).

Fixpoint map_throwing (l : list A) : result (list B) :=
  match l with
  | [] => Returns []
  | x :: rest =>
      y ← f x;
      ys ← map_throwing rest;
      Returns (y :: ys)
  end.

End MapThrowing.

(** ** The line model *)

Section LineModel.
Context {number : Type} {RT : JSRuntime number}.

(** One record per line of the file: the interface [SessionLine].
    [type] holds whatever value the line's JSON gave, not only strings;
    [None] is an absent property. *)
Record SessionLine : Type := mkSessionLine {
  index : nat;
  line : string;
  type : option (json number);
  content : option string;
  selected : bool;
  isMessage : bool
}.

(** [l.selected = b] *)
Definition set_selected (b : bool) (l : SessionLine) : SessionLine :=
  {| index := index l; line := line l; type := type l;
     content := content l; selected := b; isMessage := isMessage l |}.

(** Own property [k] of a parsed object.  [JSON.parse] keeps the last of
    several members with the same key. *)
Fixpoint lookup_member (k : string) (ms : list (string * json number))
  : option (json number) :=
  match ms with
  | [] => None
  | (k', v) :: rest =>
      match lookup_member k rest with
      | Some w => Some w
      | None => if String.eqb k k' then Some v else None
      end
  end.

(** [v.k] for a value [v] that is not [null], and [k] one of the names
    the program reads ([type], [message], [role], [content], [text]):
    none of them is a property of a primitive, of an array or of
    [Object.prototype], so only objects answer. *)
Definition get (v : json number) (k : string) : option (json number) :=
  match v with
  | JObject ms => lookup_member k ms
  | _ => None
  end.

(** [v?.k] *)
Definition get_opt (v : option (json number)) (k : string) : option (json number) :=
  match v with
  | None | Some JNull => None
  | Some w => get w k
  end.

(** ToBoolean *)
Definition truthy (v : option (json number)) : bool :=
  match v with
  | None | Some JNull => false
  | Some (JBool b) => b
  | Some (JNumber n) => negb (number_isZero n)
  | Some (JString s) => negb (String.eqb s "")
  | Some (JArray _) | Some (JObject _) => true
  end.

(** [a || b] *)
Definition js_or (a b : option (json number)) : option (json number) :=
  if truthy a then a else b.

(** ToString.  An array converts by [Array.prototype.join], with its
    element rule for [null]; a plain object converts by the method
    [toString] it inherits, unless a member of its own named [toString]
    hides that method: a member read from JSON is no function, the
    inherited [valueOf] returns the object itself, and the conversion
    throws a [TypeError]. *)
Fixpoint ToString (v : json number) : result string :=
  match v with
  | JNull => Returns "null"
  | JBool b => Returns (if b then "true" else "false")
  | JNumber n => Returns (Number_toString n)
  | JString s => Returns s
  | JArray items =>
      parts ← map_throwing
                (fun i => match i with JNull => Returns "" | _ => ToString i end)
                items;
      Returns (Str.join "," parts)
  | JObject members =>
      match lookup_member "toString" members with
      | Some _ => Throws TypeError
      | None => Returns "[object Object]"
      end
  end.

(** The values [ToString] converts without throwing. *)
Fixpoint converts (v : json number) : bool :=
  match v with
  | JArray items => forallb converts items
  | JObject members =>
      match lookup_member "toString" members with
      | Some _ => false
      | None => true
      end
  | _ => true
  end.

(** The conversion [join] applies to an element of the array. *)
Definition join_element (v : option (json number)) : result string :=
  match v with
  | None | Some JNull => Returns ""
  | Some w => ToString w
  end.

(** [x === 'text'] *)
Definition is_text (v : option (json number)) : bool :=
  match v with
  | Some (JString s) => String.eqb s "text"
  | _ => false
  end.

(** The callback of the filter, [item.type === 'text' && item.text]:
    reading a property of [null] throws a [TypeError]. *)
Definition keep_text (item : json number) : result bool :=
  match item with
  | JNull => Throws TypeError
  | _ => Returns (is_text (get item "type") && truthy (get item "text"))
  end.

(** [items.filter(keep_text)], which stops at the first exception. *)
Fixpoint filter_text (items : list (json number)) : result (list (json number)) :=
  match items with
  | [] => Returns []
  | item :: rest =>
      keep ← keep_text item;
      kept ← filter_text rest;
      Returns (if keep : bool then item :: kept else kept)
  end.

(** [msgType]: the first truthy one of the three fields. *)
Definition msgType_of (parsed : json number) : option (json number) :=
  let message := get parsed "message" in
  js_or (get parsed "type")
    (js_or (get_opt message "type")
       (js_or (get_opt message "role") (Some (JString "unknown")))).

(** [content], from the chain of [if]s of the callback. *)
Definition content_of (parsed : json number) : result string :=
  let message := get parsed "message" in
  match get parsed "content" with
  | Some (JString s) => Returns s
  | _ =>
      match get_opt message "content" with
      | Some (JString s) => Returns s
      | Some (JArray items) =>
          kept ← filter_text items;
          parts ← map_throwing join_element
                    (map (fun item => get item "text") kept);
          let texts := Str.join Str.NL parts in
          Returns (if String.eqb texts "" then "[Complex content]" else texts)
      | Some c =>
          Returns (if truthy (Some c) then JSON_stringify c else "")
      | None => Returns ""
      end
  end.

(** The body of the [try] after [JSON.parse]: [parsed.type] is read
    first and throws on [null]. *)
Definition extract (parsed : json number) : result (option (json number) * string) :=
  match parsed with
  | JNull => Throws TypeError
  | _ =>
      let msgType := msgType_of parsed in
      c ← content_of parsed;
      Returns (msgType, c)
  end.

(** [['user', 'assistant', 'message', 'system'].includes(msgType)] *)
Definition is_message_type (msgType : option (json number)) : bool :=
  match msgType with
  | Some (JString s) =>
      existsb (String.eqb s) ["user"; "assistant"; "message"; "system"]
  | _ => false
  end.

(** [!line || line.trim() === ''] *)
Definition blank (raw : string) : bool :=
  String.eqb raw "" || String.eqb (Str.trim raw) "".

(** The callback of [rawLines.map] in [initialize]. *)
Definition parseLine (index : nat) (raw : string) : SessionLine :=
  let sessionLine :=
    {| index := index; line := raw; type := None; content := None;
       selected := true; isMessage := false |} in
  if blank raw then sessionLine
  else
    match JSON_parse raw with
    | None => sessionLine
    | Some parsed =>
        match extract parsed with
        | Throws _ => sessionLine
        | Returns (msgType, c) =>
            {| index := index; line := raw; type := msgType;
               content := Some c; selected := true;
               isMessage := is_message_type msgType |}
        end
    end.

(** Lines 51 to 97 of [initialize]: split, then parse each line. *)
Definition parseContent (originalContent : string) : list SessionLine :=
  let rawLines := Str.split_lines originalContent in
  imap parseLine rawLines.

End LineModel.
Global Arguments SessionLine : clear implicits.

(** ** Storage *)

(** How the environment answers a file-system call that can fail.  A
    failed write may have truncated or partly written its own target:
    [residue] is what the target then holds, [None] when it was left as
    it was.  No call touches another path than its own. *)
Inductive outcome : Type :=
| Succeeds
| Fails (residue : option string).

(** The files by path, the answers the environment will give to the
    coming calls (success once the list is used up), and the calls made
    so far, oldest first. *)
Record storage : Type := mkStorage {
  files : gmap string string;
  script : list outcome;
  calls : list fs_call
}.

Definition record_call (c : fs_call) (d : storage) : storage :=
  {| files := files d; script := script d; calls := calls d ++ [c] |}.

Definition next_outcome (d : storage) : outcome * storage :=
  match script d with
  | [] => (Succeeds, d)
  | o :: rest => (o, {| files := files d; script := rest; calls := calls d |})
  end.

Definition set_file (path : string) (data : option string) (d : storage)
  : storage :=
  match data with
  | Some x => {| files := <[path := x]> (files d); script := script d;
                 calls := calls d |}
  | None => d
  end.

(** The storage once the call [c] got its answer. *)
Definition answered (c : fs_call) (d : storage) : storage :=
  {| files := files d; script := drop 1 (script d); calls := calls d ++ [c] |}.

(** The answer the environment gives to the [n]-th coming call that can
    fail. *)
Definition coming (d : storage) (n : nat) : outcome :=
  nth n (script d) Succeeds.

(** ** The session manager *)

Section Manager.
Context {number : Type} {RT : JSRuntime number}.

(** The fields of [ClaudeSessionManager]. *)
Record ClaudeSessionManager : Type := mkManager {
  sessionId : string;
  sessionFile : string;
  backupDir : string;
  lines : list (SessionLine number);
  originalContent : string
}.

(** The object and the storage it works on. *)
Record world : Type := mkWorld {
  this : ClaudeSessionManager;
  disk : storage
}.

(** An [async] method: it reads and updates the world and returns or
    throws.  What it changed before throwing stays changed. *)
Definition M (A : Type) : Type := world -> result A * world.

#[export] Instance M_ret : MRet M := fun A a w => (Returns a, w).
#[export] Instance M_bind : MBind M := fun A B k m w =>
  match m w with
  | (Returns a, w') => k a w'
  | (Throws e, w') => (Throws e, w')
  end.

Definition throw {A} (e : exn) : M A := fun w => (Throws e, w).

(** [try { body } catch (error) { handler }] *)
Definition try_catch {A} (body : M A) (handler : exn -> M A) : M A :=
  fun w =>
    match body w with
    | (Returns a, w') => (Returns a, w')
    | (Throws e, w') => handler e w'
    end.

Definition get_this : M ClaudeSessionManager := fun w => (Returns (this w), w).

Definition on_disk {A} (f : storage -> result A * storage) : M A := fun w =>
  let '(r, d) := f (disk w) in (r, {| this := this w; disk := d |}).

(** [t] with another [originalContent], and with other [lines]. *)
Definition with_originalContent (c : string) (t : ClaudeSessionManager)
  : ClaudeSessionManager :=
  {| sessionId := sessionId t; sessionFile := sessionFile t;
     backupDir := backupDir t; lines := lines t; originalContent := c |}.

Definition with_lines (ls : list (SessionLine number))
    (t : ClaudeSessionManager) : ClaudeSessionManager :=
  {| sessionId := sessionId t; sessionFile := sessionFile t;
     backupDir := backupDir t; lines := ls;
     originalContent := originalContent t |}.

(** [this.originalContent = c] *)
Definition set_originalContent (c : string) : M unit := fun w =>
  (Returns (), {| this := with_originalContent c (this w); disk := disk w |}).

(** [this.lines = ls], and the in-place updates of [forEach]. *)
Definition set_lines (ls : list (SessionLine number)) : M unit := fun w =>
  (Returns (), {| this := with_lines ls (this w); disk := disk w |}).

(** [fs.pathExists]: never rejects. *)
Definition fs_pathExists (path : string) : M bool := on_disk (fun d =>
  (Returns (bool_decide (is_Some (files d !! path))),
   record_call (PathExists path) d)).

(** [fs.ensureDir] *)
Definition fs_ensureDir (path : string) : M unit := on_disk (fun d =>
  let '(o, d1) := next_outcome (record_call (EnsureDir path) d) in
  match o with
  | Succeeds => (Returns (), d1)
  | Fails _ => (Throws (SystemError (EnsureDir path)), d1)
  end).

(** [fs.readFile(path, "utf8")] *)
Definition fs_readFile (path : string) : M string := on_disk (fun d =>
  let '(o, d1) := next_outcome (record_call (ReadFile path) d) in
  match o, files d1 !! path with
  | Succeeds, Some data => (Returns data, d1)
  | _, _ => (Throws (SystemError (ReadFile path)), d1)
  end).

(** [fs.writeFile(path, data)] *)
Definition fs_writeFile (path data : string) : M unit := on_disk (fun d =>
  let '(o, d1) := next_outcome (record_call (WriteFile path data) d) in
  match o with
  | Succeeds => (Returns (), set_file path (Some data) d1)
  | Fails residue =>
      (Throws (SystemError (WriteFile path data)), set_file path residue d1)
  end).

(** [path.join] on segments that need no normalisation. *)
Definition path_join (segments : list string) : string :=
  Str.join "/" segments.

(** The constructor; [home] is [homedir()] and [cwd] is
    [process.cwd()]. *)
Definition constructor (home cwd : string) (sessionId : string)
  : ClaudeSessionManager :=
  let cwdProject := Str.replace_char "/" "-" cwd in
  {| sessionId := sessionId;
     sessionFile :=
       path_join [home; ".claude"; "projects"; cwdProject;
                  sessionId +:+ ".jsonl"];
     backupDir :=
       path_join [home; ".claude"; "projects"; cwdProject;
                  "session-manager-backups"];
     lines := [];
     originalContent := "" |}.

(** [initialize] *)
Definition initialize : M unit :=
  t ← get_this;
  found ← fs_pathExists (sessionFile t);
  if negb found
  then throw (Error ("Session file not found: " +:+ sessionFile t))
  else
    fs_ensureDir (backupDir t);;
    data ← fs_readFile (sessionFile t);
    set_originalContent data;;
    set_lines (parseContent data).

(** [selected.includes(i)] *)
Definition includes (selected : list nat) (i : nat) : bool :=
  existsb (Nat.eqb i) selected.

(** [selectIndividual]; [selected] is the answer of the checkbox
    prompt. *)
Definition selectIndividual (selected : list nat) : M unit :=
  t ← get_this;
  set_lines
    (map (fun l =>
            if isMessage l then set_selected (includes selected (index l)) l
            else l)
       (lines t)).

(** [line.type === msgType] for a string [msgType] *)
Definition type_is (l : SessionLine number) (msgType : string) : bool :=
  match type l with
  | Some (JString s) => String.eqb s msgType
  | _ => false
  end.

(** The [forEach] of [selectByType], with the running [count]. *)
Fixpoint selectByType_each (msgType : string) (shouldSelect : bool)
    (ls : list (SessionLine number)) (count : nat) : list (SessionLine number) * nat :=
  match ls with
  | [] => ([], count)
  | l :: rest =>
      if type_is l msgType then
        let '(rest', n) :=
          selectByType_each msgType shouldSelect rest (S count) in
        (set_selected shouldSelect l :: rest', n)
      else
        let '(rest', n) :=
          selectByType_each msgType shouldSelect rest count in
        (l :: rest', n)
  end.

(** [selectByType]; [msgType] and [action] are the answers of the two
    prompts.  The result is the [count] the method reports.  The kinds
    the first prompt offers are the keys of [getStats().byType], which
    the header of the same turn of the menu has just computed from the
    same lines. *)
Definition selectByType (msgType action : string) : M nat :=
  t ← get_this;
  let shouldSelect := String.eqb action "Select" in
  let '(ls, count) := selectByType_each msgType shouldSelect (lines t) 0 in
  set_lines ls;;
  mret count.

(** The answer of the mode prompt of [selectMessages], with the answers
    of the prompts that follow it. *)
Inductive selection_mode : Type :=
| mode_individual (selected : list nat)
| mode_all
| mode_none
| mode_type (msgType action : string).

(** [selectMessages] *)
Definition selectMessages (mode : selection_mode) : M unit :=
  match mode with
  | mode_individual selected => selectIndividual selected
  | mode_all => t ← get_this; set_lines (map (set_selected true) (lines t))
  | mode_none => t ← get_this; set_lines (map (set_selected false) (lines t))
  | mode_type msgType action => selectByType msgType action;; mret ()
  end.

(** The three ways [saveChanges] ends: the prompt was declined, the
    spinner succeeded (with the backup path it prints), the spinner
    failed (with the error it prints). *)
Inductive save_report : Type :=
| SaveCancelled
| SaveSucceeded (backupFile : string)
| SaveFailed (e : exn).

(** The name of the backup made at [now], the clock's ISO string. *)
Definition backupFile_at (t : ClaudeSessionManager) (now : string) : string :=
  let timestamp := Str.replace_char ":" "-" now in
  path_join [backupDir t; sessionId t +:+ "." +:+ timestamp +:+ ".jsonl"].

(** [selectedLines.map(l => l.line).join('\n')] *)
Definition output_of (ls : list (SessionLine number)) : string :=
  let selectedLines := List.filter selected ls in
  Str.join Str.NL (map line selectedLines).

(** [saveChanges]; [confirm] is the answer of the prompt and [now] is
    [new Date().toISOString()]. *)
Definition saveChanges (confirm : bool) (now : string) : M save_report :=
  t ← get_this;
  if negb confirm then mret SaveCancelled
  else
    try_catch
      (let backupFile := backupFile_at t now in
       fs_writeFile backupFile (originalContent t);;
       let output := output_of (lines t) in
       fs_writeFile (sessionFile t) output;;
       set_originalContent output;;
       mret (SaveSucceeded backupFile))
      (fun error => mret (SaveFailed error)).

End Manager.
Global Arguments ClaudeSessionManager : clear implicits.
Global Arguments world : clear implicits.
Global Arguments M : clear implicits.

(** ** A reference runtime

    [JSON.parse] and [JSON.stringify] on a fragment of JSON, for
    running the model on concrete files: integer numbers (no fraction,
    no exponent), strings without [\u] escapes, objects whose keys are
    not repeated and are not array indices.  On a text of the fragment
    the functions below answer as the JavaScript ones; the theorems of
    this file hold for every runtime and do not depend on them. *)

Module Reference.

Definition is_json_space (c : ascii) : bool :=
  match c with
  | " " | "009" | "010" | "013" => true
  | _ => false
  end%char.

Fixpoint skip_ws (s : string) : string :=
  match s with
  | "" => ""
  | String c rest => if is_json_space c then skip_ws rest else s
  end.

(** Removes the prefix [p] from [s]. *)
Fixpoint eat (p s : string) : option string :=
  match p, s with
  | "", _ => Some s
  | String a p', String b s' => if Ascii.eqb a b then eat p' s' else None
  | _, _ => None
  end.

Definition unescape (c : ascii) : option ascii :=
  match c with
  | "034" => Some "034"
  | "092" => Some "092"
  | "/" => Some "/"
  | "b" => Some "008"
  | "f" => Some "012"
  | "n" => Some "010"
  | "r" => Some "013"
  | "t" => Some "009"
  | _ => None
  end%char.

Definition is_control (c : ascii) : bool := (N_of_ascii c <? 32)%N.

(** The characters of a string literal, after its opening quote. *)
Fixpoint parse_chars (s : string) : option (string * string) :=
  match s with
  | "" => None
  | String c rest =>
      if Ascii.eqb c "034" then Some ("", rest)
      else if Ascii.eqb c "092" then
        match rest with
        | String e rest' =>
            x ← unescape e;
            '(body, r) ← parse_chars rest';
            Some (String x body, r)
        | "" => None
        end
      else if is_control c then None
      else
        '(body, r) ← parse_chars rest;
        Some (String c body, r)
  end.

Definition digit_value (c : ascii) : option Z :=
  let n := N_of_ascii c in
  if ((48 <=? n) && (n <=? 57))%N then Some (Z.of_N n - 48)%Z else None.

Fixpoint parse_digits (acc : Z) (s : string) : Z * string :=
  match s with
  | "" => (acc, "")
  | String c rest =>
      match digit_value c with
      | Some d => parse_digits (10 * acc + d)%Z rest
      | None => (acc, s)
      end
  end.

(** An integer literal: no leading zero, nothing of a fraction or an
    exponent after it. *)
Definition parse_natural (s : string) : option (Z * string) :=
  match s with
  | "" => None
  | String c rest =>
      d ← digit_value c;
      let '(n, r) :=
        if (d =? 0)%Z then (0%Z, rest) else parse_digits d rest in
      match r with
      | "" => Some (n, r)
      | String x _ =>
          match digit_value x, x with
          | Some _, _ => None
          | None, ("." | "e" | "E")%char => None
          | None, _ => Some (n, r)
          end
      end
  end.

Definition parse_number (s : string) : option (Z * string) :=
  match s with
  | String "-" rest => '(n, r) ← parse_natural rest; Some ((- n)%Z, r)
  | _ => parse_natural s
  end.

Fixpoint parse_value (fuel : nat) (s : string) : option (json Z * string) :=
  match fuel with
  | 0 => None
  | S fuel' =>
      match skip_ws s with
      | String "n" _ as t => r ← eat "null" t; Some (JNull, r)
      | String "t" _ as t => r ← eat "true" t; Some (JBool true, r)
      | String "f" _ as t => r ← eat "false" t; Some (JBool false, r)
      | String "034" rest => '(str, r) ← parse_chars rest; Some (JString str, r)
      | String "[" rest =>
          match skip_ws rest with
          | String "]" r => Some (JArray [], r)
          | t => '(items, r) ← parse_elements fuel' t; Some (JArray items, r)
          end
      | String "{" rest =>
          match skip_ws rest with
          | String "}" r => Some (JObject [], r)
          | t => '(members, r) ← parse_members fuel' t; Some (JObject members, r)
          end
      | t => '(n, r) ← parse_number t; Some (JNumber n, r)
      end
  end
with parse_elements (fuel : nat) (s : string)
  : option (list (json Z) * string) :=
  match fuel with
  | 0 => None
  | S fuel' =>
      '(v, r) ← parse_value fuel' s;
      match skip_ws r with
      | String "," r' => '(vs, r'') ← parse_elements fuel' r'; Some (v :: vs, r'')
      | String "]" r' => Some ([v], r')
      | _ => None
      end
  end
with parse_members (fuel : nat) (s : string)
  : option (list (string * json Z) * string) :=
  match fuel with
  | 0 => None
  | S fuel' =>
      match skip_ws s with
      | String "034" rest =>
          '(k, r) ← parse_chars rest;
          match skip_ws r with
          | String ":" r1 =>
              '(v, r2) ← parse_value fuel' r1;
              match skip_ws r2 with
              | String "," r3 =>
                  '(ms, r4) ← parse_members fuel' r3; Some ((k, v) :: ms, r4)
              | String "}" r3 => Some ([(k, v)], r3)
              | _ => None
              end
          | _ => None
          end
      | _ => None
      end
  end.

(** One JSON value between optional white space, and nothing else. *)
Definition parse (s : string) : option (json Z) :=
  '(v, r) ← parse_value (2 * String.length s + 2) s;
  match skip_ws r with
  | "" => Some v
  | _ => None
  end.

Definition print_Z (z : Z) : string :=
  DecimalString.NilZero.string_of_int (Z.to_int z).

Definition hex_digit (n : N) : ascii :=
  ascii_of_N (if (n <? 10)%N then 48 + n else 87 + n)%N.

(** The escape sequence of [x]. *)
Definition backslash (x : ascii) : string := String "092" (String x "").

(** A character inside a serialized string. *)
Definition escape (c : ascii) : string :=
  if Ascii.eqb c "034" then backslash "034"
  else if Ascii.eqb c "092" then backslash "092"
  else if Ascii.eqb c "008" then backslash "b"
  else if Ascii.eqb c "012" then backslash "f"
  else if Ascii.eqb c "010" then backslash "n"
  else if Ascii.eqb c "013" then backslash "r"
  else if Ascii.eqb c "009" then backslash "t"
  else if is_control c then
    backslash "u" +:+ "00" +:+
    String (hex_digit (N_of_ascii c / 16)%N)
      (String (hex_digit (N_of_ascii c mod 16)%N) "")
  else String c "".

Fixpoint quote_chars (s : string) : string :=
  match s with
  | "" => ""
  | String c rest => escape c +:+ quote_chars rest
  end.

Definition quote (s : string) : string :=
  String "034" (quote_chars s +:+ String "034" "").

Fixpoint stringify (v : json Z) : string :=
  match v with
  | JNull => "null"
  | JBool b => if b then "true" else "false"
  | JNumber n => print_Z n
  | JString s => quote s
  | JArray items => "[" +:+ Str.join "," (map stringify items) +:+ "]"
  | JObject members =>
      "{" +:+
      Str.join ","
        (map (fun kv => quote (fst kv) +:+ ":" +:+ stringify (snd kv)) members)
      +:+ "}"
  end.

Definition runtime : JSRuntime Z := {|
  number_isZero := Z.eqb 0;
  Number_toString := print_Z;
  JSON_parse := parse;
  JSON_stringify := stringify
|}.

End Reference.

(** ** Concrete files *)

(** A text written with apostrophes where the file has double quotes. *)
Definition dq (s : string) : string := Str.replace_char "'" "034" s.

(** A text written with [|] where the file has a line feed and [^]
    where it has a carriage return. *)
Definition nl (s : string) : string :=
  Str.replace_char "^" Str.CR (Str.replace_char "|" Str.LF s).

(** A session of the examples, right after its construction. *)
Module Example.

Definition manager : ClaudeSessionManager Z :=
  constructor "/home/user" "/work/project" "session-1".

Definition now : string := "2024-05-06T07:08:09.123Z".

(** The storage with [data] in the session file and [answers] as the
    coming answers of the environment. *)
Definition storage_with (data : string) (answers : list outcome) : storage :=
  {| files := {[ sessionFile manager := data ]};
     script := answers;
     calls := [] |}.

(** The session once it loaded [data]. *)
Definition loaded (data : string) : ClaudeSessionManager Z :=
  with_lines (parseContent (RT := Reference.runtime) data)
    (with_originalContent data manager).

(** A file of four lines: a user message, an empty line, a line that
    is not JSON, an assistant message with a text item. *)
Definition four_lines : string :=
  nl (dq "{'type':'user','content':'hi'}||not json|{'message':{'role':'assistant','content':[{'type':'text','text':'hello'}]}}").

(** The session that loaded the four lines and then had its first line
    deselected: of the two messages, lines 0 and 3, only line 3 is
    ticked in the prompt. *)
Definition curated : ClaudeSessionManager Z :=
  this (selectIndividual [3]
          {| this := loaded four_lines; disk := storage_with four_lines [] |}).2.

End Example.

(** ** Notions the properties are stated with *)

(** Number of matches of [/\r?\n/], scanning from the left as [split]
    does. *)
Fixpoint count_breaks (s : string) : nat :=
  match s with
  | "" => 0
  | String c rest =>
      if Str.is_LF c then S (count_breaks rest)
      else
        match rest with
        | String c2 rest' =>
            if Str.is_CR c && Str.is_LF c2 then S (count_breaks rest')
            else count_breaks rest
        | "" => 0
        end
  end.

Section Notions.
Context {number : Type} {RT : JSRuntime number}.

(** [l'] is [l] except, possibly, for its selection flag. *)
Definition same_line (l l' : SessionLine number) : Prop :=
  index l' = index l /\ line l' = line l /\ type l' = type l /\
  content l' = content l /\ isMessage l' = isMessage l.

(** [t'] has the identifier and the paths of [t]. *)
Definition same_paths (t t' : ClaudeSessionManager number) : Prop :=
  sessionId t' = sessionId t /\ sessionFile t' = sessionFile t /\
  backupDir t' = backupDir t.

(** [t'] is [t] except, possibly, for its [lines]. *)
Definition same_but_lines (t t' : ClaudeSessionManager number) : Prop :=
  sessionId t' = sessionId t /\ sessionFile t' = sessionFile t /\
  backupDir t' = backupDir t /\ originalContent t' = originalContent t.

(** The record of a line that is blank, is not JSON, or made the
    extraction throw. *)
Definition bare_line (i : nat) (raw : string) : SessionLine number :=
  {| index := i; line := raw; type := None; content := None;
     selected := true; isMessage := false |}.

(** The record kind as a rule of presence alone would give it: the
    first field that is there, whatever it holds. *)
Definition recordKind_by_presence (parsed : json number) : json number :=
  let message := get parsed "message" in
  match get parsed "type" with
  | Some v => v
  | None =>
      match get_opt message "type" with
      | Some v => v
      | None =>
          match get_opt message "role" with
          | Some v => v
          | None => JString "unknown"
          end
      end
  end.

(** The message content, [parsed.message?.content]. *)
Definition message_content (parsed : json number) : option (json number) :=
  get_opt (get parsed "message") "content".

(** No content field the parser recognises: no string [content] at the
    top, and a message content that is absent or falsy and not a
    string. *)
Definition no_content_field (parsed : json number) : Prop :=
  (forall s, get parsed "content" <> Some (JString s)) /\
  (forall s, message_content parsed <> Some (JString s)) /\
  truthy (message_content parsed) = false.

(** No [null] among the items of a message content that is a list. *)
Definition no_null_item (parsed : json number) : Prop :=
  forall items, message_content parsed = Some (JArray items) ->
    Forall (fun item => item <> JNull) items.

(** The text items of a message content that is a list have a text
    that converts to a string. *)
Definition texts_convert (parsed : json number) : Prop :=
  forall items, message_content parsed = Some (JArray items) ->
    Forall (fun item =>
              is_text (get item "type") = true ->
              forall v, get item "text" = Some v -> converts v = true)
      items.

(** [n] of the elements of a list satisfy [P]. *)
Inductive counted {A : Type} (P : A -> Prop) : list A -> nat -> Prop :=
| counted_nil : counted P [] 0
| counted_yes (x : A) (l : list A) (n : nat) :
    P x -> counted P l n -> counted P (x :: l) (S n)
| counted_no (x : A) (l : list A) (n : nat) :
    ~ P x -> counted P l n -> counted P (x :: l) n.

(** The paths of [t] are those its constructor computed. *)
Definition constructed (t : ClaudeSessionManager number) : Prop :=
  exists home cwd,
    let made : ClaudeSessionManager number :=
      constructor home cwd (sessionId t) in
    sessionFile t = sessionFile made /\ backupDir t = backupDir made.

(** The two bulk cases ['all'] and ['none'] of [selectMessages]. *)
Definition toggleAll (value : bool) : M number unit :=
  selectMessages (if value then mode_all else mode_none).

(** [selectByType] with the action that stands for [value]. *)
Definition setSelectionForType (recordKind : string) (value : bool)
  : M number nat :=
  selectByType recordKind (if value then "Select" else "Deselect").

(** Loading a session and saving it at once, every line still
    selected. *)
Definition load_then_save (now : string) : M number save_report :=
  initialize;; saveChanges true now.

End Notions.

(** ** The other methods of the manager *)

(** The properties a plain object such as [{}] inherits from
    [Object.prototype], [__proto__] aside: [inherited k] is the text
    that string concatenation gives for the inherited [k] (all of them
    are functions), and [None] when [k] is not inherited. *)
Class PlainObject := {
  inherited : string -> option string
}.

(** A value of [stats.byType]: a count, or the text that
    [(x || 0) + 1] builds when [x] is not a number. *)
Inductive tally : Type :=
| Tally (n : nat)
| Garbled (text : string).

(** [str.substring(0, n)] *)
Fixpoint substring_to (n : nat) (s : string) : string :=
  match n, s with
  | S n', String c rest => String c (substring_to n' rest)
  | _, _ => ""
  end.

(** [truncate]; [maxLength - 3] below zero is zero for [substring], as
    the subtraction of [nat] has it. *)
Definition truncate (str : string) (maxLength : nat) : string :=
  if String.eqb str "" then "[No content]"
  else
    let clean := Str.trim (Str.replace_char Str.LF " " str) in
    if maxLength <? String.length clean
    then substring_to (maxLength - 3) clean +:+ "..."
    else clean.

(** [s.startsWith(p)] *)
Fixpoint startsWith (s p : string) : bool :=
  match p, s with
  | "", _ => true
  | String a p', String b s' => Ascii.eqb a b && startsWith s' p'
  | _, _ => false
  end.

(** [path] without the prefix [p], when it has it. *)
Fixpoint strip_prefix (p path : string) : option string :=
  match p, path with
  | "", _ => Some path
  | String a p', String b path' =>
      if Ascii.eqb a b then strip_prefix p' path' else None
  | _, _ => None
  end.

(** The text up to the first [/]. *)
Fixpoint first_segment (s : string) : string :=
  match s with
  | "" => ""
  | String c rest =>
      if Ascii.eqb c "/" then "" else String c (first_segment rest)
  end.

(** The name under which [dir] lists [path]: the file itself, or the
    directory of [dir] it lies in. *)
Definition entry_in (dir path : string) : option string :=
  rest ← strip_prefix (dir +:+ "/") path;
  Some (first_segment rest).

(** The entries of [dir], each once. *)
Definition entries (dir : string) (d : storage) : list string :=
  remove_dups (omap (entry_in dir) (map fst (map_to_list (files d)))).

(** The counters of [SessionStats]. *)
Module SessionStats.
Record t : Type := mk {
  total : nat;
  messages : nat;
  selected : nat;
  byType : gmap string tally
}.
End SessionStats.

(** The counters [runDiagnostics] prints. *)
Record diagnostics : Type := mkDiagnostics {
  jsonLines : nat;
  nonJsonLines : nat;
  emptyLines : nat
}.

Section OtherMethods.
Context {number : Type} {RT : JSRuntime number} {PO : PlainObject}.

(** [stats.byType[k] = (stats.byType[k] || 0) + 1].  Reading finds the
    own value, else the inherited one; writing [__proto__] calls the
    setter of [Object.prototype], which ignores a string. *)
Definition bump (k : string) (byType : gmap string tally)
  : gmap string tally :=
  if String.eqb k "__proto__" then byType
  else
    match byType !! k with
    | Some (Tally n) => <[k := Tally (n + 1)]> byType
    | Some (Garbled text) =>
        if String.eqb text "" then <[k := Tally 1]> byType
        else <[k := Garbled (text +:+ "1")]> byType
    | None =>
        match inherited k with
        | Some text => <[k := Garbled (text +:+ "1")]> byType
        | None => <[k := Tally 1]> byType
        end
    end.

(** The body of the [forEach] of [getStats]; a value that is not a
    string becomes a property key by [ToString], which can throw. *)
Definition count_type (byType : gmap string tally) (l : SessionLine number)
  : result (gmap string tally) :=
  if truthy (type l) then
    match type l with
    | Some v => k ← ToString v; Returns (bump k byType)
    | None => Returns byType
    end
  else Returns byType.

(** [this.lines.forEach(count_type)], which stops at the first
    exception. *)
Fixpoint count_types (ls : list (SessionLine number))
    (byType : gmap string tally) : result (gmap string tally) :=
  match ls with
  | [] => Returns byType
  | l :: rest => byType' ← count_type byType l; count_types rest byType'
  end.

(** [getStats] *)
Definition getStats (t : ClaudeSessionManager number)
  : result SessionStats.t :=
  let total := length (lines t) in
  let messages := length (List.filter isMessage (lines t)) in
  let selected := length (List.filter selected (lines t)) in
  byType ← count_types (lines t) ∅;
  Returns {| SessionStats.total := total;
             SessionStats.messages := messages;
             SessionStats.selected := selected;
             SessionStats.byType := byType |}.

(** A call that returns or throws, inside a method. *)
Definition call {A} (r : result A) : M number A :=
  match r with
  | Returns a => mret a
  | Throws e => throw e
  end.

(** [displayHeader], which prints the counters of [getStats]. *)
Definition displayHeader : M number unit :=
  t ← get_this; call (getStats t);; mret ().

(** A row of the table of [viewMessages], before it is rendered: the
    index, the value handed to [colorType], the flag and the preview. *)
Record row : Type := mkRow {
  row_id : nat;
  row_type : option (json number);
  row_selected : bool;
  row_preview : string
}.

(** [line.content || fallback] *)
Definition content_or (fallback : string) (l : SessionLine number) : string :=
  match content l with
  | Some c => if String.eqb c "" then fallback else c
  | None => fallback
  end.

Definition view_row (l : SessionLine number) : row :=
  {| row_id := index l;
     row_type := js_or (type l) (Some (JString "unknown"));
     row_selected := selected l;
     row_preview := truncate (content_or "[No content]" l) 57 |}.

(** What [viewMessages] shows: the notice that there is no message, or
    the table. *)
Inductive view_report : Type :=
| NoMessages
| MessageTable (rows : list row).

(** [viewMessages] *)
Definition viewMessages : M number view_report :=
  t ← get_this;
  let messages := List.filter isMessage (lines t) in
  if length messages =? 0 then mret NoMessages
  else mret (MessageTable (map view_row messages)).

(** [showStatistics] *)
Definition showStatistics : M number SessionStats.t :=
  t ← get_this; call (getStats t).

(** The body of the [forEach] of [runDiagnostics]. *)
Definition diagnose (acc : diagnostics) (l : SessionLine number)
  : diagnostics :=
  if blank (line l) then
    {| jsonLines := jsonLines acc; nonJsonLines := nonJsonLines acc;
       emptyLines := emptyLines acc + 1 |}
  else
    match JSON_parse (line l) with
    | Some _ =>
        {| jsonLines := jsonLines acc + 1; nonJsonLines := nonJsonLines acc;
           emptyLines := emptyLines acc |}
    | None =>
        {| jsonLines := jsonLines acc; nonJsonLines := nonJsonLines acc + 1;
           emptyLines := emptyLines acc |}
    end.

(** [runDiagnostics]: the three counters.  The record kinds it prints
    after them are those of [getStats], which the header of the same
    turn of the menu has just computed from the same lines. *)
Definition runDiagnostics : M number diagnostics :=
  t ← get_this;
  mret (fold_left diagnose (lines t)
          {| jsonLines := 0; nonJsonLines := 0; emptyLines := 0 |}).

(** [fs.readdir].  [fs_call] has no constructor for a listing: it is
    recorded, and rejected, as a read of the directory. *)
Definition fs_readdir (path : string) : M number (list string) :=
  on_disk (fun d =>
    let '(o, d1) := next_outcome (record_call (ReadFile path) d) in
    match o with
    | Succeeds => (Returns (entries path d1), d1)
    | Fails _ => (Throws (SystemError (ReadFile path)), d1)
    end).

(** [backups.filter(f => f.startsWith(`${sessionId}.`)).sort().reverse()]:
    the default sort compares strings code unit by code unit. *)
Definition sessionBackups_of (sessionId : string) (backups : list string)
  : list string :=
  reverse
    (merge_sort String.le
       (List.filter (fun f => startsWith f (sessionId +:+ ".")) backups)).

(** The three ways [restoreBackup] ends. *)
Inductive restore_report : Type :=
| NoBackups
| Restored
| RestoreFailed (e : exn).

(** [restoreBackup]; [choose] is the user in front of the list prompt:
    it gets the choices shown and gives the one picked. *)
Definition restoreBackup (choose : list string -> string)
  : M number restore_report :=
  t ← get_this;
  backups ← fs_readdir (backupDir t);
  let sessionBackups := sessionBackups_of (sessionId t) backups in
  if length sessionBackups =? 0 then mret NoBackups
  else
    let backup := choose (take 10 sessionBackups) in
    try_catch
      (let backupPath := path_join [backupDir t; backup] in
       content ← fs_readFile backupPath;
       fs_writeFile (sessionFile t) content;;
       initialize;;
       mret Restored)
      (fun error => mret (RestoreFailed error)).

(** An answer to the prompt of the menu, with the answers to the
    prompts of the action chosen. *)
Inductive menu_action : Type :=
| act_view
| act_select (mode : selection_mode)
| act_save (confirm : bool) (now : string)
| act_restore (choose : list string -> string)
| act_stats
| act_diagnostics
| act_exit.

(** One turn of the [switch] of [interactiveMenu]; what an action shows
    is dropped. *)
Definition dispatch (action : menu_action) : M number unit :=
  match action with
  | act_view => viewMessages;; mret ()
  | act_select mode => selectMessages mode
  | act_save confirm now => saveChanges confirm now;; mret ()
  | act_restore choose => restoreBackup choose;; mret ()
  | act_stats => showStatistics;; mret ()
  | act_diagnostics => runDiagnostics;; mret ()
  | act_exit => mret ()
  end.

(** [interactiveMenu] on the answers the user gives, up to ['exit'] or
    to the prompt that gets no answer.  Every turn of the loop shows the
    header before it prompts. *)
Fixpoint interactiveMenu (answers : list menu_action) : M number unit :=
  displayHeader;;
  match answers with
  | [] => mret ()
  | act_exit :: _ => mret ()
  | action :: rest => dispatch action;; interactiveMenu rest
  end.

(** The action of the command: the exit code and the world it leaves.
    An exception of [initialize] or of the menu ends in
    [process.exit(1)]. *)
Definition main (home cwd sessionId : string) (answers : list menu_action)
    (d : storage) : nat * world number :=
  let manager := constructor home cwd sessionId in
  match (initialize;; interactiveMenu answers) {| this := manager; disk := d |} with
  | (Returns _, w) => (0, w)
  | (Throws _, w) => (1, w)
  end.

End OtherMethods.

(** The table of V8 for the reference runtime. *)
Module ReferenceObject.

Definition native (name : string) : string :=
  "function " +:+ name +:+ "() { [native code] }".

Definition inherited_names : list string :=
  ["__defineGetter__"; "__defineSetter__"; "hasOwnProperty";
   "__lookupGetter__"; "__lookupSetter__"; "isPrototypeOf";
   "propertyIsEnumerable"; "toString"; "valueOf"; "toLocaleString"].

Definition plain : PlainObject := {|
  inherited k :=
    if String.eqb k "constructor" then Some (native "Object")
    else if existsb (String.eqb k) inherited_names then Some (native k)
    else None
|}.

End ReferenceObject.

(** ** Notions of the further properties *)

Section FurtherNotions.
Context {number : Type} {RT : JSRuntime number}.

(** The fields of a line agree with one another: it is a message when
    its [type] is one of the four strings, it has a [content] when it
    has a [type], and a [type] it has is truthy. *)
Definition coherent (l : SessionLine number) : Prop :=
  (isMessage l = true <->
   exists s, s ∈ ["user"; "assistant"; "message"; "system"] /\
             type l = Some (JString s)) /\
  (type l = None <-> content l = None) /\
  (forall v, type l = Some v -> truthy (Some v) = true).

(** A text item of a message content list. *)
Definition text_item (text : string) : json number :=
  JObject [("type", JString "text"); ("text", JString text)].

(** The last character of a text is a carriage return. *)
Fixpoint ends_in_CR (s : string) : bool :=
  match s with
  | "" => false
  | String c "" => Str.is_CR c
  | String _ rest => ends_in_CR rest
  end.

(** What parsing the text of [l] again gives is what [l] holds, the
    index and the selection flag aside. *)
Definition parsed_from_its_text (l : SessionLine number) : Prop :=
  same_line (parseLine (index l) (line l)) l.

End FurtherNotions.

Section StatsNotions.
Context {number : Type} {RT : JSRuntime number}.

(** The line counts under the key [k] in [getStats]: its [type] is
    truthy and becomes the property key [k]. *)
Definition counts_under (k : string) (l : SessionLine number) : Prop :=
  exists v, type l = Some v /\ truthy (Some v) = true /\
            ToString v = Returns k.

(** The [type] of the line, when it has one, converts to a property
    key; and so does that of every line of the session. *)
Definition type_converts (l : SessionLine number) : bool :=
  match type l with
  | Some v => converts v
  | None => true
  end.

Definition types_convert (t : ClaudeSessionManager number) : bool :=
  forallb type_converts (lines t).

(** The line has a [type]. *)
Definition has_type (l : SessionLine number) : bool :=
  match type l with
  | Some _ => true
  | None => false
  end.

End StatsNotions.

(** Where the colons of a text are. *)
Fixpoint colon_mask (s : string) : list bool :=
  match s with
  | "" => []
  | String c rest => Ascii.eqb c ":" :: colon_mask rest
  end.

(** The text holds a slash. *)
Fixpoint has_slash (s : string) : bool :=
  match s with
  | "" => false
  | String c rest => Ascii.eqb c "/" || has_slash rest
  end.

(** The name of the backup file made at [now], inside the backup
    directory. *)
Definition backupName_at (sessionId now : string) : string :=
  sessionId +:+ "." +:+ Str.replace_char ":" "-" now +:+ ".jsonl".

(** The user who picks the first choice of a list prompt. *)
Definition first_choice (choices : list string) : string :=
  default "" (head choices).

Section MenuNotions.
Context {number : Type} {RT : JSRuntime number}.

(** The session is in order: every line stands at the position its
    [index] names, holds what its text parses to, and its text holds no
    line feed. *)
Definition session_ok (t : ClaudeSessionManager number) : Prop :=
  map index (lines t) = seq 0 (length (lines t)) /\
  Forall (fun l => parsed_from_its_text l /\ Str.count_LF (line l) = 0)
    (lines t).

(** An answer that asks neither for a confirmed save nor for a
    restore. *)
Definition quiet (action : menu_action) : bool :=
  match action with
  | act_save confirm _ => negb confirm
  | act_restore _ => false
  | _ => true
  end.

End MenuNotions.

(** A storage for the examples of [restoreBackup]: the four lines in
    the session file, two backups of the session and one of another
    session. *)
Module ExampleBackups.

Definition older : string := "session-1.2024-05-06T07-08-09.123Z.jsonl".
Definition newer : string := "session-1.2024-05-07T07-08-09.123Z.jsonl".
Definition other : string := "session-2.2024-05-08T07-08-09.123Z.jsonl".

Definition newer_text : string := dq "{'type':'user','content':'newer'}".

Definition storage : storage :=
  {| files :=
       {[ sessionFile Example.manager := Example.four_lines;
          path_join [backupDir Example.manager; older] := "old";
          path_join [backupDir Example.manager; newer] := newer_text;
          path_join [backupDir Example.manager; other] := "other" ]};
     script := [];
     calls := [] |}.

(** The user who picks the last choice of a list prompt. *)
Definition last_choice (choices : list string) : string :=
  default "" (last choices).

End ExampleBackups.

(** * Properties *)

(** ** Splitting and joining *)

Section StringFacts.

Lemma split_lines_nonempty (s : string) : Str.split_lines s <> [].
Proof.
  destruct s as [|c rest]; simpl; [discriminate|].
  destruct (Str.is_LF c); [discriminate|].
  destruct rest as [|c2 rest'].
  - simpl. discriminate.
  - destruct (Str.is_CR c && Str.is_LF c2); [discriminate|].
    destruct (Str.split_lines (String c2 rest')); discriminate.
Qed.

Lemma length_cons_head (c : ascii) (segs : list string) :
  segs <> [] -> length (Str.cons_head c segs) = length segs.
Proof. destruct segs; [congruence | reflexivity]. Qed.

Lemma join_cons_head (sep : string) (c : ascii) (segs : list string) :
  segs <> [] ->
  Str.join sep (Str.cons_head c segs) = String c (Str.join sep segs).
Proof.
  destruct segs as [|h t]; [congruence|]. intros _. simpl.
  destruct t; reflexivity.
Qed.

Lemma join_cons (sep s : string) (segs : list string) :
  segs <> [] -> Str.join sep (s :: segs) = s +:+ sep +:+ Str.join sep segs.
Proof. destruct segs; [congruence | reflexivity]. Qed.

(** Induction on a text two characters at a time, as the scanning
    functions recurse. *)
Lemma string_pair_ind (P : string -> Prop) :
  P "" ->
  (forall c, P (String c "")) ->
  (forall c c2 rest, P rest -> P (String c2 rest) -> P (String c (String c2 rest))) ->
  forall s, P s.
Proof.
  intros H0 H1 H2 s.
  assert (P s /\ forall c, P (String c s)) as [? _]; [|assumption].
  induction s as [|c2 rest [IH1 IH2]]; split; auto.
Qed.

Lemma length_split_lines (s : string) :
  length (Str.split_lines s) = S (count_breaks s).
Proof.
  induction s as [|c|c c2 rest IH1 IH2] using string_pair_ind.
  - reflexivity.
  - simpl. destruct (Str.is_LF c); reflexivity.
  - change (Str.split_lines (String c (String c2 rest))) with
      (if Str.is_LF c then "" :: Str.split_lines (String c2 rest)
       else if Str.is_CR c && Str.is_LF c2 then "" :: Str.split_lines rest
       else Str.cons_head c (Str.split_lines (String c2 rest))).
    change (count_breaks (String c (String c2 rest))) with
      (if Str.is_LF c then S (count_breaks (String c2 rest))
       else if Str.is_CR c && Str.is_LF c2 then S (count_breaks rest)
       else count_breaks (String c2 rest)).
    destruct (Str.is_LF c); [cbn [length]; f_equal; assumption|].
    destruct (Str.is_CR c && Str.is_LF c2); [cbn [length]; f_equal; assumption|].
    rewrite length_cons_head by apply split_lines_nonempty. exact IH2.
Qed.

Lemma is_LF_true (c : ascii) : Str.is_LF c = true -> c = Str.LF.
Proof. apply Ascii.eqb_eq. Qed.

Lemma join_split_lines (s : string) :
  Str.join Str.NL (Str.split_lines s) = Str.crlf_to_lf s.
Proof.
  induction s as [|c|c c2 rest IH1 IH2] using string_pair_ind.
  - reflexivity.
  - simpl. destruct (Str.is_LF c) eqn:E; [|reflexivity].
    apply is_LF_true in E. subst c. reflexivity.
  - change (Str.split_lines (String c (String c2 rest))) with
      (if Str.is_LF c then "" :: Str.split_lines (String c2 rest)
       else if Str.is_CR c && Str.is_LF c2 then "" :: Str.split_lines rest
       else Str.cons_head c (Str.split_lines (String c2 rest))).
    change (Str.crlf_to_lf (String c (String c2 rest))) with
      (if Str.is_CR c && Str.is_LF c2 then String Str.LF (Str.crlf_to_lf rest)
       else String c (Str.crlf_to_lf (String c2 rest))).
    destruct (Str.is_LF c) eqn:E.
    + apply is_LF_true in E. subst c.
      replace (Str.is_CR Str.LF && Str.is_LF c2) with false by reflexivity.
      rewrite join_cons by apply split_lines_nonempty.
      rewrite IH2. reflexivity.
    + destruct (Str.is_CR c && Str.is_LF c2).
      * rewrite join_cons by apply split_lines_nonempty.
        rewrite IH1. reflexivity.
      * rewrite join_cons_head by apply split_lines_nonempty.
        rewrite IH2. reflexivity.
Qed.

Lemma crlf_to_lf_id (s : string) :
  Str.has_crlf s = false -> Str.crlf_to_lf s = s.
Proof.
  induction s as [|c|c c2 rest IH1 IH2] using string_pair_ind.
  - reflexivity.
  - reflexivity.
  - change (Str.has_crlf (String c (String c2 rest))) with
      ((Str.is_CR c && Str.is_LF c2) || Str.has_crlf (String c2 rest)).
    change (Str.crlf_to_lf (String c (String c2 rest))) with
      (if Str.is_CR c && Str.is_LF c2 then String Str.LF (Str.crlf_to_lf rest)
       else String c (Str.crlf_to_lf (String c2 rest))).
    destruct (Str.is_CR c && Str.is_LF c2); cbn [orb]; [discriminate|].
    intros H. rewrite IH2 by exact H. reflexivity.
Qed.

Lemma count_breaks_LF (s : string) : count_breaks s = Str.count_LF s.
Proof.
  induction s as [|c|c c2 rest IH1 IH2] using string_pair_ind.
  - reflexivity.
  - cbn. destruct (Str.is_LF c); reflexivity.
  - change (count_breaks (String c (String c2 rest))) with
      (if Str.is_LF c then S (count_breaks (String c2 rest))
       else if Str.is_CR c && Str.is_LF c2 then S (count_breaks rest)
       else count_breaks (String c2 rest)).
    change (Str.count_LF (String c (String c2 rest))) with
      ((if Str.is_LF c then 1 else 0) +
       ((if Str.is_LF c2 then 1 else 0) + Str.count_LF rest)).
    change (Str.count_LF (String c2 rest)) with
      ((if Str.is_LF c2 then 1 else 0) + Str.count_LF rest) in IH2.
    destruct (Str.is_LF c); [rewrite IH2; reflexivity|].
    destruct (Str.is_CR c); cbn [andb].
    + destruct (Str.is_LF c2); [rewrite IH1; reflexivity | exact IH2].
    + exact IH2.
Qed.

End StringFacts.

(** ** The line parser *)

Section LineFacts.
Context {number : Type} {RT : JSRuntime number}.

Lemma parseLine_blank (i : nat) (raw : string) :
  blank raw = true -> parseLine i raw = bare_line i raw.
Proof. intros H. unfold parseLine. rewrite H. reflexivity. Qed.

Lemma parseLine_not_json (i : nat) (raw : string) :
  JSON_parse raw = None -> parseLine i raw = bare_line i raw.
Proof.
  intros H. unfold parseLine. rewrite H. destruct (blank raw); reflexivity.
Qed.

Lemma parseLine_extracted (i : nat) (raw : string) parsed msgType c :
  blank raw = false -> JSON_parse raw = Some parsed ->
  extract parsed = Returns (msgType, c) ->
  parseLine i raw =
    {| index := i; line := raw; type := msgType; content := Some c;
       selected := true; isMessage := is_message_type msgType |}.
Proof.
  intros Hb Hp He. unfold parseLine. rewrite Hb, Hp, He. reflexivity.
Qed.

Lemma parseLine_threw (i : nat) (raw : string) parsed e :
  JSON_parse raw = Some parsed -> extract parsed = Throws e ->
  parseLine i raw = bare_line i raw.
Proof.
  intros Hp He. unfold parseLine. rewrite Hp, He.
  destruct (blank raw); reflexivity.
Qed.

Lemma parseLine_index (i : nat) (raw : string) : index (parseLine i raw) = i.
Proof.
  unfold parseLine. destruct (blank raw); [reflexivity|].
  destruct (JSON_parse raw) as [parsed|]; [|reflexivity].
  destruct (extract parsed) as [[msgType c]|]; reflexivity.
Qed.

Lemma parseLine_line (i : nat) (raw : string) : line (parseLine i raw) = raw.
Proof.
  unfold parseLine. destruct (blank raw); [reflexivity|].
  destruct (JSON_parse raw) as [parsed|]; [|reflexivity].
  destruct (extract parsed) as [[msgType c]|]; reflexivity.
Qed.

Lemma parseLine_selected (i : nat) (raw : string) :
  selected (parseLine i raw) = true.
Proof.
  unfold parseLine. destruct (blank raw); [reflexivity|].
  destruct (JSON_parse raw) as [parsed|]; [|reflexivity].
  destruct (extract parsed) as [[msgType c]|]; reflexivity.
Qed.

Lemma js_or_truthy (a b : option (json number)) :
  truthy a = true -> js_or a b = a.
Proof. intros H. unfold js_or. rewrite H. reflexivity. Qed.

Lemma js_or_falsy (a b : option (json number)) :
  truthy a = false -> js_or a b = b.
Proof. intros H. unfold js_or. rewrite H. reflexivity. Qed.

(** [msgType] is never [undefined]: the chain ends in a literal. *)
Lemma msgType_of_defined (parsed : json number) :
  exists k, msgType_of parsed = Some k.
Proof.
  unfold msgType_of, js_or.
  repeat match goal with
  | |- context [truthy ?v] => destruct v as [?|] eqn:?; [destruct (truthy (Some _))|cbn [truthy]]
  end; eauto.
Qed.

Lemma filter_text_returns (items : list (json number)) :
  Forall (fun item => item <> JNull) items ->
  exists kept, filter_text items = Returns kept.
Proof.
  induction 1 as [|item rest Hitem _ [kept IH]]; [eexists; reflexivity|].
  cbn [filter_text]. destruct item; try congruence;
    cbn; rewrite IH; cbn; eauto.
Qed.

(** Induction on a value and, for an array, on its items. *)
Lemma json_nested_ind (P : json number -> Prop) :
  P JNull -> (forall b, P (JBool b)) -> (forall n, P (JNumber n)) ->
  (forall s, P (JString s)) ->
  (forall items, Forall P items -> P (JArray items)) ->
  (forall members, P (JObject members)) ->
  forall v, P v.
Proof.
  intros Hnull Hbool Hnum Hstr Harr Hobj. fix IH 1.
  intros [|b|n|s|items|members].
  - exact Hnull.
  - apply Hbool.
  - apply Hnum.
  - apply Hstr.
  - apply Harr. induction items as [|item items IHitems]; constructor.
    + apply IH.
    + exact IHitems.
  - apply Hobj.
Qed.

(** [ToString] returns on the values that convert, and throws a
    [TypeError] on the others. *)
Lemma map_throwing_cases {A B : Type} (f : A -> result B)
    (ok : A -> bool) (l : list A) :
  Forall (fun x => if ok x then exists y, f x = Returns y
                   else f x = Throws TypeError) l ->
  if forallb ok l then exists ys, map_throwing f l = Returns ys
  else map_throwing f l = Throws TypeError.
Proof.
  induction 1 as [|x rest Hx _ IH]; [cbn; eauto|].
  cbn [forallb map_throwing]. destruct (ok x); cbn [andb].
  - destruct Hx as [y Hy]. rewrite Hy. cbn.
    destruct (forallb ok rest).
    + destruct IH as [ys Hys]. rewrite Hys. cbn. eauto.
    + rewrite IH. reflexivity.
  - rewrite Hx. reflexivity.
Qed.

Lemma ToString_cases (v : json number) :
  if converts v then exists s, ToString v = Returns s
  else ToString v = Throws TypeError.
Proof.
  induction v as [|b|n|s|items IH|members] using json_nested_ind;
    cbn [converts ToString]; eauto.
  - pose proof (map_throwing_cases
      (fun i => match i with JNull => Returns "" | _ => ToString i end)
      converts items) as Heach.
    destruct (forallb converts items).
    + destruct Heach as [parts Hparts]; [|rewrite Hparts; cbn; eauto].
      eapply Forall_impl; [exact IH|]. intros [| | | | |] Hi; cbn; eauto.
    + rewrite Heach; [reflexivity|].
      eapply Forall_impl; [exact IH|]. intros [| | | | |] Hi; cbn; eauto.
  - destruct (lookup_member "toString" members); eauto.
Qed.

Lemma ToString_returns (v : json number) :
  converts v = true -> exists s, ToString v = Returns s.
Proof. intros H. pose proof (ToString_cases v) as Hc. rewrite H in Hc. exact Hc. Qed.

Lemma ToString_throws (v : json number) :
  converts v = false -> ToString v = Throws TypeError.
Proof. intros H. pose proof (ToString_cases v) as Hc. rewrite H in Hc. exact Hc. Qed.

Lemma join_elements_returns (elements : list (option (json number))) :
  Forall (fun element => forall v, element = Some v -> converts v = true)
    elements ->
  exists parts, map_throwing join_element elements = Returns parts.
Proof.
  induction 1 as [|element rest He _ [parts IH]]; [eexists; reflexivity|].
  cbn [map_throwing]. rewrite IH.
  assert (exists s, join_element element = Returns s) as [s Hs].
  { destruct element as [v|]; [|cbn; eauto].
    destruct (ToString_returns v (He v eq_refl)) as [s Hs].
    destruct v; cbn [join_element]; eauto. }
  rewrite Hs. cbn. eauto.
Qed.

(** What the filter keeps are items of the list, and text items. *)
Lemma filter_text_kept (items kept : list (json number)) :
  filter_text items = Returns kept ->
  Forall (fun item => item ∈ items /\ is_text (get item "type") = true) kept.
Proof.
  revert kept. induction items as [|item rest IH]; intros kept Hk.
  - cbn in Hk. inversion Hk. constructor.
  - cbn [filter_text] in Hk.
    destruct (keep_text item) as [keep|] eqn:Ekeep; [|discriminate Hk].
    destruct (filter_text rest) as [kept'|]; [|discriminate Hk].
    cbn in Hk. inversion Hk as [Hkept]. clear Hk.
    assert (Forall (fun i => i ∈ item :: rest /\
                             is_text (get i "type") = true) kept') as Hrest.
    { eapply Forall_impl; [apply IH; reflexivity|].
      intros i [Hin Ht]. split; [right; exact Hin | exact Ht]. }
    destruct keep; [|exact Hrest].
    constructor; [|exact Hrest]. split; [left|].
    destruct item; try discriminate Ekeep; cbn [keep_text] in Ekeep;
      injection Ekeep as Hkeep; apply andb_prop in Hkeep;
      exact (proj1 Hkeep).
Qed.

(** The content of a message content list: the texts of its text
    items, joined. *)
Lemma content_of_items_returns (items : list (json number)) :
  Forall (fun item => item <> JNull) items ->
  Forall (fun item =>
            is_text (get item "type") = true ->
            forall v, get item "text" = Some v -> converts v = true)
    items ->
  exists kept parts,
    filter_text items = Returns kept /\
    map_throwing join_element (map (fun item => get item "text") kept) =
    Returns parts.
Proof.
  intros Hnn Hconv.
  destruct (filter_text_returns items Hnn) as [kept Hk].
  pose proof (filter_text_kept items kept Hk) as Hkept.
  destruct (join_elements_returns (map (fun item => get item "text") kept))
    as [parts Hparts].
  { apply Forall_map. eapply Forall_impl; [exact Hkept|].
    intros item [Hin Ht] v Hv. rewrite Forall_forall in Hconv.
    exact (Hconv item Hin Ht v Hv). }
  eauto.
Qed.

Lemma content_of_returns (parsed : json number) :
  no_null_item parsed -> texts_convert parsed ->
  exists c, content_of parsed = Returns c.
Proof.
  intros Hnn Hconv. unfold content_of. fold (message_content parsed).
  destruct (message_content parsed) as [[| | | |items|]|] eqn:E;
    try (destruct (get parsed "content") as [[| | | | |]|]; eauto; fail).
  destruct (content_of_items_returns items (Hnn items E) (Hconv items E))
    as (kept & parts & Hk & Hparts).
  rewrite Hk. cbn. rewrite Hparts. cbn.
  destruct (get parsed "content") as [[| | | | |]|]; eauto.
Qed.

(** Every parsed value but [null] gets a record kind, unless a message
    content list holds a [null] or a text that does not convert. *)
Lemma extract_returns (parsed : json number) :
  parsed <> JNull -> no_null_item parsed -> texts_convert parsed ->
  exists c, extract parsed = Returns (msgType_of parsed, c).
Proof.
  intros Hnull Hnn Hconv.
  destruct (content_of_returns parsed Hnn Hconv) as [c Hc].
  exists c. destruct parsed; try congruence; unfold extract; rewrite Hc; reflexivity.
Qed.

Lemma content_of_no_field (parsed : json number) :
  no_content_field parsed -> content_of parsed = Returns "".
Proof.
  intros (Htop & Hstr & Hfalsy). unfold content_of.
  fold (message_content parsed).
  destruct (get parsed "content") as [[| | |s| |]|] eqn:E;
    try (exfalso; exact (Htop s eq_refl));
    destruct (message_content parsed) as [[| | |s'| |]|] eqn:E';
    try reflexivity; try (rewrite Hfalsy; reflexivity);
    try discriminate Hfalsy;
    exfalso; exact (Hstr s' eq_refl).
Qed.

Lemma map_line_imap (segs : list string)
    (f : nat -> string -> SessionLine number) :
  (forall i raw, line (f i raw) = raw) -> map line (imap f segs) = segs.
Proof.
  revert f. induction segs as [|s segs IH]; intros f Hl; [reflexivity|].
  rewrite imap_cons. cbn [map]. rewrite Hl. f_equal. apply IH.
  intros; apply Hl.
Qed.

End LineFacts.

(** ** Running the methods *)

Section ManagerFacts.
Context {number : Type} {RT : JSRuntime number}.

Lemma next_outcome_record_call (c : fs_call) (d : storage) :
  next_outcome (record_call c d) = (coming d 0, answered c d).
Proof.
  unfold next_outcome, record_call, coming, answered. cbn.
  destruct (script d); reflexivity.
Qed.

Lemma coming_answered (c : fs_call) (d : storage) (n : nat) :
  coming (answered c d) n = coming d (S n).
Proof.
  unfold coming, answered. cbn. destruct (script d) as [|o rest]; cbn.
  - destruct n; reflexivity.
  - rewrite drop_0. reflexivity.
Qed.

Lemma coming_set_file (path : string) (x : option string) (d : storage)
    (n : nat) :
  coming (set_file path x d) n = coming d n.
Proof. destruct x; reflexivity. Qed.

Lemma calls_set_file (path : string) (x : option string) (d : storage) :
  calls (set_file path x d) = calls d.
Proof. destruct x; reflexivity. Qed.

Lemma files_set_file_other (path other : string) (x : option string)
    (d : storage) :
  path <> other -> files (set_file path x d) !! other = files d !! other.
Proof.
  intros Hne. destruct x; [|reflexivity]. cbn. apply lookup_insert_ne, Hne.
Qed.

Lemma files_set_file_Some (path data : string) (d : storage) :
  files (set_file path (Some data) d) !! path = Some data.
Proof. cbn. apply lookup_insert_eq. Qed.

Lemma bind_returns {A B} (m : M number A) (k : A -> M number B)
    (w w' : world number) (a : A) :
  m w = (Returns a, w') -> (m ≫= k) w = k a w'.
Proof. intros H. unfold mbind, M_bind. rewrite H. reflexivity. Qed.

Lemma bind_throws {A B} (m : M number A) (k : A -> M number B)
    (w w' : world number) (e : exn) :
  m w = (Throws e, w') -> (m ≫= k) w = (Throws e, w').
Proof. intros H. unfold mbind, M_bind. rewrite H. reflexivity. Qed.

Lemma fs_writeFile_run (path data : string)
    (t : ClaudeSessionManager number) (d : storage) :
  fs_writeFile path data {| this := t; disk := d |} =
    match coming d 0 with
    | Succeeds =>
        (Returns (),
         {| this := t;
            disk := set_file path (Some data)
                      (answered (WriteFile path data) d) |})
    | Fails residue =>
        (Throws (SystemError (WriteFile path data)),
         {| this := t;
            disk := set_file path residue
                      (answered (WriteFile path data) d) |})
    end.
Proof.
  unfold fs_writeFile, on_disk. cbn [disk this].
  rewrite next_outcome_record_call. destruct (coming d 0); reflexivity.
Qed.

Lemma fs_ensureDir_run (path : string)
    (t : ClaudeSessionManager number) (d : storage) :
  fs_ensureDir path {| this := t; disk := d |} =
    (match coming d 0 with
     | Succeeds => Returns ()
     | Fails _ => Throws (SystemError (EnsureDir path))
     end,
     {| this := t; disk := answered (EnsureDir path) d |}).
Proof.
  unfold fs_ensureDir, on_disk. cbn [disk this].
  rewrite next_outcome_record_call. destruct (coming d 0); reflexivity.
Qed.

Lemma fs_readFile_run (path : string)
    (t : ClaudeSessionManager number) (d : storage) :
  fs_readFile path {| this := t; disk := d |} =
    (match coming d 0, files d !! path with
     | Succeeds, Some data => Returns data
     | _, _ => Throws (SystemError (ReadFile path))
     end,
     {| this := t; disk := answered (ReadFile path) d |}).
Proof.
  unfold fs_readFile, on_disk. cbn [disk this].
  rewrite next_outcome_record_call. cbn [answered files].
  destruct (coming d 0); [destruct (files d !! path)|]; reflexivity.
Qed.

(** [saveChanges], confirmed, run to its end. *)
Lemma saveChanges_run (now : string) (t : ClaudeSessionManager number)
    (d : storage) :
  let backupFile := backupFile_at t now in
  let output := output_of (lines t) in
  let backup := WriteFile backupFile (originalContent t) in
  let overwrite := WriteFile (sessionFile t) output in
  saveChanges true now {| this := t; disk := d |} =
    match coming d 0 with
    | Fails residue =>
        (Returns (SaveFailed (SystemError backup)),
         {| this := t; disk := set_file backupFile residue (answered backup d) |})
    | Succeeds =>
        let d1 := set_file backupFile (Some (originalContent t))
                    (answered backup d) in
        match coming d 1 with
        | Fails residue =>
            (Returns (SaveFailed (SystemError overwrite)),
             {| this := t;
                disk := set_file (sessionFile t) residue
                          (answered overwrite d1) |})
        | Succeeds =>
            (Returns (SaveSucceeded backupFile),
             {| this := with_originalContent output t;
                disk := set_file (sessionFile t) (Some output)
                          (answered overwrite d1) |})
        end
    end.
Proof.
  intros backupFile output backup overwrite.
  unfold saveChanges, mbind, M_bind, get_this, try_catch. cbn [negb this].
  rewrite fs_writeFile_run. fold backupFile backup.
  destruct (coming d 0) as [|residue] eqn:H0; [|reflexivity].
  fold output. rewrite fs_writeFile_run. fold overwrite.
  rewrite coming_set_file, coming_answered.
  destruct (coming d 1) as [|residue]; reflexivity.
Qed.

Lemma saveChanges_declined (now : string) (w : world number) :
  saveChanges false now w = (Returns SaveCancelled, w).
Proof. reflexivity. Qed.

(** [initialize] run to its end on a session file that is there. *)
Lemma initialize_run (t : ClaudeSessionManager number) (d : storage)
    (data : string) :
  files d !! sessionFile t = Some data ->
  coming d 0 = Succeeds -> coming d 1 = Succeeds ->
  initialize {| this := t; disk := d |} =
    (Returns (),
     {| this := with_lines (parseContent data) (with_originalContent data t);
        disk := answered (ReadFile (sessionFile t))
                  (answered (EnsureDir (backupDir t))
                     (record_call (PathExists (sessionFile t)) d)) |}).
Proof.
  intros Hf H0 H1.
  unfold initialize, mbind, M_bind, get_this, fs_pathExists, on_disk.
  cbn [this disk]. rewrite Hf.
  rewrite bool_decide_eq_true_2 by (eexists; reflexivity). cbn [negb].
  rewrite fs_ensureDir_run.
  replace (coming (record_call (PathExists (sessionFile t)) d) 0)
    with Succeeds by (symmetry; exact H0).
  rewrite fs_readFile_run, coming_answered.
  replace (coming (record_call (PathExists (sessionFile t)) d) 1)
    with Succeeds by (symmetry; exact H1).
  cbn [answered record_call files]. rewrite Hf. reflexivity.
Qed.

(** A session that loaded holds the parsed lines of what it read. *)
Lemma initialize_lines (w : world number) :
  match initialize w with
  | (Returns _, w') =>
      lines (this w') = parseContent (originalContent (this w'))
  | (Throws _, _) => True
  end.
Proof.
  destruct w as [t d].
  unfold initialize, mbind, M_bind, get_this, fs_pathExists, on_disk.
  cbn [this disk].
  destruct (bool_decide (is_Some (files d !! sessionFile t))); cbn [negb];
    [|exact I].
  rewrite fs_ensureDir_run.
  destruct (coming _ 0); [|exact I].
  rewrite fs_readFile_run.
  destruct (coming _ 0); [|exact I].
  destruct (files _ !! sessionFile t); [|exact I].
  reflexivity.
Qed.

(** The paths never change. *)
Lemma constructed_with_lines (ls : list (SessionLine number))
    (t : ClaudeSessionManager number) :
  constructed t -> constructed (with_lines ls t).
Proof. intros H. exact H. Qed.

Lemma constructed_with_originalContent (c : string)
    (t : ClaudeSessionManager number) :
  constructed t -> constructed (with_originalContent c t).
Proof. intros H. exact H. Qed.

Lemma constructed_constructor (home cwd sid : string) :
  constructed (constructor (number := number) home cwd sid).
Proof. exists home, cwd. split; reflexivity. Qed.

End ManagerFacts.

(** ** The backup is another file than the session *)

Section Paths.
Context {number : Type}.

Lemma length_append (a b : string) :
  String.length (a +:+ b) = String.length a + String.length b.
Proof.
  induction a as [|c a IH]; [reflexivity|].
  change (String c a +:+ b) with (String c (a +:+ b)).
  cbn [String.length]. rewrite IH. reflexivity.
Qed.

Lemma backupFile_differs (t : ClaudeSessionManager number) (now : string) :
  constructed t -> backupFile_at t now <> sessionFile t.
Proof.
  intros (home & cwd & Hs & Hb) Heq.
  apply (f_equal String.length) in Heq.
  unfold backupFile_at in Heq. rewrite Hs, Hb in Heq.
  unfold constructor, path_join in Heq. cbn [sessionFile backupDir Str.join] in Heq.
  rewrite !length_append in Heq. cbn [String.length] in Heq. lia.
Qed.

End Paths.

(** ** Saving *)

Section SaveClaims.
Context {number : Type} {RT : JSRuntime number}.

Lemma output_of_parseContent (data : string) :
  output_of (parseContent data) = Str.join Str.NL (Str.split_lines data).
Proof.
  unfold output_of, parseContent.
  assert (forall (segs : list string) (f : nat -> string -> SessionLine number),
    (forall i raw, line (f i raw) = raw) ->
    (forall i raw, selected (f i raw) = true) ->
    map line (List.filter selected (imap f segs)) = segs) as H.
  { induction segs as [|s segs IH]; intros f Hl Hs; [reflexivity|].
    rewrite imap_cons. cbn [List.filter]. rewrite Hs. cbn [map].
    rewrite Hl. f_equal. apply IH; intros; [apply Hl | apply Hs]. }
  rewrite H; [reflexivity | apply parseLine_line | apply parseLine_selected].
Qed.

(** C1.  [saveChanges] overwrites the session file only after the
    backup was written.  When the write of the backup fails, the only
    call made is that write, the session file holds what it held and
    the object is as it was; when the backup is written and the write
    of the session file fails, the backup file holds the whole of
    [originalContent] as it was before the save; and a write to the
    session file among the calls of the save means that the backup
    write had succeeded. *)
Theorem save_backup_before_overwrite (t : ClaudeSessionManager number)
    (d : storage) (now : string) :
  constructed t ->
  let backupFile := backupFile_at t now in
  let backup := WriteFile backupFile (originalContent t) in
  let overwrite := WriteFile (sessionFile t) (output_of (lines t)) in
  let run := saveChanges true now {| this := t; disk := d |} in
  (forall residue, coming d 0 = Fails residue ->
     run.1 = Returns (SaveFailed (SystemError backup)) /\
     calls (disk run.2) = calls d ++ [backup] /\
     files (disk run.2) !! sessionFile t = files d !! sessionFile t /\
     this run.2 = t) /\
  (forall residue, coming d 0 = Succeeds -> coming d 1 = Fails residue ->
     run.1 = Returns (SaveFailed (SystemError overwrite)) /\
     calls (disk run.2) = calls d ++ [backup; overwrite] /\
     files (disk run.2) !! backupFile = Some (originalContent t) /\
     this run.2 = t) /\
  (forall data,
     WriteFile (sessionFile t) data ∈ drop (length (calls d)) (calls (disk run.2)) ->
     coming d 0 = Succeeds).
Proof.
  intros Hc backupFile backup overwrite run.
  pose proof (backupFile_differs t now Hc) as Hne. fold backupFile in Hne.
  pose proof (saveChanges_run now t d) as Hrun. cbv zeta in Hrun.
  fold backupFile backup overwrite run in Hrun.
  split; [|split].
  - intros residue H0. rewrite Hrun, H0. cbn [fst snd disk this].
    rewrite calls_set_file.
    rewrite files_set_file_other by exact Hne.
    repeat split.
  - intros residue H0 H1. rewrite Hrun, H0, H1. cbn [fst snd disk this].
    rewrite calls_set_file.
    rewrite files_set_file_other by (intros E; exact (Hne (eq_sym E))).
    cbn [answered calls files]. rewrite calls_set_file.
    cbn [answered calls]. rewrite <- app_assoc, files_set_file_Some.
    repeat split.
  - intros data Hin.
    destruct (coming d 0) as [|residue] eqn:H0; [reflexivity|].
    exfalso. rewrite Hrun in Hin. cbn [snd disk] in Hin.
    rewrite calls_set_file in Hin. cbn [answered calls] in Hin.
    rewrite drop_app_length in Hin.
    apply list_elem_of_singleton in Hin. unfold backup in Hin.
    injection Hin as E _. exact (Hne (eq_sym E)).
Qed.

(** C3.  A confirmed save whose two writes succeed reports success,
    leaves in the session file the [line] of the selected lines, in
    their order, joined by single line feeds with none added at the
    end, and then sets [originalContent] to that text.  A save that
    does not report success leaves the object as it was, and a save
    reports success only when confirmed and both writes succeeded. *)
Theorem save_writes_selected_lines (t : ClaudeSessionManager number)
    (d : storage) (now : string) :
  let w := {| this := t; disk := d |} in
  let output := Str.join Str.NL (map line (List.filter selected (lines t))) in
  let backupFile := backupFile_at t now in
  (coming d 0 = Succeeds -> coming d 1 = Succeeds ->
   exists w',
     saveChanges true now w = (Returns (SaveSucceeded backupFile), w') /\
     files (disk w') !! sessionFile t = Some output /\
     calls (disk w') =
       calls d ++ [WriteFile backupFile (originalContent t);
                   WriteFile (sessionFile t) output] /\
     this w' = with_originalContent output t) /\
  (forall confirm r w',
     saveChanges confirm now w = (r, w') ->
     (forall b, r <> Returns (SaveSucceeded b)) -> this w' = t) /\
  (forall confirm b w',
     saveChanges confirm now w = (Returns (SaveSucceeded b), w') ->
     confirm = true /\ coming d 0 = Succeeds /\ coming d 1 = Succeeds).
Proof.
  intros w output backupFile.
  pose proof (saveChanges_run now t d) as Hrun. cbv zeta in Hrun.
  fold w backupFile in Hrun. change (output_of (lines t)) with output in Hrun.
  split; [|split].
  - intros H0 H1. rewrite Hrun, H0, H1. eexists. split; [reflexivity|].
    cbn [disk this]. rewrite files_set_file_Some, calls_set_file.
    cbn [answered calls]. rewrite calls_set_file. cbn [answered calls].
    rewrite <- app_assoc. repeat split.
  - intros [|] r w' Hs Hr.
    + rewrite Hrun in Hs.
      destruct (coming d 0); [destruct (coming d 1)|];
        inversion Hs; subst; try reflexivity.
      exfalso. exact (Hr _ eq_refl).
    + unfold w in Hs. rewrite saveChanges_declined in Hs.
      inversion Hs. reflexivity.
  - intros [|] b w' Hs.
    + rewrite Hrun in Hs.
      destruct (coming d 0); [destruct (coming d 1)|];
        [repeat split|discriminate..].
    + unfold w in Hs. rewrite saveChanges_declined in Hs. discriminate.
Qed.

(** C2, amended.  Loading a session and saving it at once, every line
    selected and the save confirmed, leaves in the session file the
    [line] of all the lines joined by line feeds, which is the text
    that was read with each CR LF turned into LF: the very text that
    was read, its last line break included, when it holds no CR LF. *)
Theorem roundtrip_normalises_crlf (t : ClaudeSessionManager number)
    (d : storage) (data now : string) :
  files d !! sessionFile t = Some data ->
  (forall n, n < 4 -> coming d n = Succeeds) ->
  exists b w',
    load_then_save now {| this := t; disk := d |} =
      (Returns (SaveSucceeded b), w') /\
    files (disk w') !! sessionFile t =
      Some (Str.join Str.NL (map line (lines (this w')))) /\
    files (disk w') !! sessionFile t = Some (Str.crlf_to_lf data) /\
    (Str.has_crlf data = false ->
     files (disk w') !! sessionFile t = Some data).
Proof.
  intros Hf Hok. unfold load_then_save.
  rewrite (bind_returns _ _ _ _ _
             (initialize_run t d data Hf (Hok 0 ltac:(lia)) (Hok 1 ltac:(lia)))).
  rewrite saveChanges_run. cbv zeta.
  rewrite !coming_answered.
  replace (coming (record_call (PathExists (sessionFile t)) d) 2)
    with Succeeds by (symmetry; apply (Hok 2); lia).
  replace (coming (record_call (PathExists (sessionFile t)) d) 3)
    with Succeeds by (symmetry; apply (Hok 3); lia).
  do 2 eexists. split; [reflexivity|].
  cbn [disk this with_lines with_originalContent lines sessionFile].
  rewrite files_set_file_Some, output_of_parseContent.
  assert (map line (parseContent data) = Str.split_lines data) as Hl.
  { unfold parseContent. apply map_line_imap, parseLine_line. }
  rewrite Hl, join_split_lines. repeat split.
  intros Hno. rewrite crlf_to_lf_id by exact Hno. reflexivity.
Qed.

End SaveClaims.

(** ** Parsing *)

Section ParseClaims.
Context {number : Type} {RT : JSRuntime number}.

Lemma parseLine_null (i : nat) (raw : string) :
  JSON_parse raw = Some JNull -> parseLine i raw = bare_line i raw.
Proof. intros H. exact (parseLine_threw i raw JNull TypeError H eq_refl). Qed.

(** Every parsed value but [null] gets a record kind, unless a message
    content list holds a [null] or a text that does not convert. *)
Lemma recordKind_assigned (i : nat) (raw : string) (parsed : json number) :
  blank raw = false -> JSON_parse raw = Some parsed ->
  parsed <> JNull -> no_null_item parsed -> texts_convert parsed ->
  type (parseLine i raw) = msgType_of parsed /\
  exists k, type (parseLine i raw) = Some k.
Proof.
  intros Hb Hp Hn Hi Ht. destruct (extract_returns parsed Hn Hi Ht) as [c Hc].
  rewrite (parseLine_extracted i raw parsed _ c Hb Hp Hc). cbn [type].
  split; [reflexivity | apply msgType_of_defined].
Qed.

(** C4, amended.  A line that is not blank and parses to a JSON value
    other than [null] with no content field the parser recognises gets
    the empty string as its [content]. *)
Theorem preview_empty_without_content (i : nat) (raw : string)
    (parsed : json number) :
  blank raw = false -> JSON_parse raw = Some parsed ->
  parsed <> JNull -> no_content_field parsed ->
  content (parseLine i raw) = Some "".
Proof.
  intros Hb Hp Hn Hc.
  assert (extract parsed = Returns (msgType_of parsed, "")) as He.
  { pose proof (content_of_no_field parsed Hc) as Hcontent.
    destruct parsed; try congruence; unfold extract; rewrite Hcontent;
      reflexivity. }
  rewrite (parseLine_extracted i raw parsed _ _ Hb Hp He). reflexivity.
Qed.

(** C5, amended.  For a line that parses to a JSON object, with no
    [null] among the items of a message content list and no text item
    there whose text fails to convert to a string (an object with a
    member of its own named [toString], or a list that holds one), the
    record kind is the first truthy one of the top-level [type], the
    message's [type] and the message's [role], and ["unknown"] when
    none is truthy: a field that is there but falsy (the empty string,
    [null], [false], zero) is passed over. *)
Theorem recordKind_first_truthy (i : nat) (raw : string)
    (members : list (string * json number)) :
  blank raw = false -> JSON_parse raw = Some (JObject members) ->
  no_null_item (JObject members) -> texts_convert (JObject members) ->
  let parsed := JObject members in
  let message := get parsed "message" in
  let recordKind := type (parseLine i raw) in
  (truthy (get parsed "type") = true -> recordKind = get parsed "type") /\
  (truthy (get parsed "type") = false ->
   truthy (get_opt message "type") = true ->
   recordKind = get_opt message "type") /\
  (truthy (get parsed "type") = false ->
   truthy (get_opt message "type") = false ->
   truthy (get_opt message "role") = true ->
   recordKind = get_opt message "role") /\
  (truthy (get parsed "type") = false ->
   truthy (get_opt message "type") = false ->
   truthy (get_opt message "role") = false ->
   recordKind = Some (JString "unknown")).
Proof.
  intros Hb Hp Hi Ht parsed message recordKind.
  assert (recordKind = msgType_of parsed) as ->.
  { apply (recordKind_assigned i raw parsed Hb Hp);
      [discriminate | exact Hi | exact Ht]. }
  unfold msgType_of. fold message. repeat split.
  - intros H1. rewrite js_or_truthy by exact H1. reflexivity.
  - intros H1 H2. rewrite js_or_falsy by exact H1.
    rewrite js_or_truthy by exact H2. reflexivity.
  - intros H1 H2 H3. rewrite js_or_falsy by exact H1.
    rewrite js_or_falsy by exact H2. rewrite js_or_truthy by exact H3.
    reflexivity.
  - intros H1 H2 H3. rewrite js_or_falsy by exact H1.
    rewrite js_or_falsy by exact H2. rewrite js_or_falsy by exact H3.
    reflexivity.
Qed.

(** C10.  Parsing gives one line per segment of the split, in order and
    with the segment as its [line]: the number of line breaks (one for
    each line feed, with or without a carriage return before it) plus
    one.
    The empty text gives the single line with empty [line], selected
    and not a message; so there is always at least one line, also in a
    session that loaded. *)
Theorem parse_one_line_per_segment (originalContent : string) :
  length (parseContent originalContent) = count_breaks originalContent + 1 /\
  count_breaks originalContent = Str.count_LF originalContent /\
  map line (parseContent originalContent) = Str.split_lines originalContent /\
  parseContent "" =
    [{| index := 0; line := ""; type := None; content := None;
        selected := true; isMessage := false |}] /\
  1 <= length (parseContent originalContent) /\
  (forall w : world number,
     match initialize w with
     | (Returns _, w') => 1 <= length (lines (this w'))
     | (Throws _, _) => True
     end).
Proof.
  assert (forall c, length (parseContent c) = count_breaks c + 1) as Hlen.
  { intros c. unfold parseContent.
    rewrite length_imap, length_split_lines. lia. }
  split; [apply Hlen|]. split; [apply count_breaks_LF|]. split.
  { unfold parseContent. apply map_line_imap, parseLine_line. }
  split; [reflexivity|]. split; [rewrite Hlen; lia|].
  intros w. pose proof (initialize_lines w) as H.
  destruct (initialize w) as [[[]|e] w']; [|exact I].
  rewrite H, Hlen. lia.
Qed.

End ParseClaims.

(** ** Selecting *)

Section SelectionClaims.
Context {number : Type} {RT : JSRuntime number}.

Lemma same_line_set_selected (b : bool) (l : SessionLine number) :
  same_line l (set_selected b l).
Proof. repeat split. Qed.

Lemma includes_elem_of (sel : list nat) (i : nat) :
  includes sel i = true <-> i ∈ sel.
Proof.
  unfold includes. rewrite existsb_exists, list_elem_of_In. split.
  - intros (x & Hx & E). apply Nat.eqb_eq in E. subst x. exact Hx.
  - intros Hi. exists i. split; [exact Hi | apply Nat.eqb_refl].
Qed.

Lemma type_is_true (l : SessionLine number) (k : string) :
  type_is l k = true <-> type l = Some (JString k).
Proof.
  unfold type_is. destruct (type l) as [[| | |s| |]|];
    try (split; [discriminate | intros E; discriminate E]).
  rewrite String.eqb_eq. split; [intros ->; reflexivity | congruence].
Qed.

Lemma type_is_false (l : SessionLine number) (k : string) :
  type_is l k = false <-> type l <> Some (JString k).
Proof.
  rewrite <- type_is_true. destruct (type_is l k); split; congruence.
Qed.

(** The [forEach] of [selectByType] updates the matching lines and adds
    their number to the count. *)
Lemma selectByType_each_spec (k : string) (value : bool)
    (ls : list (SessionLine number)) (count : nat) :
  exists ls' n,
    selectByType_each k value ls count = (ls', count + n) /\
    Forall2 (fun l l' =>
               (type l = Some (JString k) -> l' = set_selected value l) /\
               (type l <> Some (JString k) -> l' = l)) ls ls' /\
    counted (fun l => type l = Some (JString k)) ls n.
Proof.
  revert count. induction ls as [|l rest IH]; intros count.
  - exists [], 0. cbn. rewrite Nat.add_0_r. repeat constructor.
  - cbn [selectByType_each]. destruct (type_is l k) eqn:E.
    + destruct (IH (S count)) as (ls' & n & -> & HF & Hn).
      apply type_is_true in E.
      exists (set_selected value l :: ls'), (S n). split; [f_equal; lia|].
      split; [|constructor; assumption].
      constructor; [|exact HF]. split; [reflexivity | congruence].
    + destruct (IH count) as (ls' & n & -> & HF & Hn).
      apply type_is_false in E.
      exists (l :: ls'), n. split; [reflexivity|].
      split; [|apply counted_no; assumption].
      constructor; [|exact HF]. split; [congruence | reflexivity].
Qed.

(** C7.  [selectIndividual] with the chosen indices returns, and in the
    lines the object then holds the flag of every message line is
    whether its [index] is among them, and every other line, whose
    index may be among them or not, is as it was; nothing else of the
    object or of the storage changes. *)
Theorem selectIndividual_messages_only (chosen : list nat)
    (w : world number) :
  let run := selectIndividual chosen w in
  run.1 = Returns () /\ disk run.2 = disk w /\
  same_but_lines (this w) (this run.2) /\
  Forall2 (fun l l' =>
             (isMessage l = true ->
              same_line l l' /\ (selected l' = true <-> index l ∈ chosen)) /\
             (isMessage l = false -> l' = l))
    (lines (this w)) (lines (this run.2)).
Proof.
  cbv zeta. destruct w as [t d].
  split; [reflexivity|]. split; [reflexivity|].
  split; [repeat split|].
  unfold selectIndividual, mbind, M_bind, get_this, set_lines.
  cbn [this snd with_lines lines].
  induction (lines t) as [|l rest IH]; cbn [map]; [constructor|].
  constructor; [|exact IH].
  destruct (isMessage l); split; try congruence.
  intros _. split; [apply same_line_set_selected|].
  cbn [set_selected selected]. apply includes_elem_of.
Qed.

(** C8.  [selectByType], asked for the kind [recordKind] and the action
    that stands for [value], returns the number of lines whose [type]
    is the string [recordKind]; in the lines the object then holds
    those lines have the flag [value], and every other line is as it
    was (a line without [type] among them); nothing else of the object
    or of the storage changes. *)
Theorem setSelectionForType_exact (recordKind : string) (value : bool)
    (w : world number) :
  let run := setSelectionForType recordKind value w in
  (exists count,
     run.1 = Returns count /\
     counted (fun l => type l = Some (JString recordKind))
       (lines (this w)) count) /\
  disk run.2 = disk w /\
  same_but_lines (this w) (this run.2) /\
  Forall2 (fun l l' =>
             (type l = Some (JString recordKind) ->
              same_line l l' /\ selected l' = value) /\
             (type l <> Some (JString recordKind) -> l' = l) /\
             (type l = None -> l' = l))
    (lines (this w)) (lines (this run.2)).
Proof.
  cbv zeta. destruct w as [t d].
  destruct (selectByType_each_spec recordKind value (lines t) 0)
    as (ls' & n & Hrun & HF & Hn).
  assert (setSelectionForType recordKind value {| this := t; disk := d |} =
          (Returns n, {| this := with_lines ls' t; disk := d |})) as ->.
  { unfold setSelectionForType, selectByType, mbind, M_bind, get_this.
    cbn [this].
    replace (String.eqb (if value then "Select" else "Deselect") "Select")
      with value by (destruct value; reflexivity).
    rewrite Hrun. reflexivity. }
  cbn [fst snd this disk with_lines lines].
  split; [exists n; split; [reflexivity | exact Hn]|].
  split; [reflexivity|]. split; [repeat split|].
  eapply Forall2_impl; [exact HF|]. intros l l' [Hyes Hno].
  split; [|split].
  - intros H. rewrite (Hyes H).
    split; [apply same_line_set_selected | reflexivity].
  - exact Hno.
  - intros E. apply Hno. rewrite E. discriminate.
Qed.

(** C9.  [toggleAll] returns, and in the lines the object then holds
    every line has the flag [value], whatever the line is — blank, not
    JSON, JSON but not a message — and is otherwise as it was; their
    number is the same, and nothing else of the object or of the
    storage changes. *)
Theorem toggleAll_every_line (value : bool) (w : world number) :
  let run := toggleAll value w in
  run.1 = Returns () /\ disk run.2 = disk w /\
  same_but_lines (this w) (this run.2) /\
  Forall2 (fun l l' => same_line l l' /\ selected l' = value)
    (lines (this w)) (lines (this run.2)) /\
  length (lines (this run.2)) = length (lines (this w)) /\
  Forall (fun l' => selected l' = value) (lines (this run.2)).
Proof.
  cbv zeta. destruct w as [t d].
  assert (toggleAll value {| this := t; disk := d |} =
          (Returns (),
           {| this := with_lines (map (set_selected value) (lines t)) t;
              disk := d |})) as -> by (destruct value; reflexivity).
  cbn [fst snd this disk with_lines lines].
  split; [reflexivity|]. split; [reflexivity|]. split; [repeat split|].
  split; [|split].
  - induction (lines t) as [|l rest IH]; cbn [map]; [constructor|].
    constructor; [|exact IH].
    split; [apply same_line_set_selected | reflexivity].
  - apply length_map.
  - apply Forall_map. apply Forall_forall. intros l _. reflexivity.
Qed.

End SelectionClaims.

(** ** Concrete runs *)

Section Runs.
#[local] Existing Instance Reference.runtime.

Lemma constructed_loaded (data : string) : constructed (Example.loaded data).
Proof. exists "/home/user", "/work/project". split; reflexivity. Defined.

(** C4, as stated, fails: the line whose JSON is an object with the
    single member [type], the string [user], has no content field at
    all, and its [content] is the empty string, not absent. *)
Lemma preview_absent_counterexample :
  let raw := dq "{'type':'user'}" in
  let parsed : json Z := JObject [("type", JString "user")] in
  blank raw = false /\ JSON_parse raw = Some parsed /\
  no_content_field parsed /\
  content (parseLine 0 raw) = Some "" /\
  content (parseLine 0 raw) <> None.
Proof.
  cbv zeta. split; [reflexivity|]. split; [reflexivity|]. split.
  - split; [|split]; [intros s; discriminate | intros s; discriminate
                     | reflexivity].
  - split; [reflexivity | discriminate].
Qed.

(** The amended C4 on that line. *)
Lemma preview_empty_without_content_witness :
  let raw := dq "{'type':'user'}" in
  let parsed : json Z := JObject [("type", JString "user")] in
  blank raw = false /\ JSON_parse raw = Some parsed /\ parsed <> JNull /\
  no_content_field parsed /\
  content (parseLine 0 raw) = Some "".
Proof.
  cbv zeta.
  assert (no_content_field (JObject [("type", JString "user")] : json Z))
    as Hno.
  { split; [|split]; [intros s; discriminate | intros s; discriminate
                     | reflexivity]. }
  split; [reflexivity|]. split; [reflexivity|]. split; [discriminate|].
  split; [exact Hno|].
  apply (preview_empty_without_content 0 (dq "{'type':'user'}")
           (JObject [("type", JString "user")]));
    [reflexivity | reflexivity | discriminate | exact Hno].
Defined.

(** C5, as stated, fails: in the object with the empty string as its
    [type] and a [message] whose [role] is [user], the top-level [type]
    is there, and the record kind is the message's role. *)
Lemma recordKind_presence_counterexample :
  let raw := dq "{'type':'','message':{'role':'user'}}" in
  let parsed : json Z :=
    JObject [("type", JString "");
             ("message", JObject [("role", JString "user")])] in
  blank raw = false /\ JSON_parse raw = Some parsed /\
  get parsed "type" = Some (JString "") /\
  recordKind_by_presence parsed = JString "" /\
  type (parseLine 0 raw) = Some (JString "user") /\
  type (parseLine 0 raw) <> Some (recordKind_by_presence parsed).
Proof.
  cbv zeta. repeat (split; [reflexivity|]). discriminate.
Qed.

(** The amended C5 on a line with an empty [type], a [role] and a
    content list of one text item: its third case. *)
Lemma recordKind_first_truthy_witness :
  let raw :=
    dq "{'type':'','message':{'role':'user','content':[{'type':'text','text':'hi'}]}}" in
  let members : list (string * json Z) :=
    [("type", JString "");
     ("message",
      JObject [("role", JString "user");
               ("content",
                JArray [JObject [("type", JString "text");
                                 ("text", JString "hi")]])])] in
  blank raw = false /\ JSON_parse raw = Some (JObject members) /\
  no_null_item (JObject members) /\ texts_convert (JObject members) /\
  type (parseLine 0 raw) = Some (JString "user").
Proof.
  cbv zeta.
  set (raw := dq "{'type':'','message':{'role':'user','content':[{'type':'text','text':'hi'}]}}").
  set (members :=
    [("type", JString "");
     ("message",
      JObject [("role", JString "user");
               ("content",
                JArray [JObject [("type", JString "text");
                                 ("text", JString "hi")]])])]
    : list (string * json Z)).
  assert (no_null_item (JObject members)) as Hno.
  { intros items H. injection H as <-. repeat constructor. discriminate. }
  assert (texts_convert (JObject members)) as Hconv.
  { intros items H. injection H as <-. repeat constructor.
    intros _ v Hv. injection Hv as <-. reflexivity. }
  assert (JSON_parse raw = Some (JObject members)) as Hp
    by (vm_compute; reflexivity).
  assert (blank raw = false) as Hb by (vm_compute; reflexivity).
  split; [exact Hb|]. split; [exact Hp|]. split; [exact Hno|].
  split; [exact Hconv|].
  destruct (recordKind_first_truthy 0 raw members Hb Hp Hno Hconv)
    as (_ & _ & Hrole & _).
  apply Hrole; reflexivity.
Defined.

(** C6: the line [null] is JSON, and so is a line whose message content
    list holds a [null]; reading a property of [null] throws, the
    [catch] meant for lines that are not JSON takes over, and neither
    line gets a record kind. *)
Theorem null_line_without_recordKind :
  let raw := "null" in
  let raw2 := dq "{'type':'user','message':{'content':[null]}}" in
  blank raw = false /\ JSON_parse raw = Some (JNull : json Z) /\
  type (parseLine 0 raw) = None /\
  blank raw2 = false /\
  JSON_parse raw2 =
    Some (JObject [("type", JString "user");
                   ("message", JObject [("content", JArray [JNull])])]
          : json Z) /\
  type (parseLine 0 raw2) = None.
Proof. cbv zeta. repeat split. Qed.

(** The scenario of the four lines: a user message, an empty line, a
    line that is not JSON, an assistant message with a text item. *)
Example parse_scenario :
  parseContent Example.four_lines = [ {| index := 0; line := dq "{'type':'user','content':'hi'}";
         type := Some (JString "user"); content := Some "hi";
         selected := true; isMessage := true |};
      bare_line 1 "";
      bare_line 2 "not json";
      {| index := 3;
         line := dq "{'message':{'role':'assistant','content':[{'type':'text','text':'hello'}]}}";
         type := Some (JString "assistant"); content := Some "hello";
         selected := true; isMessage := true |} ].
Proof. reflexivity. Qed.

(** The amended C2 on a file of two lines, the first ended by CR LF
    and the second by LF. *)
Lemma roundtrip_normalises_crlf_witness :
  let data := nl "a^|b|" in
  let t := Example.manager in
  let d := Example.storage_with data [] in
  files d !! sessionFile t = Some data /\
  (forall n, n < 4 -> coming d n = Succeeds) /\
  exists b w',
    load_then_save Example.now {| this := t; disk := d |} =
      (Returns (SaveSucceeded b), w') /\
    files (disk w') !! sessionFile t = Some (nl "a|b|").
Proof.
  cbv zeta.
  assert (files (Example.storage_with (nl "a^|b|") []) !!
            sessionFile Example.manager = Some (nl "a^|b|")) as Hf
    by (vm_compute; reflexivity).
  assert (forall n, n < 4 ->
            coming (Example.storage_with (nl "a^|b|") []) n = Succeeds)
    as Hok by (intros [|[|[|[|n]]]] _; reflexivity).
  split; [exact Hf|]. split; [exact Hok|].
  destruct (roundtrip_normalises_crlf Example.manager _ _ Example.now Hf Hok)
    as (b & w' & Hrun & _ & Hcrlf & _).
  exists b, w'. split; [exact Hrun | exact Hcrlf].
Defined.

(** C2, as stated, fails: a file with a CR LF inside comes back with a
    bare LF there, which no treatment of the end of the text
    explains. *)
Lemma roundtrip_crlf_counterexample :
  let original := nl "a^|b" in
  let t := Example.manager in
  let run :=
    load_then_save Example.now
      {| this := t; disk := Example.storage_with original [] |} in
  exists b,
    run.1 = Returns (SaveSucceeded b) /\
    files (disk run.2) !! sessionFile t = Some (nl "a|b") /\
    ~ same_up_to_trailing_newline (nl "a|b") original.
Proof.
  cbv zeta. eexists. split; [vm_compute; reflexivity|].
  split; [vm_compute; reflexivity|].
  unfold same_up_to_trailing_newline. vm_compute. discriminate.
Qed.

Lemma constructed_curated : constructed Example.curated.
Proof. exists "/home/user", "/work/project". split; reflexivity. Defined.

(** C1 on the curated session, once with the backup write failing and
    leaving a piece of a file, once with the overwrite failing and
    leaving the session file empty. *)
Lemma save_backup_before_overwrite_witness :
  let t := Example.curated in
  let backupFile := backupFile_at t Example.now in
  let backup_fails :=
    Example.storage_with Example.four_lines [Fails (Some "{")] in
  let overwrite_fails :=
    Example.storage_with Example.four_lines [Succeeds; Fails (Some "")] in
  let run d := saveChanges true Example.now {| this := t; disk := d |} in
  constructed t /\
  (calls (disk (run backup_fails).2) =
     [WriteFile backupFile Example.four_lines] /\
   files (disk (run backup_fails).2) !! sessionFile t =
     Some Example.four_lines) /\
  files (disk (run overwrite_fails).2) !! backupFile =
    Some Example.four_lines.
Proof.
  cbv zeta. split; [exact constructed_curated|]. split.
  - destruct (save_backup_before_overwrite Example.curated
                (Example.storage_with Example.four_lines [Fails (Some "{")])
                Example.now constructed_curated) as (Hfails & _ & _).
    destruct (Hfails (Some "{") eq_refl) as (_ & Hcalls & Hfiles & _).
    split; [exact Hcalls|].
    rewrite Hfiles. vm_compute. reflexivity.
  - destruct (save_backup_before_overwrite Example.curated
                (Example.storage_with Example.four_lines
                   [Succeeds; Fails (Some "")])
                Example.now constructed_curated) as (_ & Hfails & _).
    destruct (Hfails (Some "") eq_refl eq_refl) as (_ & _ & Hfiles & _).
    exact Hfiles.
Defined.

(** The scenario of the save: with line 0 deselected, the session file
    gets lines 1, 2 and 3 joined by line feeds. *)
Lemma save_writes_selected_lines_witness :
  let t := Example.curated in
  let d := Example.storage_with Example.four_lines [] in
  coming d 0 = Succeeds /\ coming d 1 = Succeeds /\
  exists w',
    saveChanges true Example.now {| this := t; disk := d |} =
      (Returns (SaveSucceeded (backupFile_at t Example.now)), w') /\
    files (disk w') !! sessionFile t =
      Some (nl (dq "|not json|{'message':{'role':'assistant','content':[{'type':'text','text':'hello'}]}}")) /\
    originalContent (this w') =
      nl (dq "|not json|{'message':{'role':'assistant','content':[{'type':'text','text':'hello'}]}}").
Proof.
  cbv zeta. split; [reflexivity|]. split; [reflexivity|].
  destruct (save_writes_selected_lines Example.curated
              (Example.storage_with Example.four_lines []) Example.now)
    as (Hsave & _ & _).
  destruct (Hsave eq_refl eq_refl) as (w' & Hrun & Hfile & _ & Hthis).
  exists w'. split; [exact Hrun|]. split; [exact Hfile|].
  rewrite Hthis. reflexivity.
Defined.

(** What the selection commands do to the four lines. *)
Example selection_scenario :
  let w := {| this := Example.loaded Example.four_lines;
              disk := Example.storage_with Example.four_lines [] |} in
  map selected (lines (this (selectIndividual [1; 3] w).2)) =
    [false; true; true; true] /\
  map selected (lines (this (toggleAll false w).2)) =
    [false; false; false; false] /\
  (setSelectionForType "user" false w).1 = Returns 1 /\
  map selected (lines (this (setSelectionForType "user" false w).2)) =
    [false; true; true; true] /\
  (setSelectionForType "unknown" false w).1 = Returns 0.
Proof. cbv zeta. repeat split. Qed.

(** C7 on the four lines, with the indices of the blank line 1 and of
    the message 3 chosen: the message 0 loses its flag, the message 3
    keeps it, and the lines 1 and 2, which are no messages, are as
    they were. *)
Lemma selectIndividual_messages_only_witness :
  let w := {| this := Example.loaded Example.four_lines;
              disk := Example.storage_with Example.four_lines [] |} in
  let run := selectIndividual [1; 3] w in
  run.1 = Returns () /\ disk run.2 = disk w /\
  same_but_lines (this w) (this run.2) /\
  map isMessage (lines (this w)) = [true; false; false; true] /\
  map selected (lines (this w)) = [true; true; true; true] /\
  map selected (lines (this run.2)) = [false; true; true; true] /\
  map line (lines (this run.2)) = map line (lines (this w)).
Proof.
  cbv zeta.
  destruct (selectIndividual_messages_only [1; 3]
              {| this := Example.loaded Example.four_lines;
                 disk := Example.storage_with Example.four_lines [] |})
    as (Hret & Hdisk & Hsame & _).
  split; [exact Hret|]. split; [exact Hdisk|]. split; [exact Hsame|].
  split; [vm_compute; reflexivity|]. split; [vm_compute; reflexivity|].
  split; vm_compute; reflexivity.
Defined.

(** C8 on the four lines: deselecting the kind [user] matches the one
    line of that kind, line 0, and no other line changes. *)
Lemma setSelectionForType_exact_witness :
  let w := {| this := Example.loaded Example.four_lines;
              disk := Example.storage_with Example.four_lines [] |} in
  let run := setSelectionForType "user" false w in
  run.1 = Returns 1 /\ disk run.2 = disk w /\
  same_but_lines (this w) (this run.2) /\
  map type (lines (this w)) =
    [Some (JString "user"); None; None; Some (JString "assistant")] /\
  map selected (lines (this run.2)) = [false; true; true; true].
Proof.
  cbv zeta.
  destruct (setSelectionForType_exact "user" false
              {| this := Example.loaded Example.four_lines;
                 disk := Example.storage_with Example.four_lines [] |})
    as ((count & Hret & _) & Hdisk & Hsame & _).
  split.
  - rewrite Hret. vm_compute in Hret. injection Hret as <-. reflexivity.
  - split; [exact Hdisk|]. split; [exact Hsame|].
    split; vm_compute; reflexivity.
Defined.

(** C9 on the four lines: after [toggleAll] with [false] no line is
    selected, the blank line and the line that is not JSON
    included. *)
Lemma toggleAll_every_line_witness :
  let w := {| this := Example.loaded Example.four_lines;
              disk := Example.storage_with Example.four_lines [] |} in
  let run := toggleAll false w in
  run.1 = Returns () /\ disk run.2 = disk w /\
  length (lines (this run.2)) = 4 /\
  Forall (fun l' => selected l' = false) (lines (this run.2)) /\
  map selected (lines (this run.2)) = [false; false; false; false] /\
  map selected (lines (this (toggleAll true run.2).2)) =
    [true; true; true; true].
Proof.
  cbv zeta.
  destruct (toggleAll_every_line false
              {| this := Example.loaded Example.four_lines;
                 disk := Example.storage_with Example.four_lines [] |})
    as (Hret & Hdisk & _ & _ & Hlen & Hall).
  split; [exact Hret|]. split; [exact Hdisk|].
  split; [rewrite Hlen; vm_compute; reflexivity|]. split; [exact Hall|].
  split; vm_compute; reflexivity.
Defined.

End Runs.

(** * Further properties *)

(** ** Lines of a loaded session *)

Section LoadedLines.
Context {number : Type} {RT : JSRuntime number}.

Lemma map_index_imap (segs : list string)
    (f : nat -> string -> SessionLine number) (start : nat) :
  (forall i raw, index (f i raw) = start + i) ->
  map index (imap f segs) = seq start (length segs).
Proof.
  revert f start. induction segs as [|s segs IH]; intros f start Hf;
    [reflexivity|].
  rewrite imap_cons. cbn [map length seq]. rewrite Hf, Nat.add_0_r. f_equal.
  apply IH. intros i raw. unfold compose. rewrite Hf. lia.
Qed.

(** X1.  In a parsed text the [index] of a line is its position: the
    indices are 0, 1, 2, ... in order. *)
Theorem parsed_index_is_position (originalContent : string) :
  map index (parseContent originalContent) =
    seq 0 (length (parseContent originalContent)).
Proof.
  unfold parseContent. rewrite length_imap.
  apply map_index_imap. intros i raw. apply parseLine_index.
Qed.

Lemma Forall_imap (P : SessionLine number -> Prop) (segs : list string)
    (f : nat -> string -> SessionLine number) :
  (forall i raw, P (f i raw)) -> Forall P (imap f segs).
Proof.
  revert f. induction segs as [|s segs IH]; intros f Hf; [constructor|].
  rewrite imap_cons. constructor; [apply Hf|]. apply IH. intros; apply Hf.
Qed.

Lemma truthy_js_or_r (a b : option (json number)) :
  truthy b = true -> truthy (js_or a b) = true.
Proof. intros H. unfold js_or. destruct (truthy a) eqn:E; assumption. Qed.

Lemma msgType_of_truthy (parsed : json number) :
  truthy (msgType_of parsed) = true.
Proof. unfold msgType_of. do 3 apply truthy_js_or_r. reflexivity. Qed.

Lemma is_message_type_true (msgType : option (json number)) :
  is_message_type msgType = true <->
  exists s, s ∈ ["user"; "assistant"; "message"; "system"] /\
            msgType = Some (JString s).
Proof.
  unfold is_message_type. split.
  - destruct msgType as [[| | |s| |]|]; try discriminate.
    rewrite existsb_exists. intros (x & Hx & E).
    apply String.eqb_eq in E. subst x. exists s.
    split; [apply list_elem_of_In, Hx | reflexivity].
  - intros (s & Hs & ->). apply existsb_exists. exists s.
    split; [apply list_elem_of_In, Hs | apply String.eqb_refl].
Qed.

Lemma parseLine_coherent (i : nat) (raw : string) :
  coherent (parseLine i raw).
Proof.
  assert (coherent (bare_line i raw)) as Hbare.
  { split; [|split].
    - split; [discriminate | intros (s & _ & E); discriminate E].
    - split; reflexivity.
    - intros v E. discriminate E. }
  unfold parseLine. destruct (blank raw); [exact Hbare|].
  destruct (JSON_parse raw) as [parsed|]; [|exact Hbare].
  destruct (extract parsed) as [[msgType c]|] eqn:He; [|exact Hbare].
  assert (msgType = msgType_of parsed) as ->.
  { unfold extract in He. destruct parsed; try discriminate He;
      destruct (content_of _); inversion He; reflexivity. }
  split; [|split]; cbn [isMessage type content].
  - apply is_message_type_true.
  - destruct (msgType_of_defined parsed) as [k ->].
    split; discriminate.
  - intros v E. rewrite <- E. apply msgType_of_truthy.
Qed.

(** X2.  In every line of a parsed text the fields agree: [isMessage]
    holds exactly when [type] is one of the strings user, assistant,
    message, system; [content] is there exactly when [type] is; and a
    [type] that is there is truthy.  Every line is selected. *)
Theorem parsed_lines_coherent (originalContent : string) :
  Forall (fun l => coherent l /\ selected l = true)
    (parseContent originalContent).
Proof.
  unfold parseContent. apply Forall_imap. intros i raw.
  split; [apply parseLine_coherent | apply parseLine_selected].
Qed.

Lemma count_LF_cons_head (c : ascii) (segs : list string) :
  Str.is_LF c = false ->
  Forall (fun s => Str.count_LF s = 0) segs ->
  Forall (fun s => Str.count_LF s = 0) (Str.cons_head c segs).
Proof.
  intros Hc Hs. destruct Hs as [|h t Hh Ht]; cbn [Str.cons_head].
  - constructor; [|constructor]. cbn. rewrite Hc. reflexivity.
  - constructor; [|exact Ht]. cbn [Str.count_LF]. rewrite Hc, Hh. reflexivity.
Qed.

Lemma split_lines_no_LF (s : string) :
  Forall (fun seg => Str.count_LF seg = 0) (Str.split_lines s).
Proof.
  induction s as [|c|c c2 rest IH1 IH2] using string_pair_ind.
  - repeat constructor.
  - cbn. destruct (Str.is_LF c) eqn:E; [repeat constructor|].
    constructor; [|constructor]. cbn. rewrite E. reflexivity.
  - change (Str.split_lines (String c (String c2 rest))) with
      (if Str.is_LF c then "" :: Str.split_lines (String c2 rest)
       else if Str.is_CR c && Str.is_LF c2 then "" :: Str.split_lines rest
       else Str.cons_head c (Str.split_lines (String c2 rest))).
    destruct (Str.is_LF c) eqn:E; [constructor; [reflexivity | exact IH2]|].
    destruct (Str.is_CR c && Str.is_LF c2);
      [constructor; [reflexivity | exact IH1]|].
    apply count_LF_cons_head; assumption.
Qed.

(** X3.  No line of a parsed text holds a line feed, whatever the
    text. *)
Theorem parsed_lines_hold_no_line_feed (originalContent : string) :
  Forall (fun l => Str.count_LF (line l) = 0) (parseContent originalContent).
Proof.
  apply Forall_forall. intros l Hl.
  assert (line l ∈ map line (parseContent originalContent)) as Hin.
  { apply list_elem_of_fmap. exists l. split; [reflexivity | exact Hl]. }
  unfold parseContent in Hin.
  rewrite map_line_imap in Hin by apply parseLine_line.
  pose proof (split_lines_no_LF originalContent) as HF.
  rewrite Forall_forall in HF. apply HF, Hin.
Qed.

End LoadedLines.

(** ** The preview of a line *)

Section Previews.
Context {number : Type} {RT : JSRuntime number}.

Lemma get_not_null (parsed : json number) (k : string) (v : json number) :
  get parsed k = Some v -> parsed <> JNull.
Proof. intros H ->. discriminate H. Qed.

Lemma extract_of_content (parsed : json number) (c : string) :
  parsed <> JNull -> content_of parsed = Returns c ->
  extract parsed = Returns (msgType_of parsed, c).
Proof.
  intros Hn Hc. destruct parsed; try congruence; unfold extract; rewrite Hc;
    reflexivity.
Qed.

(** X4.  A string [content] at the top of the object is the preview,
    whatever the message holds: a message content list with a [null]
    in it, which alone makes the extraction throw, is not looked
    at. *)
Theorem top_level_content_wins (i : nat) (raw : string)
    (parsed : json number) (s : string) :
  blank raw = false -> JSON_parse raw = Some parsed ->
  get parsed "content" = Some (JString s) ->
  content (parseLine i raw) = Some s /\
  type (parseLine i raw) = msgType_of parsed.
Proof.
  intros Hb Hp Hc.
  assert (content_of parsed = Returns s) as Hcontent.
  { unfold content_of. rewrite Hc. reflexivity. }
  rewrite (parseLine_extracted i raw parsed _ s Hb Hp
             (extract_of_content parsed s (get_not_null _ _ _ Hc) Hcontent)).
  split; reflexivity.
Qed.

Lemma content_of_list (parsed : json number) (items : list (json number)) :
  (forall s, get parsed "content" <> Some (JString s)) ->
  message_content parsed = Some (JArray items) ->
  content_of parsed =
    (kept ← filter_text items;
     parts ← map_throwing join_element
               (map (fun item => get item "text") kept);
     let texts := Str.join Str.NL parts in
     Returns (if String.eqb texts "" then "[Complex content]" else texts)).
Proof.
  intros Htop Hm. unfold content_of. fold (message_content parsed).
  rewrite Hm. destruct (get parsed "content") as [[| | |s| |]|] eqn:E;
    try reflexivity.
  exfalso. exact (Htop s eq_refl).
Qed.

Lemma message_content_not_null (parsed : json number) (v : json number) :
  message_content parsed = Some v -> parsed <> JNull.
Proof. intros H ->. discriminate H. Qed.

Lemma filter_text_text_items (texts : list string) :
  Forall (fun s => s <> "") texts ->
  filter_text (map text_item texts) = Returns (map text_item texts) /\
  map_throwing join_element
    (map (fun item => get item "text") (map text_item texts)) =
    Returns texts.
Proof.
  induction 1 as [|s rest Hs _ [IH1 IH2]]; [split; reflexivity|].
  assert (keep_text (text_item s : json number) = Returns true) as Hk.
  { unfold keep_text, text_item. cbn.
    destruct (String.eqb s "") eqn:E; [|reflexivity].
    apply String.eqb_eq in E. congruence. }
  cbn [map filter_text map_throwing]. rewrite Hk, IH1, IH2.
  split; reflexivity.
Qed.

Lemma join_nonempty (sep s : string) (rest : list string) :
  s <> "" -> String.eqb (Str.join sep (s :: rest)) "" = false.
Proof.
  intros Hs. destruct s as [|c s]; [congruence|].
  destruct rest; reflexivity.
Qed.

(** X5.  A message content that is a list of text items, each with a
    text that is not empty, gives the texts joined by line feeds as the
    preview. *)
Theorem text_items_joined (i : nat) (raw : string) (parsed : json number)
    (texts : list string) :
  blank raw = false -> JSON_parse raw = Some parsed ->
  (forall s, get parsed "content" <> Some (JString s)) ->
  message_content parsed = Some (JArray (map text_item texts)) ->
  texts <> [] -> Forall (fun s => s <> "") texts ->
  content (parseLine i raw) = Some (Str.join Str.NL texts).
Proof.
  intros Hb Hp Htop Hm Hne Htexts.
  destruct (filter_text_text_items texts Htexts) as [Hf Hmap].
  assert (content_of parsed = Returns (Str.join Str.NL texts)) as Hc.
  { rewrite (content_of_list parsed _ Htop Hm), Hf.
    cbn [mbind result_bind]. rewrite Hmap.
    cbn [mbind result_bind]. cbv zeta.
    destruct texts as [|s rest]; [congruence|].
    rewrite join_nonempty; [reflexivity|].
    apply Forall_cons in Htexts. tauto. }
  rewrite (parseLine_extracted i raw parsed _ _ Hb Hp
             (extract_of_content parsed _ (message_content_not_null _ _ Hm) Hc)).
  reflexivity.
Qed.

Lemma filter_text_none (items : list (json number)) :
  Forall (fun item =>
            item <> JNull /\
            is_text (get item "type") && truthy (get item "text") = false)
    items ->
  filter_text items = Returns [].
Proof.
  induction 1 as [|item rest [Hn Hk] _ IH]; [reflexivity|].
  cbn [filter_text]. rewrite IH.
  destruct item; try congruence; unfold keep_text; rewrite Hk; reflexivity.
Qed.

(** X6.  A message content that is a list without [null], and without
    a text item whose text fails to convert to a string, never gives an
    empty preview: when the list has no text item with a truthy text,
    and so when it is empty, the preview is the placeholder
    [Complex content] in square brackets. *)
Theorem list_content_never_empty (i : nat) (raw : string)
    (parsed : json number) (items : list (json number)) :
  blank raw = false -> JSON_parse raw = Some parsed ->
  (forall s, get parsed "content" <> Some (JString s)) ->
  message_content parsed = Some (JArray items) ->
  Forall (fun item => item <> JNull) items ->
  Forall (fun item =>
            is_text (get item "type") = true ->
            forall v, get item "text" = Some v -> converts v = true)
    items ->
  exists c,
    content (parseLine i raw) = Some c /\ c <> "" /\
    (Forall (fun item =>
               is_text (get item "type") && truthy (get item "text") = false)
       items ->
     c = "[Complex content]").
Proof.
  intros Hb Hp Htop Hm Hitems Hconv.
  destruct (content_of_items_returns items Hitems Hconv)
    as (kept & parts & Hk & Hparts).
  pose proof (content_of_list parsed _ Htop Hm) as Hc.
  rewrite Hk in Hc. cbn [mbind result_bind] in Hc.
  rewrite Hparts in Hc. cbn [mbind result_bind] in Hc. cbv zeta in Hc.
  rewrite (parseLine_extracted i raw parsed _ _ Hb Hp
             (extract_of_content parsed _ (message_content_not_null _ _ Hm) Hc)).
  cbn [content]. eexists. split; [reflexivity|]. split.
  - destruct (String.eqb _ "") eqn:E; [discriminate|].
    intros H. rewrite H in E. discriminate E.
  - intros Hnone.
    assert (filter_text items = Returns []) as Hk'.
    { apply filter_text_none. rewrite Forall_forall in *.
      intros item Hin. split; [apply Hitems | apply Hnone]; exact Hin. }
    rewrite Hk in Hk'. injection Hk' as ->.
    cbn in Hparts. injection Hparts as <-. reflexivity.
Qed.

Lemma filter_text_null (items : list (json number)) :
  JNull ∈ items -> exists e, filter_text items = Throws e.
Proof.
  induction items as [|item rest IH]; intros Hin; [inversion Hin|].
  cbn [filter_text]. destruct (keep_text item) as [keep|e] eqn:Ek;
    [|exists e; reflexivity].
  destruct (IH) as [e He].
  { apply elem_of_cons in Hin as [<-|Hin]; [discriminate Ek | exact Hin]. }
  exists e. rewrite He. reflexivity.
Qed.

Lemma filter_text_keeps (items kept : list (json number))
    (item : json number) :
  filter_text items = Returns kept -> item ∈ items ->
  is_text (get item "type") && truthy (get item "text") = true ->
  item ∈ kept.
Proof.
  revert kept. induction items as [|first rest IH]; intros kept Hk Hin Hkeep;
    [inversion Hin|].
  cbn [filter_text] in Hk.
  destruct (keep_text first) as [keep|] eqn:Ek; [|discriminate Hk].
  destruct (filter_text rest) as [kept'|]; [|discriminate Hk].
  cbn in Hk. injection Hk as <-.
  apply elem_of_cons in Hin as [->|Hin].
  - assert (keep = true) as ->.
    { destruct first; try discriminate Ek; cbn [keep_text] in Ek;
        injection Ek as <-; exact Hkeep. }
    left.
  - destruct keep; [right|]; apply IH; auto.
Qed.

Lemma join_elements_throws (elements : list (option (json number)))
    (v : json number) :
  Some v ∈ elements -> converts v = false ->
  map_throwing join_element elements = Throws TypeError.
Proof.
  intros Hin Hv.
  pose proof (map_throwing_cases join_element
    (fun element => match element with Some w => converts w | None => true end)
    elements) as Hcases.
  replace (forallb _ elements) with false in Hcases.
  - apply Hcases. apply Forall_forall. intros [w|] _; [|cbn; eauto].
    pose proof (ToString_cases w) as Hw.
    destruct w; cbn [join_element converts]; eauto.
  - symmetry. apply not_true_is_false. intros Hall.
    rewrite forallb_forall in Hall.
    specialize (Hall (Some v) (proj1 (list_elem_of_In _ _) Hin)).
    cbn in Hall. congruence.
Qed.

(** X27.  A message content list the extraction cannot get through
    leaves the line without record kind and without preview, as a line
    that is not JSON: so does a [null] among its items, and so does a
    text item whose text fails to convert to a string, when no string
    [content] stands at the top of the object. *)
Theorem throwing_list_leaves_line_bare (i : nat) (raw : string)
    (parsed : json number) (items : list (json number)) :
  JSON_parse raw = Some parsed ->
  (forall s, get parsed "content" <> Some (JString s)) ->
  message_content parsed = Some (JArray items) ->
  Exists (fun item =>
            item = JNull \/
            (is_text (get item "type") = true /\
             exists v, get item "text" = Some v /\ converts v = false))
    items ->
  parseLine i raw = bare_line i raw.
Proof.
  intros Hp Htop Hm Hbad.
  assert (exists e, content_of parsed = Throws e) as [e He].
  { rewrite (content_of_list parsed _ Htop Hm).
    destruct (filter_text items) as [kept|e] eqn:Hk; [|exists e; reflexivity].
    apply Exists_exists in Hbad as (item & Hin & [->|(Ht & v & Hv & Hc)]).
    - destruct (filter_text_null items Hin) as [e He]. congruence.
    - exists TypeError. cbn [mbind result_bind].
      rewrite (join_elements_throws _ v); [reflexivity| |exact Hc].
      apply list_elem_of_fmap. exists item. split; [symmetry; exact Hv|].
      apply (filter_text_keeps items kept item Hk Hin).
      rewrite Ht, Hv. cbn [andb].
      destruct v as [| | | |l|ms]; try discriminate Hc; reflexivity. }
  apply (parseLine_threw i raw parsed e Hp).
  destruct parsed; [discriminate Hm|..]; unfold extract; rewrite He;
    reflexivity.
Qed.

End Previews.

(** ** The table of messages *)

Section Table.
Context {number : Type} {RT : JSRuntime number}.

Lemma length_rev_app (a b : string) :
  String.length (String.rev_app a b) = String.length a + String.length b.
Proof.
  revert b. induction a as [|c a IH]; intros b; [reflexivity|].
  cbn [String.rev_app String.length]. rewrite IH. cbn [String.length]. lia.
Qed.

Lemma count_LF_rev_app (a b : string) :
  Str.count_LF (String.rev_app a b) = Str.count_LF a + Str.count_LF b.
Proof.
  revert b. induction a as [|c a IH]; intros b; [reflexivity|].
  cbn [String.rev_app Str.count_LF]. rewrite IH. cbn [Str.count_LF]. lia.
Qed.

Lemma trim_start_smaller (s : string) :
  String.length (Str.trim_start s) <= String.length s /\
  Str.count_LF (Str.trim_start s) <= Str.count_LF s.
Proof.
  induction s as [|c s [IH1 IH2]]; [split; reflexivity|].
  cbn [Str.trim_start]. destruct (Str.is_white c).
  - cbn [String.length Str.count_LF]. split; lia.
  - split; reflexivity.
Qed.

Lemma trim_smaller (s : string) :
  String.length (Str.trim s) <= String.length s /\
  Str.count_LF (Str.trim s) <= Str.count_LF s.
Proof.
  unfold Str.trim, String.rev.
  rewrite !length_rev_app, !count_LF_rev_app. cbn [String.length Str.count_LF].
  pose proof (trim_start_smaller s) as [H1 H2].
  pose proof (trim_start_smaller (String.rev_app (Str.trim_start s) ""))
    as [H3 H4].
  rewrite length_rev_app in H3. rewrite count_LF_rev_app in H4.
  cbn [String.length Str.count_LF] in H3, H4. split; lia.
Qed.

Lemma count_LF_replaced (s : string) :
  Str.count_LF (Str.replace_char Str.LF " " s) = 0.
Proof.
  induction s as [|c s IH]; [reflexivity|].
  cbn [Str.replace_char Str.count_LF]. rewrite IH.
  destruct (Ascii.eqb c Str.LF) eqn:E; [reflexivity|].
  unfold Str.is_LF. rewrite E. reflexivity.
Qed.

Lemma substring_to_smaller (n : nat) (s : string) :
  String.length (substring_to n s) = Nat.min n (String.length s) /\
  Str.count_LF (substring_to n s) <= Str.count_LF s.
Proof.
  revert s. induction n as [|n IH]; intros s.
  - destruct s; split; cbn; lia.
  - destruct s as [|c s]; [split; reflexivity|].
    destruct (IH s) as [H1 H2]. cbn [substring_to String.length Str.count_LF].
    rewrite H1. split; lia.
Qed.

Lemma count_LF_append (a b : string) :
  Str.count_LF (a +:+ b) = Str.count_LF a + Str.count_LF b.
Proof.
  induction a as [|c a IH]; [reflexivity|].
  change (String c a +:+ b) with (String c (a +:+ b)).
  cbn [Str.count_LF]. rewrite IH. lia.
Qed.

Lemma truncate_bound (str : string) (maxLength : nat) :
  3 <= maxLength -> str <> "" ->
  String.length (truncate str maxLength) <= maxLength /\
  Str.count_LF (truncate str maxLength) = 0.
Proof.
  intros Hmax Hstr. unfold truncate.
  destruct (String.eqb str "") eqn:E;
    [apply String.eqb_eq in E; congruence|].
  set (clean := Str.trim (Str.replace_char Str.LF " " str)).
  assert (Str.count_LF clean = 0) as Hclean.
  { pose proof (trim_smaller (Str.replace_char Str.LF " " str)) as [_ H].
    rewrite count_LF_replaced in H. unfold clean. lia. }
  destruct (substring_to_smaller (maxLength - 3) clean) as [Hlen Hlf].
  destruct (maxLength <? String.length clean) eqn:Hcut.
  - apply Nat.ltb_lt in Hcut.
    rewrite length_append, count_LF_append, Hlen. cbn. lia.
  - apply Nat.ltb_ge in Hcut. lia.
Qed.

(** X7.  With room for the three dots, a preview that [truncate]
    gives for a text that is not empty fits in [maxLength] characters
    and holds no line feed; a text that had to be cut gives exactly
    [maxLength] characters, the last three being dots.  The empty text
    gives the placeholder of twelve characters, whatever [maxLength]
    is. *)
Theorem truncate_fits (str : string) (maxLength : nat) :
  3 <= maxLength -> str <> "" ->
  let clean := Str.trim (Str.replace_char Str.LF " " str) in
  String.length (truncate str maxLength) <= maxLength /\
  Str.count_LF (truncate str maxLength) = 0 /\
  (maxLength < String.length clean ->
   String.length (truncate str maxLength) = maxLength /\
   truncate str maxLength = substring_to (maxLength - 3) clean +:+ "...") /\
  truncate "" maxLength = "[No content]".
Proof.
  intros Hmax Hstr clean. unfold truncate. fold clean.
  destruct (String.eqb str "") eqn:E;
    [apply String.eqb_eq in E; congruence|].
  assert (Str.count_LF clean = 0) as Hclean.
  { pose proof (trim_smaller (Str.replace_char Str.LF " " str)) as [_ H].
    rewrite count_LF_replaced in H. unfold clean. lia. }
  destruct (substring_to_smaller (maxLength - 3) clean) as [Hlen Hlf].
  destruct (maxLength <? String.length clean) eqn:Hcut.
  - apply Nat.ltb_lt in Hcut.
    rewrite length_append, count_LF_append, Hlen. cbn [String.length Str.count_LF].
    cbn. repeat split; try lia.
  - apply Nat.ltb_ge in Hcut. repeat split; try lia.
Qed.

Lemma filter_nil_Forall {A} (f : A -> bool) (l : list A) :
  length (List.filter f l) = 0 -> Forall (fun x => f x = false) l.
Proof.
  induction l as [|x l IH]; [constructor|]. cbn [List.filter].
  destruct (f x) eqn:E; [discriminate|]. constructor; auto.
Qed.

Lemma content_or_nonempty (fallback : string) (l : SessionLine number) :
  fallback <> "" -> content_or fallback l <> "".
Proof.
  intros Hf. unfold content_or. destruct (content l) as [c|]; [|exact Hf].
  destruct (String.eqb c "") eqn:E; [exact Hf|].
  intros ->. discriminate E.
Qed.

(** X8.  [viewMessages] changes nothing.  It shows the notice only when
    no line is a message; otherwise it shows one row per message line,
    in order, under the line's [index], with a preview of at most 57
    characters that holds no line feed. *)
Theorem viewMessages_rows (w : world number) :
  (viewMessages w).2 = w /\
  match (viewMessages w).1 with
  | Returns NoMessages =>
      Forall (fun l => isMessage l = false) (lines (this w))
  | Returns (MessageTable rows) =>
      rows <> [] /\
      map row_id rows = map index (List.filter isMessage (lines (this w))) /\
      map row_selected rows =
        map selected (List.filter isMessage (lines (this w))) /\
      Forall (fun r => String.length (row_preview r) <= 57 /\
                       Str.count_LF (row_preview r) = 0) rows
  | Throws _ => False
  end.
Proof.
  unfold viewMessages, mbind, M_bind, get_this.
  destruct (length (List.filter isMessage (lines (this w))) =? 0) eqn:E.
  - split; [reflexivity|]. apply Nat.eqb_eq in E. cbn [fst].
    apply filter_nil_Forall, E.
  - split; [reflexivity|]. apply Nat.eqb_neq in E. cbn [fst].
    split; [|split; [|split]].
    + destruct (List.filter isMessage (lines (this w))); [|discriminate].
      cbn in E. congruence.
    + rewrite map_map. reflexivity.
    + rewrite map_map. reflexivity.
    + apply Forall_map, Forall_forall. intros l _. cbn [view_row row_preview].
      apply truncate_bound; [lia | apply content_or_nonempty; discriminate].
Qed.

End Table.

(** ** Statistics and diagnostics *)

Section Statistics.
Context {number : Type} {RT : JSRuntime number} {PO : PlainObject}.

Lemma same_line_sym_fields (l l' : SessionLine number) :
  same_line l l' -> type l' = type l /\ isMessage l' = isMessage l.
Proof. intros (_ & _ & Ht & _ & Hm). split; assumption. Qed.

Lemma selectMessages_frame (mode : selection_mode)
    (t : ClaudeSessionManager number) (d : storage) :
  exists ls',
    selectMessages mode {| this := t; disk := d |} =
      (Returns (), {| this := with_lines ls' t; disk := d |}) /\
    Forall2 same_line (lines t) ls'.
Proof.
  destruct mode as [chosen| | |msgType action].
  - eexists. split; [reflexivity|]. cbn [this].
    induction (lines t) as [|l rest IH]; cbn [map]; [constructor|].
    constructor; [|exact IH].
    destruct (isMessage l); [apply same_line_set_selected | repeat split].
  - eexists. split; [reflexivity|]. cbn [this].
    induction (lines t) as [|l rest IH]; cbn [map]; [constructor|].
    constructor; [apply same_line_set_selected | exact IH].
  - eexists. split; [reflexivity|]. cbn [this].
    induction (lines t) as [|l rest IH]; cbn [map]; [constructor|].
    constructor; [apply same_line_set_selected | exact IH].
  - destruct (selectByType_each_spec msgType (String.eqb action "Select")
                (lines t) 0) as (ls' & n & Hrun & HF & _).
    exists ls'. split.
    + unfold selectMessages, selectByType, mbind, M_bind, get_this.
      cbn [this]. rewrite Hrun. reflexivity.
    + eapply Forall2_impl; [exact HF|]. intros l l' [Hyes Hno].
      destruct (type_is l msgType) eqn:E.
      * apply type_is_true in E. rewrite (Hyes E).
        apply same_line_set_selected.
      * apply type_is_false in E. rewrite (Hno E). repeat split.
Qed.

(** X9.  Every mode of [selectMessages], with any answers, returns
    without throwing, leaves the storage, the paths and
    [originalContent] alone, and keeps the lines in number and order
    with their [index], [line], [type], [content] and [isMessage]:
    only selection flags change. *)
Theorem selectMessages_only_flags (mode : selection_mode)
    (t : ClaudeSessionManager number) (d : storage) :
  exists ls',
    selectMessages mode {| this := t; disk := d |} =
      (Returns (), {| this := with_lines ls' t; disk := d |}) /\
    Forall2 same_line (lines t) ls' /\
    length ls' = length (lines t) /\
    map index ls' = map index (lines t) /\
    map line ls' = map line (lines t).
Proof.
  destruct (selectMessages_frame mode t d) as (ls' & Hrun & HF).
  exists ls'. split; [exact Hrun|]. split; [exact HF|].
  split; [symmetry; eapply Forall2_length, HF|].
  clear Hrun. induction HF as [|l l' ls ls' (Hi & Hl & _) _ [IHi IHl]];
    [split; reflexivity|].
  cbn [map]. rewrite Hi, Hl, IHi, IHl. split; reflexivity.
Qed.

Lemma filter_isMessage_same (ls ls' : list (SessionLine number)) :
  Forall2 same_line ls ls' ->
  length (List.filter isMessage ls') = length (List.filter isMessage ls).
Proof.
  induction 1 as [|l l' ls ls' Hl _ IH]; [reflexivity|].
  apply same_line_sym_fields in Hl as [_ Hm]. cbn [List.filter].
  rewrite Hm. destruct (isMessage l); cbn [length]; congruence.
Qed.

Lemma count_types_same (ls ls' : list (SessionLine number))
    (m : gmap string tally) :
  Forall2 same_line ls ls' ->
  count_types ls' m = count_types ls m.
Proof.
  intros H. revert m. induction H as [|l l' ls ls' Hl _ IH]; intros m;
    [reflexivity|].
  apply same_line_sym_fields in Hl as [Ht _]. cbn [count_types].
  unfold count_type. rewrite Ht.
  destruct (if truthy (type l)
            then match type l with
                 | Some v => k ← ToString v; Returns (bump k m)
                 | None => Returns m
                 end
            else Returns m) as [m'|e]; [apply IH | reflexivity].
Qed.

(** What [getStats] returns, when it returns. *)
Lemma getStats_returned (t : ClaudeSessionManager number)
    (stats : SessionStats.t) :
  getStats t = Returns stats ->
  SessionStats.total stats = length (lines t) /\
  SessionStats.messages stats = length (List.filter isMessage (lines t)) /\
  SessionStats.selected stats = length (List.filter selected (lines t)) /\
  count_types (lines t) ∅ = Returns (SessionStats.byType stats).
Proof.
  unfold getStats. destruct (count_types (lines t) ∅) as [byType|e];
    [|discriminate].
  cbn. intros H. injection H as <-. repeat split.
Qed.

(** [getStats] throws only where counting the record kinds does. *)
Lemma getStats_threw (t : ClaudeSessionManager number) (e : exn) :
  getStats t = Throws e <-> count_types (lines t) ∅ = Throws e.
Proof.
  unfold getStats. destruct (count_types (lines t) ∅) as [byType|e'];
    cbn; split; congruence.
Qed.

Lemma length_filter_le {A} (f : A -> bool) (l : list A) :
  length (List.filter f l) <= length l.
Proof.
  induction l as [|x l IH]; [reflexivity|]. cbn [List.filter].
  destruct (f x); cbn [length]; lia.
Qed.

Lemma filter_all {A} (f : A -> bool) (l : list A) :
  Forall (fun x => f x = true) l -> List.filter f l = l.
Proof.
  induction 1 as [|x l Hx _ IH]; [reflexivity|]. cbn [List.filter].
  rewrite Hx, IH. reflexivity.
Qed.

Lemma filter_none {A} (f : A -> bool) (l : list A) :
  Forall (fun x => f x = false) l -> List.filter f l = [].
Proof.
  induction 1 as [|x l Hx _ IH]; [reflexivity|]. cbn [List.filter].
  rewrite Hx, IH. reflexivity.
Qed.

(** X10.  The counters of [getStats] under selection.  Where
    [getStats] returns, [messages] and [selected] never exceed [total];
    after a selection command of any mode it returns again, with the
    same [total], [messages] and [byType]; and after [toggleAll] the
    counter [selected] is [total] for [true] and zero for [false].
    Where it throws, it throws the same after any selection command. *)
Theorem stats_under_selection (mode : selection_mode) (value : bool)
    (w : world number) :
  let after := getStats (this (selectMessages mode w).2) in
  let toggled := getStats (this (toggleAll value w).2) in
  match getStats (this w) with
  | Returns before =>
      SessionStats.messages before <= SessionStats.total before /\
      SessionStats.selected before <= SessionStats.total before /\
      (exists stats,
         after = Returns stats /\
         SessionStats.total stats = SessionStats.total before /\
         SessionStats.messages stats = SessionStats.messages before /\
         SessionStats.byType stats = SessionStats.byType before) /\
      (exists stats,
         toggled = Returns stats /\
         SessionStats.selected stats =
           (if value then SessionStats.total before else 0))
  | Throws e => after = Throws e /\ toggled = Throws e
  end.
Proof.
  destruct w as [t d]. cbv zeta.
  destruct (selectMessages_frame mode t d) as (ls' & -> & HF).
  destruct (selectMessages_frame (if value then mode_all else mode_none) t d)
    as (ls'' & Hrun & HF'').
  unfold toggleAll. rewrite Hrun.
  assert (ls'' = map (set_selected value) (lines t)) as Hls''.
  { destruct value; cbn in Hrun; injection Hrun as Hrun; congruence. }
  cbn [snd this]. unfold getStats. cbn [with_lines lines].
  rewrite (count_types_same _ _ ∅ HF), (count_types_same _ _ ∅ HF'').
  destruct (count_types (lines t) ∅) as [byType|e]; cbn; [|split; reflexivity].
  split; [apply length_filter_le|]. split; [apply length_filter_le|].
  split.
  - eexists. split; [reflexivity|]. cbn.
    split; [symmetry; eapply Forall2_length, HF|].
    split; [apply filter_isMessage_same, HF | reflexivity].
  - eexists. split; [reflexivity|]. cbn. rewrite Hls''. destruct value.
    + rewrite filter_all, length_map; [reflexivity|].
      apply Forall_map, Forall_forall. intros l _. reflexivity.
    + rewrite filter_none; [reflexivity|].
      apply Forall_map, Forall_forall. intros l _. reflexivity.
Qed.

Lemma bump_other (k k' : string) (m : gmap string tally) :
  k <> k' -> bump k' m !! k = m !! k.
Proof.
  intros Hne. unfold bump. destruct (String.eqb k' "__proto__"); [reflexivity|].
  destruct (m !! k') as [[n|text]|];
    [|destruct (String.eqb text "")|destruct (inherited k')];
    apply lookup_insert_ne; congruence.
Qed.

Lemma counts_under_dec (k : string) (l : SessionLine number) :
  counts_under k l \/ ~ counts_under k l.
Proof.
  unfold counts_under. destruct (type l) as [v|];
    [|right; intros (v & E & _); discriminate E].
  destruct (truthy (Some v)) eqn:Ht;
    [|right; intros (v' & E & Ht' & _); congruence].
  destruct (ToString v) as [s|e] eqn:Hs;
    [|right; intros (v' & E & _ & Hk'); congruence].
  destruct (decide (s = k)) as [Hk|Hk].
  - left. exists v. repeat split; congruence.
  - right. intros (v' & E & _ & Hk'). congruence.
Qed.

Lemma count_type_hit (k : string) (l : SessionLine number)
    (m : gmap string tally) :
  counts_under k l -> count_type m l = Returns (bump k m).
Proof.
  intros (v & E & Ht & Hk). unfold count_type. rewrite E, Ht, Hk. reflexivity.
Qed.

Lemma count_type_miss (k : string) (l : SessionLine number)
    (m m' : gmap string tally) :
  ~ counts_under k l -> count_type m l = Returns m' -> m' !! k = m !! k.
Proof.
  intros Hno. unfold count_type. destruct (truthy (type l)) eqn:Ht;
    [|intros H; injection H as <-; reflexivity].
  destruct (type l) as [v|] eqn:E;
    [|intros H; injection H as <-; reflexivity].
  destruct (ToString v) as [s|e] eqn:Hs; [|discriminate].
  cbn. intros H. injection H as <-.
  apply bump_other. intros Hk. apply Hno. exists v. repeat split; congruence.
Qed.

Lemma count_types_cons (l : SessionLine number)
    (ls : list (SessionLine number)) (m m' : gmap string tally) :
  count_types (l :: ls) m = Returns m' ->
  exists m1, count_type m l = Returns m1 /\ count_types ls m1 = Returns m'.
Proof.
  cbn [count_types]. destruct (count_type m l) as [m1|e]; [|discriminate].
  intros H. exists m1. split; [reflexivity | exact H].
Qed.

Lemma count_types_tally (k : string) (ls : list (SessionLine number))
    (n : nat) :
  inherited k = None -> k <> "__proto__" ->
  counted (counts_under k) ls n ->
  forall (m m' : gmap string tally) (j : nat),
    m !! k = (if j =? 0 then None else Some (Tally j)) ->
    count_types ls m = Returns m' ->
    m' !! k = (if j + n =? 0 then None else Some (Tally (j + n))).
Proof.
  intros Hinh Hproto. induction 1 as [|l ls n Hl _ IH|l ls n Hl _ IH];
    intros m m' j Hm Hrun.
  - cbn in Hrun. injection Hrun as <-. rewrite Nat.add_0_r. exact Hm.
  - apply count_types_cons in Hrun as (m1 & H1 & Hrun).
    rewrite (count_type_hit k l m Hl) in H1. injection H1 as <-.
    replace (j + S n) with (S j + n) by lia.
    apply (IH (bump k m) m' (S j)); [|exact Hrun].
    unfold bump. rewrite (proj2 (String.eqb_neq _ _) Hproto), Hm.
    destruct j as [|j]; cbn [Nat.eqb].
    + rewrite Hinh. apply lookup_insert_eq.
    + rewrite lookup_insert_eq. do 2 f_equal. lia.
  - apply count_types_cons in Hrun as (m1 & H1 & Hrun).
    apply (IH m1 m' j); [|exact Hrun].
    rewrite (count_type_miss k l m m1 Hl H1). exact Hm.
Qed.

(** X11.  For a key [k] that a plain object does not inherit, the
    [stats.byType] that [getStats] returns holds under [k] the number
    of lines, messages or not, whose truthy [type] becomes the key [k],
    and holds nothing under [k] when there is no such line. *)
Theorem byType_counts (k : string) (t : ClaudeSessionManager number)
    (stats : SessionStats.t) (n : nat) :
  getStats t = Returns stats ->
  inherited k = None -> k <> "__proto__" ->
  counted (counts_under k) (lines t) n ->
  SessionStats.byType stats !! k =
    (if n =? 0 then None else Some (Tally n)).
Proof.
  intros Hstats Hinh Hproto Hn.
  apply getStats_returned in Hstats as (_ & _ & _ & Hrun).
  exact (count_types_tally k (lines t) n Hinh Hproto Hn ∅ _ 0
           (lookup_empty k) Hrun).
Qed.

Lemma bump_proto (k : string) (m : gmap string tally) :
  m !! "__proto__" = None -> bump k m !! "__proto__" = None.
Proof.
  intros Hm. destruct (decide (k = "__proto__")) as [->|Hne].
  - unfold bump. cbn. exact Hm.
  - rewrite bump_other by congruence. exact Hm.
Qed.

Lemma bump_inherited (k text : string) (m : gmap string tally) :
  inherited k = Some text -> k <> "__proto__" ->
  (m !! k = None \/ exists s, s <> "" /\ m !! k = Some (Garbled s)) ->
  exists s, s <> "" /\ bump k m !! k = Some (Garbled s).
Proof.
  intros Hinh Hproto Hm. unfold bump.
  rewrite (proj2 (String.eqb_neq _ _) Hproto).
  assert (forall s : string, s +:+ "1" <> "") as Hne.
  { intros [|c s]; discriminate. }
  destruct Hm as [->|(s & Hs & ->)].
  - rewrite Hinh. eexists. split; [apply Hne | apply lookup_insert_eq].
  - rewrite (proj2 (String.eqb_neq _ _) Hs).
    eexists. split; [apply Hne | apply lookup_insert_eq].
Qed.

Lemma count_types_inherited (k text : string)
    (ls : list (SessionLine number)) (m m' : gmap string tally) :
  inherited k = Some text -> k <> "__proto__" ->
  (m !! k = None \/ exists s, s <> "" /\ m !! k = Some (Garbled s)) ->
  count_types ls m = Returns m' ->
  (m' !! k = None /\
   Forall (fun l => ~ counts_under k l) ls /\ m !! k = None) \/
  exists s, s <> "" /\ m' !! k = Some (Garbled s).
Proof.
  intros Hinh Hproto. revert m. induction ls as [|l ls IH]; intros m Hm Hrun.
  - cbn in Hrun. injection Hrun as <-.
    destruct Hm as [Hm|Hm]; [left|right; exact Hm].
    split; [exact Hm|]. split; [constructor | exact Hm].
  - apply count_types_cons in Hrun as (m1 & H1 & Hrun).
    destruct (counts_under_dec k l) as [Hl|Hl].
    + right. rewrite (count_type_hit k l m Hl) in H1. injection H1 as <-.
      destruct (IH (bump k m)) as [(_ & _ & Hnone)|Hg].
      * right. apply (bump_inherited k text m Hinh Hproto Hm).
      * exact Hrun.
      * destruct (bump_inherited k text m Hinh Hproto Hm) as (s & _ & Hs).
        congruence.
      * exact Hg.
    + pose proof (count_type_miss k l m m1 Hl H1) as Hsame.
      destruct (IH m1) as [(Hnone & HF & Hm')|Hg].
      * rewrite Hsame. exact Hm.
      * exact Hrun.
      * left. rewrite Hsame in Hm'.
        split; [exact Hnone|]. split; [constructor; assumption | exact Hm'].
      * right. exact Hg.
Qed.

Lemma count_types_proto (ls : list (SessionLine number))
    (m m' : gmap string tally) :
  m !! "__proto__" = None -> count_types ls m = Returns m' ->
  m' !! "__proto__" = None.
Proof.
  revert m. induction ls as [|l ls IH]; intros m Hm Hrun.
  - cbn in Hrun. injection Hrun as <-. exact Hm.
  - apply count_types_cons in Hrun as (m1 & H1 & Hrun).
    apply (IH m1); [|exact Hrun]. unfold count_type in H1.
    destruct (truthy (type l)); [|injection H1 as <-; exact Hm].
    destruct (type l) as [v|]; [|injection H1 as <-; exact Hm].
    destruct (ToString v) as [s|e]; [|discriminate H1].
    cbn in H1. injection H1 as <-. apply bump_proto, Hm.
Qed.

(** X12.  A record kind that is the name of a property every object
    inherits is not counted: under such a key the [stats.byType] that
    [getStats] returns holds a text built by string concatenation,
    never a number, as soon as one line has that kind; and under
    [__proto__] it holds nothing, whatever the lines. *)
Theorem byType_inherited_names (k text : string)
    (t : ClaudeSessionManager number) (stats : SessionStats.t) :
  getStats t = Returns stats ->
  SessionStats.byType stats !! "__proto__" = None /\
  (inherited k = Some text -> k <> "__proto__" ->
   Exists (counts_under k) (lines t) ->
   exists s, SessionStats.byType stats !! k = Some (Garbled s)).
Proof.
  intros Hstats. apply getStats_returned in Hstats as (_ & _ & _ & Hrun).
  split; [exact (count_types_proto _ ∅ _ (lookup_empty _) Hrun)|].
  intros Hinh Hproto Hex.
  destruct (count_types_inherited k text (lines t) ∅ _ Hinh Hproto
              (or_introl (lookup_empty k)) Hrun)
    as [(_ & HF & _)|(s & _ & Hs)].
  - exfalso. apply Exists_exists in Hex as (l & Hin & Hl).
    rewrite Forall_forall in HF. exact (HF l Hin Hl).
  - exists s. exact Hs.
Qed.

Lemma count_type_cases (l : SessionLine number) (m : gmap string tally) :
  if type_converts l then exists m', count_type m l = Returns m'
  else count_type m l = Throws TypeError.
Proof.
  unfold type_converts, count_type. destruct (type l) as [v|];
    [|destruct (truthy None); eauto].
  pose proof (ToString_cases v) as Hv. destruct (converts v) eqn:Hc.
  - destruct Hv as [s ->]. destruct (truthy (Some v)); cbn; eauto.
  - rewrite Hv.
    assert (truthy (Some v) = true) as ->; [|reflexivity].
    destruct v; try discriminate Hc; reflexivity.
Qed.

Lemma count_types_cases (ls : list (SessionLine number))
    (m : gmap string tally) :
  if forallb type_converts ls then exists m', count_types ls m = Returns m'
  else count_types ls m = Throws TypeError.
Proof.
  revert m. induction ls as [|l ls IH]; intros m; [cbn; eauto|].
  cbn [forallb count_types]. pose proof (count_type_cases l m) as Hl.
  destruct (type_converts l); cbn [andb].
  - destruct Hl as [m1 ->]. cbn. apply IH.
  - rewrite Hl. reflexivity.
Qed.

Lemma getStats_cases (t : ClaudeSessionManager number) :
  if types_convert t then exists stats, getStats t = Returns stats
  else getStats t = Throws TypeError.
Proof.
  unfold types_convert, getStats.
  pose proof (count_types_cases (lines t) ∅) as Hc.
  destruct (forallb type_converts (lines t)).
  - destruct Hc as [m' ->]. cbn. eexists. reflexivity.
  - rewrite Hc. reflexivity.
Qed.

Lemma types_convert_same (t t' : ClaudeSessionManager number) :
  Forall2 same_line (lines t) (lines t') ->
  types_convert t' = types_convert t.
Proof.
  unfold types_convert. induction 1 as [|l l' ls ls' Hl _ IH]; [reflexivity|].
  cbn [forallb]. rewrite IH. unfold type_converts.
  destruct Hl as (_ & _ & -> & _). reflexivity.
Qed.

(** X28.  [getStats] returns exactly when the [type] of every line
    converts to a property key, and throws a [TypeError] otherwise:
    when the [type] of a line is an object with a member of its own
    named [toString], or a list that holds one.  What it returns has
    the number of lines as its [total], and a session without lines
    always has its counters. *)
Theorem getStats_returns_or_throws (t : ClaudeSessionManager number) :
  (if types_convert t
   then exists stats,
          getStats t = Returns stats /\
          SessionStats.total stats = length (lines t)
   else getStats t = Throws TypeError) /\
  (lines t = [] -> exists stats, getStats t = Returns stats).
Proof.
  split.
  - pose proof (getStats_cases t) as Hc. destruct (types_convert t);
      [|exact Hc].
    destruct Hc as [stats Hs]. exists stats. split; [exact Hs|].
    apply getStats_returned in Hs. tauto.
  - intros Hl. unfold getStats. rewrite Hl. cbn. eexists. reflexivity.
Qed.

End Statistics.

Section Diagnostics.
Context {number : Type} {RT : JSRuntime number}.

Lemma parseLine_typed (i : nat) (raw : string) :
  type (parseLine i raw) <> None ->
  blank raw = false /\ exists parsed, JSON_parse raw = Some parsed.
Proof.
  unfold parseLine. destruct (blank raw); [intros H; exfalso; exact (H eq_refl)|].
  destruct (JSON_parse raw) as [parsed|];
    [|intros H; exfalso; exact (H eq_refl)].
  intros _. split; [reflexivity | eexists; reflexivity].
Qed.

Lemma fold_diagnose (ls : list (SessionLine number)) (acc : diagnostics) :
  let r := fold_left diagnose ls acc in
  jsonLines r + nonJsonLines r + emptyLines r =
    jsonLines acc + nonJsonLines acc + emptyLines acc + length ls /\
  (Forall parsed_from_its_text ls ->
   jsonLines acc + length (List.filter has_type ls) <= jsonLines r).
Proof.
  revert acc. induction ls as [|l ls IH]; intros acc; cbv zeta.
  - cbn [fold_left length List.filter]. split; [lia | intros _; lia].
  - cbn [fold_left]. destruct (IH (diagnose acc l)) as [Hsum Hjson].
    split.
    + rewrite Hsum. cbn [length]. unfold diagnose.
      destruct (blank (line l)); [cbn; lia|].
      destruct (JSON_parse (line l)); cbn; lia.
    + intros HF. apply Forall_cons in HF as [Hl HF].
      specialize (Hjson HF). cbn [List.filter].
      destruct (has_type l) eqn:Ht; cbn [length].
      * assert (jsonLines (diagnose acc l) = jsonLines acc + 1) as Hj.
        { destruct Hl as (_ & _ & Htype & _).
          destruct (parseLine_typed (index l) (line l)) as (Hb & parsed & Hp).
          - rewrite <- Htype. unfold has_type in Ht.
            destruct (type l); [discriminate | discriminate Ht].
          - unfold diagnose. rewrite Hb, Hp. reflexivity. }
        lia.
      * assert (jsonLines acc <= jsonLines (diagnose acc l)) as Hj.
        { unfold diagnose. destruct (blank (line l)); [cbn; lia|].
          destruct (JSON_parse (line l)); cbn; lia. }
        lia.
Qed.

(** X13.  [runDiagnostics] changes nothing, and its three counters add
    up to the number of lines.  In a session whose lines hold what
    their text parses to, the lines with a [type] are never more than
    the lines counted as JSON. *)
Theorem diagnostics_counters (w : world number) :
  (runDiagnostics w).2 = w /\
  exists r,
    (runDiagnostics w).1 = Returns r /\
    jsonLines r + nonJsonLines r + emptyLines r = length (lines (this w)) /\
    (Forall parsed_from_its_text (lines (this w)) ->
     length (List.filter has_type (lines (this w))) <= jsonLines r).
Proof.
  split; [reflexivity|]. eexists. split; [reflexivity|].
  destruct (fold_diagnose (lines (this w))
              {| jsonLines := 0; nonJsonLines := 0; emptyLines := 0 |})
    as [Hsum Hjson].
  cbn [jsonLines nonJsonLines emptyLines] in Hsum, Hjson.
  split; [exact Hsum | exact Hjson].
Qed.

End Diagnostics.

(** ** Saving again, and loading what was saved *)

Section SaveFurther.
Context {number : Type} {RT : JSRuntime number}.

Lemma files_set_file_cases (path p : string) (x : option string)
    (d : storage) :
  files (set_file path x d) !! p = files d !! p \/
  (p = path /\ exists data, x = Some data /\
     files (set_file path x d) !! p = Some data).
Proof.
  destruct x as [data|]; [|left; reflexivity]. cbn.
  destruct (decide (path = p)) as [->|Hne].
  - right. split; [reflexivity|]. exists data.
    split; [reflexivity | apply lookup_insert_eq].
  - left. apply lookup_insert_ne, Hne.
Qed.

Lemma set_file_keeps (path p : string) (x : option string) (d : storage) :
  is_Some (files d !! p) -> is_Some (files (set_file path x d) !! p).
Proof.
  intros H. destruct (files_set_file_cases path p x d) as [->|(_ & data & _ & ->)];
    [exact H | eexists; reflexivity].
Qed.

Lemma saveChanges_keeps_lines (confirm : bool) (now : string)
    (t : ClaudeSessionManager number) (d : storage) :
  lines (this (saveChanges confirm now {| this := t; disk := d |}).2) =
    lines t.
Proof.
  destruct confirm; [|reflexivity].
  rewrite saveChanges_run. cbv zeta.
  destruct (coming d 0); [destruct (coming d 1)|]; reflexivity.
Qed.

(** X14.  [saveChanges], whatever the answer to its prompt and whatever
    fails, touches no path but the backup file and the session file,
    removes no file, and leaves the lines of the session, deselected
    ones included, as they were. *)
Theorem save_touches_two_paths (confirm : bool) (now : string)
    (t : ClaudeSessionManager number) (d : storage) (p : string) :
  let run := saveChanges confirm now {| this := t; disk := d |} in
  (files (disk run.2) !! p = files d !! p \/
   p = backupFile_at t now \/ p = sessionFile t) /\
  (is_Some (files d !! p) -> is_Some (files (disk run.2) !! p)) /\
  lines (this run.2) = lines t.
Proof.
  destruct confirm; [|cbv zeta; rewrite saveChanges_declined;
                      split; [left; reflexivity | split; [tauto | reflexivity]]].
  cbv zeta. rewrite saveChanges_run. cbv zeta.
  destruct (coming d 0) as [|r0]; [destruct (coming d 1) as [|r1]|];
    cbn [snd disk this with_originalContent lines].
  - split; [|split; [|reflexivity]].
    + destruct (files_set_file_cases (sessionFile t) p
                  (Some (output_of (lines t)))
                  (answered (WriteFile (sessionFile t) (output_of (lines t)))
                     (set_file (backupFile_at t now) (Some (originalContent t))
                        (answered (WriteFile (backupFile_at t now)
                                     (originalContent t)) d))))
        as [->|(-> & _)]; [|tauto].
      cbn [answered files].
      destruct (files_set_file_cases (backupFile_at t now) p
                  (Some (originalContent t))
                  (answered (WriteFile (backupFile_at t now)
                               (originalContent t)) d))
        as [->|(-> & _)]; [left; reflexivity | tauto].
    + intros H. apply set_file_keeps. cbn [answered files].
      apply set_file_keeps. exact H.
  - split; [|split; [|reflexivity]].
    + destruct (files_set_file_cases (sessionFile t) p r1
                  (answered (WriteFile (sessionFile t) (output_of (lines t)))
                     (set_file (backupFile_at t now) (Some (originalContent t))
                        (answered (WriteFile (backupFile_at t now)
                                     (originalContent t)) d))))
        as [->|(-> & _)]; [|tauto].
      cbn [answered files].
      destruct (files_set_file_cases (backupFile_at t now) p
                  (Some (originalContent t))
                  (answered (WriteFile (backupFile_at t now)
                               (originalContent t)) d))
        as [->|(-> & _)]; [left; reflexivity | tauto].
    + intros H. apply set_file_keeps. cbn [answered files].
      apply set_file_keeps. exact H.
  - split; [|split; [|reflexivity]].
    + destruct (files_set_file_cases (backupFile_at t now) p r0
                  (answered (WriteFile (backupFile_at t now)
                               (originalContent t)) d))
        as [->|(-> & _)]; [left; reflexivity | tauto].
    + intros H. apply set_file_keeps. exact H.
Qed.

Lemma output_of_none (ls : list (SessionLine number)) :
  output_of (map (set_selected false) ls) = "".
Proof.
  unfold output_of. rewrite filter_none; [reflexivity|].
  apply Forall_map, Forall_forall. intros l _. reflexivity.
Qed.

(** X15.  Deselecting every line and saving leaves an empty session
    file, with the former text in the backup; loading the empty file
    gives one empty line, not none. *)
Theorem deselect_all_then_save (t : ClaudeSessionManager number)
    (d : storage) (now : string) :
  constructed t ->
  coming d 0 = Succeeds -> coming d 1 = Succeeds ->
  let run :=
    (toggleAll false;; saveChanges true now) {| this := t; disk := d |} in
  run.1 = Returns (SaveSucceeded (backupFile_at t now)) /\
  files (disk run.2) !! sessionFile t = Some "" /\
  files (disk run.2) !! backupFile_at t now = Some (originalContent t) /\
  originalContent (this run.2) = "" /\
  parseContent "" = [bare_line 0 ""].
Proof.
  intros Hc H0 H1. cbv zeta.
  pose proof (backupFile_differs (with_lines (map (set_selected false) (lines t)) t)
                now Hc) as Hne.
  rewrite (bind_returns (toggleAll false) _ {| this := t; disk := d |}
             {| this := with_lines (map (set_selected false) (lines t)) t;
                disk := d |} () eq_refl).
  rewrite saveChanges_run. cbv zeta. rewrite H0, H1.
  cbn [fst snd disk this with_lines with_originalContent lines sessionFile
       originalContent] in *.
  rewrite output_of_none.
  change (backupFile_at (with_lines (map (set_selected false) (lines t)) t) now)
    with (backupFile_at t now) in *.
  split; [reflexivity|]. split; [apply files_set_file_Some|].
  split; [|split; reflexivity].
  rewrite files_set_file_other by (intros E; exact (Hne (eq_sym E))).
  cbn [answered files]. apply files_set_file_Some.
Qed.

(** X16.  Saving twice in a row, with no change of the selection in
    between: the second save writes the same text to the session file
    again, its backup holds that text (what the first save wrote) and
    no longer the text the session started from, which stays in the
    backup of the first save when the two backups are different
    files. *)
Theorem save_twice (t : ClaudeSessionManager number) (d : storage)
    (now1 now2 : string) :
  constructed t ->
  (forall n, n < 4 -> coming d n = Succeeds) ->
  backupFile_at t now1 <> backupFile_at t now2 ->
  let output := output_of (lines t) in
  let run :=
    (saveChanges true now1;; saveChanges true now2)
      {| this := t; disk := d |} in
  run.1 = Returns (SaveSucceeded (backupFile_at t now2)) /\
  files (disk run.2) !! sessionFile t = Some output /\
  files (disk run.2) !! backupFile_at t now2 = Some output /\
  files (disk run.2) !! backupFile_at t now1 = Some (originalContent t).
Proof.
  intros Hc Hok Hdiff output run.
  pose proof (backupFile_differs t now1 Hc) as Hne1.
  pose proof (backupFile_differs t now2 Hc) as Hne2.
  assert (run =
    saveChanges true now2
      {| this := with_originalContent output t;
         disk := set_file (sessionFile t) (Some output)
                   (answered (WriteFile (sessionFile t) output)
                      (set_file (backupFile_at t now1) (Some (originalContent t))
                         (answered (WriteFile (backupFile_at t now1)
                                      (originalContent t)) d))) |}) as ->.
  { unfold run. erewrite bind_returns; [reflexivity|].
    rewrite saveChanges_run. cbv zeta.
    rewrite (Hok 0 ltac:(lia)), (Hok 1 ltac:(lia)). reflexivity. }
  rewrite saveChanges_run. cbv zeta.
  rewrite !coming_set_file, !coming_answered, !coming_set_file,
    !coming_answered.
  rewrite (Hok 2 ltac:(lia)), (Hok 3 ltac:(lia)).
  cbn [fst snd disk this with_originalContent lines sessionFile originalContent].
  change (backupFile_at (with_originalContent output t) now2)
    with (backupFile_at t now2).
  fold output.
  split; [reflexivity|]. split; [apply files_set_file_Some|].
  split.
  - rewrite files_set_file_other by (intros E; exact (Hne2 (eq_sym E))).
    cbn [answered files]. apply files_set_file_Some.
  - rewrite files_set_file_other by (intros E; exact (Hne1 (eq_sym E))).
    cbn [answered files].
    rewrite files_set_file_other by (intros E; exact (Hdiff (eq_sym E))).
    cbn [answered files].
    rewrite files_set_file_other by (intros E; exact (Hne1 (eq_sym E))).
    cbn [answered files]. apply files_set_file_Some.
Qed.

Lemma append_inj_r (a b c : string) : a +:+ c = b +:+ c -> a = b.
Proof.
  intros H.
  assert (String.length a = String.length b) as Hlen.
  { apply (f_equal String.length) in H. rewrite !length_append in H. lia. }
  revert b H Hlen. induction a as [|x a IH]; intros [|y b] H Hlen;
    try discriminate Hlen; [reflexivity|].
  change (String x a +:+ c) with (String x (a +:+ c)) in H.
  change (String y b +:+ c) with (String y (b +:+ c)) in H.
  injection H as -> H. injection Hlen as Hlen. f_equal. apply IH; assumption.
Qed.

Lemma replace_colons_inj (a b : string) :
  colon_mask a = colon_mask b ->
  Str.replace_char ":" "-" a = Str.replace_char ":" "-" b -> a = b.
Proof.
  revert b. induction a as [|x a IH]; intros [|y b] Hm Hr;
    try discriminate; [reflexivity|].
  cbn [colon_mask] in Hm. cbn [Str.replace_char] in Hr.
  injection Hm as Hxy Hm. injection Hr as Hc Hr.
  rewrite (IH b Hm Hr). f_equal.
  rewrite <- Hxy in Hc. destruct (Ascii.eqb x ":") eqn:E; [|exact Hc].
  apply Ascii.eqb_eq in E. symmetry in Hxy. apply Ascii.eqb_eq in Hxy.
  congruence.
Qed.

(** X17.  Two saves at different times get different backup files,
    when the two timestamps have their colons at the same places, as
    two ISO strings of the clock have: the later save does not write
    over the earlier backup. *)
Theorem backups_of_different_times (t : ClaudeSessionManager number)
    (now1 now2 : string) :
  colon_mask now1 = colon_mask now2 -> now1 <> now2 ->
  backupFile_at t now1 <> backupFile_at t now2.
Proof.
  intros Hm Hne Heq. apply Hne, replace_colons_inj; [exact Hm|].
  unfold backupFile_at, path_join in Heq. cbn [Str.join] in Heq.
  do 4 apply String.app_inj in Heq.
  apply (append_inj_r _ _ ".jsonl"), Heq.
Qed.

End SaveFurther.

Section Reload.
Context {number : Type} {RT : JSRuntime number}.

Lemma split_lines_one (s : string) :
  Str.count_LF s = 0 -> Str.split_lines s = [s].
Proof.
  induction s as [|c|c c2 rest IH1 IH2] using string_pair_ind.
  - reflexivity.
  - cbn. destruct (Str.is_LF c); [discriminate | reflexivity].
  - change (Str.count_LF (String c (String c2 rest))) with
      ((if Str.is_LF c then 1 else 0) + Str.count_LF (String c2 rest)).
    change (Str.split_lines (String c (String c2 rest))) with
      (if Str.is_LF c then "" :: Str.split_lines (String c2 rest)
       else if Str.is_CR c && Str.is_LF c2 then "" :: Str.split_lines rest
       else Str.cons_head c (Str.split_lines (String c2 rest))).
    destruct (Str.is_LF c); [discriminate|]. intros H.
    assert (Str.is_LF c2 = false) as ->.
    { cbn [Str.count_LF] in H. destruct (Str.is_LF c2); [discriminate H|].
      reflexivity. }
    rewrite andb_false_r, (IH2 H). reflexivity.
Qed.

Lemma split_lines_append (s r : string) :
  Str.count_LF s = 0 -> ends_in_CR s = false ->
  Str.split_lines (s +:+ String Str.LF r) = s :: Str.split_lines r.
Proof.
  induction s as [|c|c c2 rest IH1 IH2] using string_pair_ind.
  - intros _ _. reflexivity.
  - intros Hlf Hcr. cbn in Hlf, Hcr.
    change (String c "" +:+ String Str.LF r) with (String c (String Str.LF r)).
    change (Str.split_lines (String c (String Str.LF r))) with
      (if Str.is_LF c then "" :: Str.split_lines (String Str.LF r)
       else if Str.is_CR c && Str.is_LF Str.LF
            then "" :: Str.split_lines r
            else Str.cons_head c (Str.split_lines (String Str.LF r))).
    destruct (Str.is_LF c); [discriminate Hlf|]. rewrite Hcr. reflexivity.
  - intros Hlf Hcr.
    change (Str.count_LF (String c (String c2 rest))) with
      ((if Str.is_LF c then 1 else 0) + Str.count_LF (String c2 rest)) in Hlf.
    change (ends_in_CR (String c (String c2 rest))) with
      (ends_in_CR (String c2 rest)) in Hcr.
    change (String c (String c2 rest) +:+ String Str.LF r) with
      (String c (String c2 (rest +:+ String Str.LF r))).
    change (Str.split_lines (String c (String c2 (rest +:+ String Str.LF r))))
      with
      (if Str.is_LF c
       then "" :: Str.split_lines (String c2 (rest +:+ String Str.LF r))
       else if Str.is_CR c && Str.is_LF c2
            then "" :: Str.split_lines (rest +:+ String Str.LF r)
            else Str.cons_head c
                   (Str.split_lines (String c2 (rest +:+ String Str.LF r)))).
    destruct (Str.is_LF c); [discriminate Hlf|].
    assert (Str.is_LF c2 = false) as ->.
    { cbn [Str.count_LF] in Hlf. destruct (Str.is_LF c2); [discriminate Hlf|].
      reflexivity. }
    rewrite andb_false_r.
    change (String c2 (rest +:+ String Str.LF r)) with
      (String c2 rest +:+ String Str.LF r).
    rewrite (IH2 Hlf Hcr). reflexivity.
Qed.

Lemma split_lines_join (segs : list string) :
  segs <> [] ->
  Forall (fun s => Str.count_LF s = 0 /\ ends_in_CR s = false) segs ->
  Str.split_lines (Str.join Str.NL segs) = segs.
Proof.
  intros Hne HF. induction HF as [|s rest [Hlf Hcr] HF IH]; [congruence|].
  destruct rest as [|s2 rest].
  - cbn [Str.join]. apply split_lines_one, Hlf.
  - rewrite join_cons by discriminate.
    change (Str.NL +:+ Str.join Str.NL (s2 :: rest)) with
      (String Str.LF (Str.join Str.NL (s2 :: rest))).
    rewrite (split_lines_append s _ Hlf Hcr), IH by discriminate.
    reflexivity.
Qed.

Lemma parseLine_any_index (i j : nat) (raw : string) :
  line (parseLine i raw) = line (parseLine j raw) /\
  type (parseLine i raw) = type (parseLine j raw) /\
  content (parseLine i raw) = content (parseLine j raw) /\
  isMessage (parseLine i raw) = isMessage (parseLine j raw).
Proof.
  unfold parseLine. destruct (blank raw); [repeat split|].
  destruct (JSON_parse raw) as [parsed|]; [|repeat split].
  destruct (extract parsed) as [[msgType c]|]; repeat split.
Qed.

(** X18.  The text a save writes parses back to the lines that were
    kept: when some line is selected and no selected line holds a line
    feed or ends in a carriage return, loading the output gives one
    line per selected line, in order, with the same [line], and for
    lines that hold what their text parses to the same [type],
    [content] and [isMessage]; every line is selected again. *)
Theorem output_parses_back (ls : list (SessionLine number)) :
  List.filter selected ls <> [] ->
  Forall (fun l => Str.count_LF (line l) = 0 /\ ends_in_CR (line l) = false)
    (List.filter selected ls) ->
  Forall parsed_from_its_text ls ->
  Forall2 (fun l l' =>
             line l' = line l /\ type l' = type l /\
             content l' = content l /\ isMessage l' = isMessage l /\
             selected l' = true)
    (List.filter selected ls) (parseContent (output_of ls)).
Proof.
  intros Hne Hclean Hparsed. unfold parseContent, output_of.
  rewrite split_lines_join.
  - assert (Forall parsed_from_its_text (List.filter selected ls)) as Hp.
    { rewrite Forall_forall in *. intros l Hl. apply Hparsed.
      apply list_elem_of_In, filter_In in Hl as [Hl _].
      apply list_elem_of_In, Hl. }
    clear Hne Hclean Hparsed. revert Hp.
    generalize (List.filter selected ls) as kept. intros kept Hp.
    assert (forall (f : nat -> string -> SessionLine number),
      (forall i raw, f i raw = parseLine (f i raw).(index) raw) ->
      Forall2 (fun l l' =>
                 line l' = line l /\ type l' = type l /\
                 content l' = content l /\ isMessage l' = isMessage l /\
                 selected l' = true)
        kept (imap f (map line kept))) as H.
    { induction Hp as [|l kept Hl _ IH]; intros f Hf; [constructor|].
      cbn [map]. rewrite imap_cons. constructor.
      - rewrite Hf. destruct Hl as (_ & _ & Ht & Hc & Hm).
        destruct (parseLine_any_index (index (f 0 (line l))) (index l) (line l))
          as (_ & Ht' & Hc' & Hm').
        rewrite parseLine_line, parseLine_selected. repeat split; congruence.
      - apply IH. intros i raw. apply Hf. }
    apply H. intros i raw. rewrite parseLine_index. reflexivity.
  - intros E. apply Hne. destruct (List.filter selected ls); [reflexivity|].
    discriminate E.
  - apply Forall_map. exact Hclean.
Qed.

Lemma parseLine_parsed_from_its_text (i : nat) (raw : string) :
  parsed_from_its_text (parseLine i raw).
Proof.
  unfold parsed_from_its_text. rewrite parseLine_index, parseLine_line.
  repeat split.
Qed.

End Reload.

(** ** Loading and restoring *)

Section Restore.
Context {number : Type} {RT : JSRuntime number}.

Lemma initialize_cases (t : ClaudeSessionManager number) (d : storage) :
  let run := initialize {| this := t; disk := d |} in
  files (disk run.2) = files d /\
  match run.1 with
  | Returns _ =>
      exists data,
        files d !! sessionFile t = Some data /\
        this run.2 = with_lines (parseContent data) (with_originalContent data t)
  | Throws _ => this run.2 = t
  end.
Proof.
  cbv zeta.
  unfold initialize, mbind, M_bind, get_this, fs_pathExists, on_disk.
  cbn [this disk].
  destruct (files d !! sessionFile t) as [data|] eqn:Hf.
  - rewrite bool_decide_eq_true_2 by (eexists; reflexivity). cbn [negb].
    rewrite fs_ensureDir_run.
    destruct (coming _ 0); [|split; reflexivity].
    rewrite fs_readFile_run.
    destruct (coming _ 0); [|split; reflexivity].
    cbn [answered record_call files]. rewrite Hf.
    split; [reflexivity|]. exists data. split; reflexivity.
  - rewrite bool_decide_eq_false_2 by (intros [x Hx]; discriminate Hx).
    split; reflexivity.
Qed.

Lemma initialize_missing (t : ClaudeSessionManager number) (d : storage) :
  files d !! sessionFile t = None ->
  initialize {| this := t; disk := d |} =
    (Throws (Error ("Session file not found: " +:+ sessionFile t)),
     {| this := t; disk := record_call (PathExists (sessionFile t)) d |}).
Proof.
  intros Hf.
  unfold initialize, mbind, M_bind, get_this, fs_pathExists, on_disk.
  cbn [this disk]. rewrite Hf.
  rewrite bool_decide_eq_false_2 by (intros [x Hx]; discriminate Hx).
  reflexivity.
Qed.

(** X19.  [initialize] writes no file.  When it returns, the session
    file held some text, the [originalContent] of the object is that
    text, its [lines] are the parse of that text, and its paths are as
    they were; when it throws, the object is as it was.  When the
    session file is missing it throws after the existence check, with
    no other call made. *)
Theorem initialize_all_or_nothing (t : ClaudeSessionManager number)
    (d : storage) :
  let run := initialize {| this := t; disk := d |} in
  files (disk run.2) = files d /\
  match run.1 with
  | Returns _ =>
      exists data,
        files d !! sessionFile t = Some data /\
        originalContent (this run.2) = data /\
        lines (this run.2) = parseContent data /\
        same_paths t (this run.2)
  | Throws _ => this run.2 = t
  end /\
  (files d !! sessionFile t = None ->
   run.1 = Throws (Error ("Session file not found: " +:+ sessionFile t)) /\
   calls (disk run.2) = calls d ++ [PathExists (sessionFile t)]).
Proof.
  cbv zeta. destruct (initialize_cases t d) as [Hfiles Hcase].
  split; [exact Hfiles|]. split.
  - destruct (initialize {| this := t; disk := d |}) as [[[]|e] w'];
      cbn [fst snd] in *; [|exact Hcase].
    destruct Hcase as (data & Hdata & ->). exists data.
    split; [exact Hdata|]. repeat split.
  - intros Hmissing. rewrite (initialize_missing t d Hmissing).
    split; reflexivity.
Qed.

Lemma initialize_calls (t : ClaudeSessionManager number) (d : storage) :
  exists more,
    calls (disk (initialize {| this := t; disk := d |}).2) = calls d ++ more.
Proof.
  unfold initialize, mbind, M_bind, get_this, fs_pathExists, on_disk.
  cbn [this disk].
  destruct (bool_decide (is_Some (files d !! sessionFile t))); cbn [negb];
    [|eexists; reflexivity].
  rewrite fs_ensureDir_run.
  destruct (coming _ 0);
    [|eexists; cbn [snd disk answered record_call calls];
      rewrite <- app_assoc; reflexivity].
  rewrite fs_readFile_run.
  destruct (coming _ 0); [destruct (files _ !! _)|];
    eexists; cbn [snd disk this answered record_call calls with_lines
                  with_originalContent set_originalContent set_lines];
    rewrite <- !app_assoc; reflexivity.
Qed.

Lemma fs_readdir_run (path : string) (t : ClaudeSessionManager number)
    (d : storage) :
  fs_readdir path {| this := t; disk := d |} =
    (match coming d 0 with
     | Succeeds => Returns (entries path d)
     | Fails _ => Throws (SystemError (ReadFile path))
     end,
     {| this := t; disk := answered (ReadFile path) d |}).
Proof.
  unfold fs_readdir, on_disk. cbn [disk this].
  rewrite next_outcome_record_call. destruct (coming d 0); reflexivity.
Qed.

(** [restoreBackup] run up to the reload. *)
Lemma restoreBackup_run (choose : list string -> string)
    (t : ClaudeSessionManager number) (d : storage) :
  let listing := ReadFile (backupDir t) in
  let sessionBackups :=
    sessionBackups_of (sessionId t) (entries (backupDir t) d) in
  let backupPath :=
    path_join [backupDir t; choose (take 10 sessionBackups)] in
  let d1 := answered (ReadFile backupPath) (answered listing d) in
  restoreBackup choose {| this := t; disk := d |} =
    match coming d 0 with
    | Fails _ =>
        (Throws (SystemError listing), {| this := t; disk := answered listing d |})
    | Succeeds =>
        if length sessionBackups =? 0
        then (Returns NoBackups, {| this := t; disk := answered listing d |})
        else
          match coming d 1, files d !! backupPath with
          | Succeeds, Some content =>
              let overwrite := WriteFile (sessionFile t) content in
              match coming d 2 with
              | Fails residue =>
                  (Returns (RestoreFailed (SystemError overwrite)),
                   {| this := t;
                      disk := set_file (sessionFile t) residue
                                (answered overwrite d1) |})
              | Succeeds =>
                  match
                    initialize
                      {| this := t;
                         disk := set_file (sessionFile t) (Some content)
                                   (answered overwrite d1) |}
                  with
                  | (Returns _, w') => (Returns Restored, w')
                  | (Throws e, w') => (Returns (RestoreFailed e), w')
                  end
              end
          | _, _ =>
              (Returns (RestoreFailed (SystemError (ReadFile backupPath))),
               {| this := t; disk := d1 |})
          end
    end.
Proof.
  cbv zeta. unfold restoreBackup, mbind, M_bind, get_this. cbn [this].
  rewrite fs_readdir_run. destruct (coming d 0) eqn:H0; [|reflexivity].
  destruct (length _ =? 0); [reflexivity|].
  unfold try_catch. rewrite fs_readFile_run, coming_answered.
  cbn [answered files].
  destruct (coming d 1); [|reflexivity].
  destruct (files d !! _) as [content|]; [|reflexivity].
  rewrite fs_writeFile_run, !coming_answered.
  destruct (coming d 2); [|reflexivity].
  destruct (initialize _) as [[[]|e] w']; reflexivity.
Qed.

(** X20.  [restoreBackup] touches no path but the session file.  When
    it reports a restored backup, the session file holds the text the
    chosen backup file held, the [originalContent] of the object is
    that text and its [lines] are the parse of that text, every line
    selected again, with the paths as they were.  In every other case
    the object is as it was: also when the session file was written
    and the reload then failed. *)
Theorem restoreBackup_outcomes (choose : list string -> string)
    (t : ClaudeSessionManager number) (d : storage) :
  let run := restoreBackup choose {| this := t; disk := d |} in
  let sessionBackups :=
    sessionBackups_of (sessionId t) (entries (backupDir t) d) in
  let backupPath :=
    path_join [backupDir t; choose (take 10 sessionBackups)] in
  (forall p, p <> sessionFile t ->
     files (disk run.2) !! p = files d !! p) /\
  (run.1 = Returns Restored ->
   exists content,
     files d !! backupPath = Some content /\
     files (disk run.2) !! sessionFile t = Some content /\
     originalContent (this run.2) = content /\
     lines (this run.2) = parseContent content /\
     Forall (fun l => selected l = true) (lines (this run.2)) /\
     same_paths t (this run.2)) /\
  (run.1 <> Returns Restored -> this run.2 = t).
Proof.
  cbv zeta. rewrite restoreBackup_run. cbv zeta.
  destruct (coming d 0);
    [|split; [reflexivity | split; [discriminate | reflexivity]]].
  destruct (length _ =? 0);
    [split; [reflexivity | split; [discriminate | reflexivity]]|].
  destruct (coming d 1);
    [|split; [reflexivity | split; [discriminate | reflexivity]]].
  destruct (files d !! _) as [content|] eqn:Hb;
    [|split; [reflexivity | split; [discriminate | reflexivity]]].
  destruct (coming d 2) as [|residue].
  - match goal with
    | |- context [initialize {| this := t; disk := ?d3 |}] =>
        pose proof (initialize_cases t d3) as (Hfiles & Hcase);
        destruct (initialize {| this := t; disk := d3 |}) as [[[]|e] w']
    end; cbn [fst snd] in *.
    + destruct Hcase as (data & Hdata & Hthis).
      rewrite files_set_file_Some in Hdata. injection Hdata as <-.
      split; [|split; [|congruence]].
      * intros p Hp. rewrite Hfiles.
        rewrite files_set_file_other by congruence. reflexivity.
      * intros _. exists content. split; [reflexivity|].
        split; [rewrite Hfiles; apply files_set_file_Some|].
        rewrite Hthis. cbn [with_lines with_originalContent lines
                            originalContent].
        split; [reflexivity|]. split; [reflexivity|].
        split; [|repeat split].
        unfold parseContent. apply Forall_imap. intros i raw.
        apply parseLine_selected.
    + split; [|split; [discriminate | intros _; exact Hcase]].
      intros p Hp. rewrite Hfiles.
      rewrite files_set_file_other by congruence. reflexivity.
  - split; [|split; [discriminate | reflexivity]].
    intros p Hp. cbn [snd disk].
    rewrite files_set_file_other by congruence. reflexivity.
Qed.

Lemma restoreBackup_this (choose : list string -> string)
    (t : ClaudeSessionManager number) (d : storage) :
  let run := restoreBackup choose {| this := t; disk := d |} in
  this run.2 = t \/
  exists content,
    this run.2 =
      with_lines (parseContent content) (with_originalContent content t).
Proof.
  cbv zeta. rewrite restoreBackup_run. cbv zeta.
  destruct (coming d 0); [|left; reflexivity].
  destruct (length _ =? 0); [left; reflexivity|].
  destruct (coming d 1); [|left; reflexivity].
  destruct (files d !! _) as [content|]; [|left; reflexivity].
  destruct (coming d 2) as [|residue]; [|left; reflexivity].
  match goal with
  | |- context [initialize {| this := t; disk := ?d3 |}] =>
      pose proof (initialize_cases t d3) as (_ & Hcase);
      destruct (initialize {| this := t; disk := d3 |}) as [[[]|e] w']
  end; cbn [fst snd] in *.
  - right. destruct Hcase as (data & _ & ->). exists data. reflexivity.
  - left. exact Hcase.
Qed.

End Restore.

Section Backups.
Context {number : Type} {RT : JSRuntime number}.

Lemma elem_of_sessionBackups (sid f : string) (backups : list string) :
  f ∈ sessionBackups_of sid backups <->
  f ∈ backups /\ startsWith f (sid +:+ ".") = true.
Proof.
  unfold sessionBackups_of.
  rewrite elem_of_reverse, merge_sort_Permutation, list_elem_of_In, filter_In,
    <- list_elem_of_In.
  reflexivity.
Qed.

Lemma sessionBackups_sorted_desc (sid : string) (backups : list string) :
  StronglySorted (flip String.le) (sessionBackups_of sid backups).
Proof.
  apply Sorted_StronglySorted; [apply _|].
  unfold sessionBackups_of. apply Sorted_reverse, Sorted_merge_sort.
  apply _.
Qed.

Lemma sessionBackups_NoDup (sid : string) (backups : list string) :
  NoDup backups -> NoDup (sessionBackups_of sid backups).
Proof.
  intros Hnd. unfold sessionBackups_of.
  rewrite reverse_Permutation, merge_sort_Permutation.
  apply NoDup_ListNoDup, List.NoDup_filter, NoDup_ListNoDup, Hnd.
Qed.

(** The calls [restoreBackup] makes when the listing succeeds and shows
    a backup of the session: the listing, then the read of the backup
    the user picked among the first ten. *)
Lemma restoreBackup_calls (choose : list string -> string)
    (t : ClaudeSessionManager number) (d : storage) :
  let sessionBackups :=
    sessionBackups_of (sessionId t) (entries (backupDir t) d) in
  coming d 0 = Succeeds -> sessionBackups <> [] ->
  exists more,
    calls (disk (restoreBackup choose {| this := t; disk := d |}).2) =
      calls d ++
      [ReadFile (backupDir t);
       ReadFile (path_join [backupDir t; choose (take 10 sessionBackups)])] ++
      more.
Proof.
  cbv zeta. intros H0 Hne. rewrite restoreBackup_run. cbv zeta. rewrite H0.
  destruct (sessionBackups_of (sessionId t) (entries (backupDir t) d))
    as [|first others] eqn:Hsb; [congruence|].
  cbn [length Nat.eqb]. rewrite <- Hsb.
  assert (forall c1 c2 : fs_call,
            calls (answered c2 (answered c1 d)) = calls d ++ [c1; c2] ++ [])
    as Htwo.
  { intros c1 c2. cbn [answered calls]. rewrite <- app_assoc. reflexivity. }
  destruct (coming d 1); [|exists []; apply Htwo].
  destruct (files d !! _) as [content|]; [|exists []; apply Htwo].
  destruct (coming d 2) as [|residue].
  - match goal with
    | |- context [initialize {| this := t; disk := ?d3 |}] =>
        destruct (initialize_calls t d3) as [more Hmore];
        destruct (initialize {| this := t; disk := d3 |}) as [[[]|e] w']
    end; cbn [fst snd] in *;
      exists (WriteFile (sessionFile t) content :: more);
      rewrite Hmore, calls_set_file; cbn [answered calls];
      rewrite <- !app_assoc; reflexivity.
  - exists [WriteFile (sessionFile t) content].
    cbn [snd disk]. rewrite calls_set_file. cbn [answered calls].
    rewrite <- !app_assoc. reflexivity.
Qed.

(** X21.  What [restoreBackup] offers.  When the listing succeeds and
    shows a backup of the session, there is one list of choices,
    whoever chooses: the first call is the listing and the second the
    read of the backup that the user picks from that list.  The list
    holds entries of the backup directory whose name starts with the
    session identifier and a dot, each once, at most ten of them, in
    descending order of their names (a later ISO timestamp comes
    first); a backup of the session that is not offered is left out
    because ten are, and its name is below all of theirs. *)
Theorem restoreBackup_offers_latest_ten (t : ClaudeSessionManager number)
    (d : storage) :
  coming d 0 = Succeeds ->
  (exists f, f ∈ entries (backupDir t) d /\
             startsWith f (sessionId t +:+ ".") = true) ->
  exists offered,
    offered <> [] /\ length offered <= 10 /\ NoDup offered /\
    StronglySorted (flip String.le) offered /\
    (forall f, f ∈ offered ->
       f ∈ entries (backupDir t) d /\
       startsWith f (sessionId t +:+ ".") = true) /\
    (forall f, f ∈ entries (backupDir t) d ->
       startsWith f (sessionId t +:+ ".") = true -> f ∉ offered ->
       length offered = 10 /\ forall g, g ∈ offered -> String.le f g) /\
    forall choose, exists more,
      calls (disk (restoreBackup choose {| this := t; disk := d |}).2) =
        calls d ++
        [ReadFile (backupDir t);
         ReadFile (path_join [backupDir t; choose offered])] ++ more.
Proof.
  intros H0 (f0 & Hf0 & Hp0).
  set (sb := sessionBackups_of (sessionId t) (entries (backupDir t) d)).
  assert (f0 ∈ sb) as Hin0 by (apply elem_of_sessionBackups; tauto).
  assert (sb <> []) as Hne.
  { intros E. rewrite E in Hin0. apply elem_of_nil in Hin0. exact Hin0. }
  pose proof (sessionBackups_sorted_desc (sessionId t)
                (entries (backupDir t) d)) as Hsorted.
  pose proof (sessionBackups_NoDup (sessionId t) (entries (backupDir t) d)
                (NoDup_remove_dups _)) as Hnd.
  fold sb in Hsorted, Hnd.
  exists (take 10 sb).
  split; [destruct sb; [congruence | discriminate]|].
  split; [rewrite length_take; lia|].
  split; [exact (sublist_NoDup _ _ Hnd (sublist_take sb 10))|].
  split.
  { rewrite <- (take_drop 10 sb) in Hsorted.
    apply StronglySorted_app_1_l in Hsorted. exact Hsorted. }
  split.
  { intros f Hf. apply elem_of_sessionBackups.
    apply elem_of_take in Hf as (i & Hi & _).
    eapply list_elem_of_lookup_2, Hi. }
  split.
  { intros f Hf Hp Hout.
    assert (f ∈ sb) as Hin by (apply elem_of_sessionBackups; tauto).
    rewrite <- (take_drop 10 sb) in Hin.
    apply elem_of_app in Hin as [Hin|Hin]; [contradiction|].
    split.
    - rewrite length_take. apply Nat.min_l.
      destruct (decide (10 <= length sb)) as [Hle|Hgt]; [exact Hle|].
      rewrite drop_ge in Hin by lia. apply elem_of_nil in Hin. contradiction.
    - intros g Hg. rewrite <- (take_drop 10 sb) in Hsorted.
      exact (StronglySorted_app_1_elem_of _ _ _ _ _ Hsorted Hg Hin). }
  intros choose. exact (restoreBackup_calls choose t d H0 Hne).
Qed.

(** X22.  With no backup of the session in the backup directory,
    [restoreBackup] reports that there is none, whoever chooses:
    it makes no call but the listing, and the files and the object are
    as they were.  When the listing itself fails, the exception leaves
    the method, with nothing changed either. *)
Theorem restoreBackup_without_backups (choose : list string -> string)
    (t : ClaudeSessionManager number) (d : storage) :
  (forall f, f ∈ entries (backupDir t) d ->
             startsWith f (sessionId t +:+ ".") = false) ->
  let run := restoreBackup choose {| this := t; disk := d |} in
  run.1 =
    match coming d 0 with
    | Succeeds => Returns NoBackups
    | Fails _ => Throws (SystemError (ReadFile (backupDir t)))
    end /\
  this run.2 = t /\ files (disk run.2) = files d /\
  calls (disk run.2) = calls d ++ [ReadFile (backupDir t)].
Proof.
  intros Hnone. cbv zeta. rewrite restoreBackup_run. cbv zeta.
  destruct (coming d 0); [|repeat split].
  assert (sessionBackups_of (sessionId t) (entries (backupDir t) d) = [])
    as ->.
  { destruct (sessionBackups_of _ _) as [|f rest] eqn:E; [reflexivity|].
    assert (f ∈ sessionBackups_of (sessionId t) (entries (backupDir t) d))
      as Hf by (rewrite E; left).
    apply elem_of_sessionBackups in Hf as [Hin Hpre].
    rewrite (Hnone f Hin) in Hpre. discriminate. }
  repeat split.
Qed.

Lemma append_assoc (a b c : string) : (a +:+ b) +:+ c = a +:+ (b +:+ c).
Proof.
  induction a as [|x a IH]; [reflexivity|].
  change ((String x a +:+ b) +:+ c) with (String x ((a +:+ b) +:+ c)).
  rewrite IH. reflexivity.
Qed.

Lemma strip_prefix_append (p s : string) : strip_prefix p (p +:+ s) = Some s.
Proof.
  induction p as [|c p IH]; [destruct s; reflexivity|].
  change (String c p +:+ s) with (String c (p +:+ s)).
  cbn [strip_prefix]. rewrite Ascii.eqb_refl. exact IH.
Qed.

Lemma startsWith_append (p s : string) : startsWith (p +:+ s) p = true.
Proof.
  induction p as [|c p IH]; [destruct s; reflexivity|].
  change (String c p +:+ s) with (String c (p +:+ s)).
  cbn [startsWith]. rewrite Ascii.eqb_refl. exact IH.
Qed.

Lemma has_slash_append (a b : string) :
  has_slash (a +:+ b) = has_slash a || has_slash b.
Proof.
  induction a as [|c a IH]; [reflexivity|].
  change (String c a +:+ b) with (String c (a +:+ b)).
  cbn [has_slash]. rewrite IH. apply orb_assoc.
Qed.

Lemma has_slash_replace_colons (s : string) :
  has_slash (Str.replace_char ":" "-" s) = has_slash s.
Proof.
  induction s as [|c s IH]; [reflexivity|].
  cbn [Str.replace_char has_slash]. rewrite IH.
  destruct (Ascii.eqb c ":") eqn:E; [|reflexivity].
  apply Ascii.eqb_eq in E. subst c. reflexivity.
Qed.

Lemma first_segment_no_slash (s : string) :
  has_slash s = false -> first_segment s = s.
Proof.
  induction s as [|c s IH]; [reflexivity|]. cbn [has_slash first_segment].
  destruct (Ascii.eqb c "/"); [discriminate|]. intros H. rewrite IH; auto.
Qed.

Lemma backupFile_at_name (t : ClaudeSessionManager number) (now : string) :
  backupFile_at t now =
    path_join [backupDir t; backupName_at (sessionId t) now].
Proof. reflexivity. Qed.

Lemma backupName_no_slash (sid now : string) :
  has_slash sid = false -> has_slash now = false ->
  has_slash (backupName_at sid now) = false.
Proof.
  intros Hs Hn. unfold backupName_at.
  rewrite !has_slash_append, has_slash_replace_colons, Hs, Hn. reflexivity.
Qed.

Lemma entries_lists_file (dir name data : string) (d : storage) :
  has_slash name = false ->
  files d !! path_join [dir; name] = Some data ->
  name ∈ entries dir d.
Proof.
  intros Hname Hf. unfold entries.
  apply elem_of_remove_dups, list_elem_of_omap.
  exists (path_join [dir; name]). split.
  - apply list_elem_of_fmap. exists (path_join [dir; name], data).
    split; [reflexivity|]. apply elem_of_map_to_list, Hf.
  - unfold entry_in, path_join. cbn [Str.join].
    rewrite <- append_assoc, strip_prefix_append. cbn.
    rewrite first_segment_no_slash by exact Hname. reflexivity.
Qed.

(** X23.  Saving and then restoring the backup that save made brings
    the session back: for a session identifier and a timestamp without
    slash, when no call fails and the user picks that backup, the
    restore reports success, the session file holds [originalContent]
    as it was before the save, and the session is loaded anew from it,
    every line selected. *)
Theorem save_then_restore (choose : list string -> string)
    (t : ClaudeSessionManager number) (d : storage) (now : string) :
  constructed t ->
  has_slash (sessionId t) = false -> has_slash now = false ->
  (forall n, n < 7 -> coming d n = Succeeds) ->
  let saved := (saveChanges true now {| this := t; disk := d |}).2 in
  choose
    (take 10
       (sessionBackups_of (sessionId t)
          (entries (backupDir t) (disk saved)))) =
    backupName_at (sessionId t) now ->
  let run :=
    (saveChanges true now;; restoreBackup choose) {| this := t; disk := d |} in
  run.1 = Returns Restored /\
  files (disk run.2) !! sessionFile t = Some (originalContent t) /\
  this run.2 =
    with_lines (parseContent (originalContent t))
      (with_originalContent (originalContent t) t).
Proof.
  intros Hc Hsid Hnow Hok. cbv zeta.
  pose proof (backupFile_differs t now Hc) as Hne.
  set (output := output_of (lines t)).
  set (d2 := set_file (sessionFile t) (Some output)
               (answered (WriteFile (sessionFile t) output)
                  (set_file (backupFile_at t now) (Some (originalContent t))
                     (answered (WriteFile (backupFile_at t now)
                                  (originalContent t)) d)))).
  assert (saveChanges true now {| this := t; disk := d |} =
          (Returns (SaveSucceeded (backupFile_at t now)),
           {| this := with_originalContent output t; disk := d2 |})) as Hsave.
  { rewrite saveChanges_run. cbv zeta.
    rewrite (Hok 0 ltac:(lia)), (Hok 1 ltac:(lia)). reflexivity. }
  rewrite Hsave. cbn [snd disk this].
  intros Hchoose.
  assert (files d2 !! backupFile_at t now = Some (originalContent t)) as Hbackup.
  { unfold d2.
    rewrite files_set_file_other by (intros E; exact (Hne (eq_sym E))).
    cbn [answered files]. apply files_set_file_Some. }
  assert (forall n, n < 5 -> coming d2 n = Succeeds) as Hok2.
  { intros n Hn. unfold d2.
    rewrite !coming_set_file, !coming_answered, !coming_set_file,
      !coming_answered.
    apply Hok. lia. }
  rewrite (bind_returns _ _ _ _ _ Hsave).
  rewrite restoreBackup_run. cbv zeta.
  cbn [this with_originalContent sessionId backupDir sessionFile].
  rewrite (Hok2 0 ltac:(lia)).
  assert (backupName_at (sessionId t) now ∈
            sessionBackups_of (sessionId t) (entries (backupDir t) d2)) as Hin.
  { apply elem_of_sessionBackups. split.
    - apply (entries_lists_file _ _ (originalContent t));
        [apply backupName_no_slash; assumption|].
      rewrite <- backupFile_at_name. exact Hbackup.
    - unfold backupName_at. rewrite <- append_assoc.
      apply startsWith_append. }
  destruct (length _ =? 0) eqn:Elen.
  { apply Nat.eqb_eq in Elen.
    destruct (sessionBackups_of _ _); [|discriminate Elen].
    apply elem_of_nil in Hin. contradiction. }
  rewrite Hchoose, <- backupFile_at_name, Hbackup.
  rewrite (Hok2 1 ltac:(lia)), (Hok2 2 ltac:(lia)).
  erewrite initialize_run;
    [| apply files_set_file_Some
     | rewrite coming_set_file, !coming_answered; apply Hok2; lia
     | rewrite coming_set_file, !coming_answered; apply Hok2; lia].
  cbn [fst snd this disk]. split; [reflexivity|].
  split; [|reflexivity].
  cbn [answered record_call files]. apply files_set_file_Some.
Qed.

End Backups.

(** ** The menu and the command *)

Section Menu.
Context {number : Type} {RT : JSRuntime number} {PO : PlainObject}.

Lemma session_ok_parsed (data : string) (t : ClaudeSessionManager number) :
  session_ok (with_lines (parseContent data) t).
Proof.
  split; cbn [with_lines lines].
  - unfold parseContent. rewrite length_imap.
    apply map_index_imap. intros i raw. apply parseLine_index.
  - pose proof (split_lines_no_LF data) as Hlf.
    unfold parseContent. revert Hlf.
    generalize (Str.split_lines data) as segs. intros segs Hlf.
    rewrite Forall_forall in Hlf. apply Forall_forall. intros l Hl.
    apply list_elem_of_lookup in Hl as [i Hi].
    rewrite list_lookup_imap in Hi.
    destruct (segs !! i) as [raw|] eqn:Hraw; [|discriminate Hi].
    injection Hi as <-.
    split; [apply parseLine_parsed_from_its_text|].
    rewrite parseLine_line. eapply Hlf, list_elem_of_lookup_2, Hraw.
Qed.

Lemma session_ok_same_lines (t : ClaudeSessionManager number)
    (ls' : list (SessionLine number)) :
  Forall2 same_line (lines t) ls' -> session_ok t ->
  session_ok (with_lines ls' t).
Proof.
  intros HF [Hidx Hall]. split; cbn [with_lines lines].
  - rewrite <- (Forall2_length _ _ _ HF), <- Hidx. clear Hidx Hall.
    induction HF as [|l l' ls ls' (Hi & _) _ IH]; [reflexivity|].
    cbn [map]. rewrite Hi, IH. reflexivity.
  - clear Hidx. induction HF as [|l l' ls ls' Hl _ IH]; [constructor|].
    apply Forall_cons in Hall as [[Hp Hlf] Hall].
    constructor; [|apply IH, Hall].
    destruct Hl as (Hi & Hline & Ht & Hc & Hm).
    unfold parsed_from_its_text in *. rewrite Hi, Hline.
    destruct Hp as (Hpi & Hpl & Hpt & Hpc & Hpm).
    split; [|congruence]. repeat split; congruence.
Qed.

Lemma dispatch_keeps_ok (action : menu_action) (w : world number) :
  session_ok (this w) -> session_ok (this (dispatch action w).2).
Proof.
  intros Hok. destruct w as [t d]. destruct action as
    [|mode|confirm now|choose| | |].
  - unfold dispatch, viewMessages, mbind, M_bind, get_this. cbn [this].
    destruct (length _ =? 0); exact Hok.
  - cbn [dispatch].
    destruct (selectMessages_frame mode t d) as (ls' & -> & HF).
    apply session_ok_same_lines; assumption.
  - cbn [dispatch]. unfold mbind, M_bind.
    pose proof (saveChanges_keeps_lines confirm now t d) as Hl.
    destruct (saveChanges confirm now {| this := t; disk := d |})
      as [[r|e] w']; cbn [snd] in Hl; cbn; unfold session_ok; rewrite Hl;
      exact Hok.
  - cbn [dispatch]. unfold mbind, M_bind.
    pose proof (restoreBackup_this choose t d) as Hthis.
    cbv zeta in Hthis.
    destruct (restoreBackup choose {| this := t; disk := d |})
      as [[r|e] w']; cbn [snd] in Hthis; cbn;
      (destruct Hthis as [->|(content & ->)];
       [exact Hok | apply session_ok_parsed]).
  - unfold dispatch, showStatistics, call, mbind, M_bind, get_this.
    cbn [this]. destruct (getStats t); exact Hok.
  - exact Hok.
  - exact Hok.
Qed.

Lemma M_bind_run {A B : Type} (m : M number A) (k : A -> M number B)
    (w : world number) :
  (m ≫= k) w =
    match m w with
    | (Returns a, w') => k a w'
    | (Throws e, w') => (Throws e, w')
    end.
Proof. reflexivity. Qed.

Lemma displayHeader_run (w : world number) :
  displayHeader w =
    match getStats (this w) with
    | Returns _ => (Returns (), w)
    | Throws e => (Throws e, w)
    end.
Proof.
  destruct w as [t d]. unfold displayHeader, call, mbind, M_bind, get_this.
  cbn [this]. destruct (getStats t); reflexivity.
Qed.

(** One turn of the menu: the header, then the answer. *)
Lemma interactiveMenu_nil (w : world number) :
  interactiveMenu [] w =
    match getStats (this w) with
    | Returns _ => (Returns (), w)
    | Throws e => (Throws e, w)
    end.
Proof.
  cbn [interactiveMenu]. rewrite M_bind_run, displayHeader_run.
  destruct (getStats (this w)); reflexivity.
Qed.

Lemma interactiveMenu_cons (action : menu_action) (rest : list menu_action)
    (w : world number) :
  interactiveMenu (action :: rest) w =
    match getStats (this w) with
    | Throws e => (Throws e, w)
    | Returns _ =>
        match action with
        | act_exit => (Returns (), w)
        | _ =>
            match dispatch action w with
            | (Returns _, w') => interactiveMenu rest w'
            | (Throws e, w') => (Throws e, w')
            end
        end
    end.
Proof.
  destruct action; cbn [interactiveMenu];
    rewrite M_bind_run, displayHeader_run;
    destruct (getStats (this w)); reflexivity.
Qed.

(** X24.  The menu keeps the session in order, whatever the user
    answers and whatever fails: after any run of [interactiveMenu] on
    a session in order, the [index] of every line is still its
    position, and every line still holds what its text parses to.  The
    command starts from such a session, so it also ends with one. *)
Theorem menu_keeps_session_in_order (answers : list menu_action)
    (w : world number) (home cwd sessionId : string) (d : storage) :
  (session_ok (this w) ->
   session_ok (this (interactiveMenu answers w).2)) /\
  session_ok (this (main home cwd sessionId answers d).2).
Proof.
  assert (forall answers w, session_ok (this w) ->
            session_ok (this (interactiveMenu answers w).2)) as Hmenu.
  { clear. induction answers as [|action rest IH]; intros w Hok.
    - rewrite interactiveMenu_nil. destruct (getStats (this w)); exact Hok.
    - rewrite interactiveMenu_cons.
      destruct (getStats (this w)); [|exact Hok].
      pose proof (dispatch_keeps_ok action w Hok) as Hd.
      destruct action; try exact Hok;
        (destruct (dispatch _ w) as [[[]|e] w']; [apply IH, Hd | exact Hd]). }
  split; [apply Hmenu|].
  unfold main, mbind, M_bind.
  pose proof (initialize_cases (constructor home cwd sessionId) d)
    as (_ & Hcase). cbv zeta in Hcase.
  destruct (initialize _) as [[[]|e] w']; cbn [fst snd] in *.
  - assert (session_ok (this w')) as Hok.
    { destruct Hcase as (data & _ & ->). apply session_ok_parsed. }
    specialize (Hmenu answers w' Hok).
    destruct (interactiveMenu answers w') as [[[]|e] w'']; exact Hmenu.
  - rewrite Hcase. split; [reflexivity | constructor].
Qed.

(** X25.  When the session file is missing the command exits with
    code 1 after the existence check alone: no directory is made, no
    file is read or written, and the menu does not start. *)
Theorem main_without_session_file (home cwd sessionId : string)
    (answers : list menu_action) (d : storage) :
  let manager : ClaudeSessionManager number :=
    constructor home cwd sessionId in
  files d !! sessionFile manager = None ->
  let run := main home cwd sessionId answers d in
  run.1 = 1 /\ files (disk run.2) = files d /\
  calls (disk run.2) = calls d ++ [PathExists (sessionFile manager)] /\
  this run.2 = manager.
Proof.
  intros manager Hmissing. cbv zeta. unfold main, mbind, M_bind.
  fold manager. rewrite (initialize_missing manager d Hmissing).
  repeat split.
Qed.

Lemma Forall2_same_line_refl (ls : list (SessionLine number)) :
  Forall2 same_line ls ls.
Proof. induction ls; constructor; [repeat split | assumption]. Qed.

Lemma dispatch_quiet (action : menu_action) (w : world number) :
  quiet action = true -> types_convert (this w) = true ->
  exists t',
    dispatch action w = (Returns (), {| this := t'; disk := disk w |}) /\
    originalContent t' = originalContent (this w) /\
    Forall2 same_line (lines (this w)) (lines t').
Proof.
  intros Hq Hconv. destruct w as [t d]. cbn [this disk] in *.
  pose proof (Forall2_same_line_refl (lines t)) as Hrefl.
  destruct action as [|mode|confirm now|choose| | |]; try discriminate Hq;
    try (exists t; split; [reflexivity | split; [reflexivity | exact Hrefl]]).
  - unfold dispatch, viewMessages, mbind, M_bind, get_this. cbn [this].
    destruct (length _ =? 0); exists t;
      (split; [reflexivity | split; [reflexivity | exact Hrefl]]).
  - cbn [dispatch].
    destruct (selectMessages_frame mode t d) as (ls' & -> & HF).
    eexists. split; [reflexivity|]. split; [reflexivity | exact HF].
  - destruct confirm; [discriminate Hq|]. exists t.
    split; [reflexivity | split; [reflexivity | exact Hrefl]].
  - pose proof (getStats_cases t) as Hs. rewrite Hconv in Hs.
    destruct Hs as [stats Hs]. exists t.
    unfold dispatch, showStatistics, call, mbind, M_bind, get_this.
    cbn [this]. rewrite Hs.
    split; [reflexivity | split; [reflexivity | exact Hrefl]].
Qed.

(** X26.  Viewing, selecting, declining a save, statistics and
    diagnostics never touch the storage: a run of the menu with only
    such answers leaves the files, the calls made and the answers to
    come as they were, and [originalContent] unchanged.  It returns
    when the [type] of every line converts to a property key; when one
    does not, the first header throws a [TypeError] and nothing has
    changed. *)
Theorem quiet_menu_leaves_storage (answers : list menu_action)
    (w : world number) :
  Forall (fun action => quiet action = true) answers ->
  let run := interactiveMenu answers w in
  disk run.2 = disk w /\
  originalContent (this run.2) = originalContent (this w) /\
  run.1 = (if types_convert (this w) then Returns () else Throws TypeError) /\
  (types_convert (this w) = false -> run.2 = w).
Proof.
  intros Hq. cbv zeta. revert w.
  induction Hq as [|action rest Ha _ IH]; intros w;
    pose proof (getStats_cases (this w)) as Hs.
  - rewrite interactiveMenu_nil.
    destruct (types_convert (this w)); [destruct Hs as [stats Hs]|];
      rewrite Hs; repeat split.
  - rewrite interactiveMenu_cons.
    destruct (types_convert (this w)) eqn:Hconv;
      [destruct Hs as [stats Hs]|]; rewrite Hs; [|repeat split].
    destruct (dispatch_quiet action w Ha Hconv) as (t' & Hd & Ho & HF).
    destruct (IH {| this := t'; disk := disk w |}) as (H1 & H2 & H3 & _).
    cbn [this disk] in H1, H2, H3.
    rewrite (types_convert_same (this w) t' HF), Hconv in H3.
    destruct action;
      try (split; [reflexivity | split; [reflexivity |
             split; [reflexivity | discriminate]]]; fail);
      rewrite Hd;
      (split; [exact H1 | split; [rewrite H2; exact Ho |
         split; [exact H3 | discriminate]]]).
Qed.

End Menu.

(** ** Concrete runs of the further properties *)

Section FurtherRuns.
#[local] Existing Instance Reference.runtime.
#[local] Existing Instance ReferenceObject.plain.

(** Replaces a closed term by its value. *)
Ltac vm_eval t :=
  let v := eval vm_compute in t in
  replace t with v by (vm_compute; reflexivity).

Lemma no_failure (data : string) (n : nat) :
  coming (Example.storage_with data []) n = Succeeds.
Proof. destruct n; reflexivity. Defined.

(** X4 on a line with a string [content] at the top and a [null] in
    the message content list. *)
Lemma top_level_content_wins_witness :
  let raw := dq "{'content':'hi','message':{'content':[null]}}" in
  let parsed : json Z :=
    JObject [("content", JString "hi");
             ("message", JObject [("content", JArray [JNull])])] in
  blank raw = false /\ JSON_parse raw = Some parsed /\
  get parsed "content" = Some (JString "hi") /\
  content (parseLine 0 raw) = Some "hi" /\
  type (parseLine 0 raw) = Some (JString "unknown").
Proof.
  cbv zeta.
  assert (blank (dq "{'content':'hi','message':{'content':[null]}}") = false)
    as Hb by reflexivity.
  assert (JSON_parse (dq "{'content':'hi','message':{'content':[null]}}") =
          Some (JObject [("content", JString "hi");
                         ("message", JObject [("content", JArray [JNull])])]
                : json Z)) as Hp by reflexivity.
  split; [exact Hb|]. split; [exact Hp|]. split; [reflexivity|].
  exact (top_level_content_wins 0 _ _ "hi" Hb Hp eq_refl).
Defined.

(** X5 on a message with two text items. *)
Lemma text_items_joined_witness :
  let raw :=
    dq "{'message':{'role':'assistant','content':[{'type':'text','text':'a'},{'type':'text','text':'b'}]}}" in
  let parsed : json Z :=
    JObject [("message",
              JObject [("role", JString "assistant");
                       ("content", JArray (map text_item ["a"; "b"]))])] in
  blank raw = false /\ JSON_parse raw = Some parsed /\
  content (parseLine 0 raw) = Some (nl "a|b").
Proof.
  cbv zeta.
  assert (blank (dq "{'message':{'role':'assistant','content':[{'type':'text','text':'a'},{'type':'text','text':'b'}]}}") = false)
    as Hb by reflexivity.
  assert (JSON_parse (dq "{'message':{'role':'assistant','content':[{'type':'text','text':'a'},{'type':'text','text':'b'}]}}") =
          Some (JObject [("message",
              JObject [("role", JString "assistant");
                       ("content", JArray (map text_item ["a"; "b"]))])]
                : json Z)) as Hp by reflexivity.
  split; [exact Hb|]. split; [exact Hp|].
  apply (text_items_joined 0 _ _ ["a"; "b"] Hb Hp).
  - intros s. discriminate.
  - reflexivity.
  - discriminate.
  - repeat constructor; discriminate.
Defined.

(** X6 on a message whose content list holds a tool call and a text
    item with an empty text. *)
Lemma list_content_never_empty_witness :
  let raw :=
    dq "{'message':{'content':[{'type':'tool_use','id':'x'},{'type':'text','text':''}]}}" in
  let items : list (json Z) :=
    [JObject [("type", JString "tool_use"); ("id", JString "x")];
     JObject [("type", JString "text"); ("text", JString "")]] in
  let parsed : json Z :=
    JObject [("message", JObject [("content", JArray items)])] in
  blank raw = false /\ JSON_parse raw = Some parsed /\
  Forall (fun item => item <> JNull) items /\
  Forall (fun item =>
            is_text (get item "type") = true ->
            forall v, get item "text" = Some v -> converts v = true)
    items /\
  content (parseLine 0 raw) = Some "[Complex content]".
Proof.
  cbv zeta.
  set (raw := dq "{'message':{'content':[{'type':'tool_use','id':'x'},{'type':'text','text':''}]}}").
  set (items :=
    [JObject [("type", JString "tool_use"); ("id", JString "x")];
     JObject [("type", JString "text"); ("text", JString "")]]
    : list (json Z)).
  assert (blank raw = false) as Hb by (vm_compute; reflexivity).
  assert (JSON_parse raw =
          Some (JObject [("message", JObject [("content", JArray items)])]))
    as Hp by (vm_compute; reflexivity).
  assert (Forall (fun item => item <> JNull) items) as Hnn
    by (repeat constructor; discriminate).
  assert (Forall (fun item =>
            is_text (get item "type") = true ->
            forall v, get item "text" = Some v -> converts v = true)
            items) as Hconv.
  { repeat constructor.
    - intros Ht. discriminate Ht.
    - intros _ v Hv. injection Hv as <-. reflexivity. }
  split; [exact Hb|]. split; [exact Hp|]. split; [exact Hnn|].
  split; [exact Hconv|].
  destruct (list_content_never_empty 0 raw _ items Hb Hp)
    as (c & Hc & _ & Hplace).
  - intros s. discriminate.
  - reflexivity.
  - exact Hnn.
  - exact Hconv.
  - rewrite Hc, Hplace; [reflexivity|]. repeat constructor.
Defined.

(** X27 on a line whose only text item has an object with a member
    named [toString] as its text. *)
Lemma throwing_list_leaves_line_bare_witness :
  let raw :=
    dq "{'type':'user','message':{'content':[{'type':'text','text':{'toString':1}}]}}" in
  let items : list (json Z) :=
    [JObject [("type", JString "text");
              ("text", JObject [("toString", JNumber 1%Z)])]] in
  let parsed : json Z :=
    JObject [("type", JString "user");
             ("message", JObject [("content", JArray items)])] in
  blank raw = false /\ JSON_parse raw = Some parsed /\
  parseLine 0 raw = bare_line 0 raw /\
  type (parseLine 0 raw) = None /\ isMessage (parseLine 0 raw) = false.
Proof.
  cbv zeta.
  set (raw := dq "{'type':'user','message':{'content':[{'type':'text','text':{'toString':1}}]}}").
  set (items :=
    [JObject [("type", JString "text");
              ("text", JObject [("toString", JNumber 1%Z)])]]
    : list (json Z)).
  assert (JSON_parse raw =
          Some (JObject [("type", JString "user");
                         ("message", JObject [("content", JArray items)])]))
    as Hp by (vm_compute; reflexivity).
  assert (parseLine 0 raw = bare_line 0 raw) as Hbare.
  { apply (throwing_list_leaves_line_bare 0 raw _ items Hp).
    - intros s. discriminate.
    - reflexivity.
    - apply Exists_cons_hd. right. split; [reflexivity|].
      eexists. split; reflexivity. }
  split; [vm_compute; reflexivity|]. split; [exact Hp|].
  split; [exact Hbare|]. rewrite Hbare. split; reflexivity.
Defined.

(** X7 on a text of two lines with blanks around it, cut at eight
    characters. *)
Lemma truncate_fits_witness :
  let str := nl "  hello|world  " in
  3 <= 8 /\ str <> "" /\
  String.length (truncate str 8) <= 8 /\
  truncate str 8 = "hello..." /\ truncate str 57 = "hello world".
Proof.
  cbv zeta. split; [lia|]. split; [discriminate|].
  destruct (truncate_fits (nl "  hello|world  ") 8) as (Hlen & _);
    [lia | discriminate |].
  split; [exact Hlen|]. split; reflexivity.
Defined.

(** X11 on the four lines: one line counts under each of the two
    kinds. *)
Lemma byType_counts_witness :
  let t := Example.loaded Example.four_lines in
  inherited "user" = None /\ "user" <> "__proto__" /\
  counted (counts_under "user") (lines t) 1 /\
  exists stats,
    getStats t = Returns stats /\
    SessionStats.byType stats !! "user" = Some (Tally 1).
Proof.
  cbv zeta.
  assert (counted (counts_under "user")
            (lines (Example.loaded Example.four_lines)) 1) as Hn.
  { vm_eval (lines (Example.loaded Example.four_lines)).
    apply counted_yes.
    - exists (JString "user"). repeat split.
    - apply counted_no; [intros (v & E & _); discriminate E|].
      apply counted_no; [intros (v & E & _); discriminate E|].
      apply counted_no.
      + intros (v & E & _ & Hk). injection E as <-. discriminate Hk.
      + apply counted_nil. }
  split; [reflexivity|]. split; [discriminate|]. split; [exact Hn|].
  destruct (getStats (Example.loaded Example.four_lines))
    as [stats|e] eqn:Hstats; [|vm_compute in Hstats; discriminate Hstats].
  exists stats. split; [reflexivity|].
  exact (byType_counts "user" (Example.loaded Example.four_lines) stats 1
           Hstats eq_refl ltac:(discriminate) Hn).
Defined.

(** X12 on a session with a line of kind [constructor]. *)
Lemma byType_inherited_names_witness :
  let t :=
    with_lines (parseContent (dq "{'type':'constructor'}")) Example.manager in
  inherited "constructor" = Some (ReferenceObject.native "Object") /\
  Exists (counts_under "constructor") (lines t) /\
  exists stats,
    getStats t = Returns stats /\
    SessionStats.byType stats !! "constructor" =
      Some (Garbled "function Object() { [native code] }1").
Proof.
  cbv zeta.
  assert (Exists (counts_under "constructor")
            (lines (with_lines (parseContent (dq "{'type':'constructor'}"))
                      Example.manager))) as Hex.
  { apply Exists_cons_hd. exists (JString "constructor"). repeat split. }
  split; [reflexivity|]. split; [exact Hex|].
  destruct (getStats
              (with_lines (parseContent (dq "{'type':'constructor'}"))
                 Example.manager)) as [stats|e] eqn:Hstats;
    [|vm_compute in Hstats; discriminate Hstats].
  exists stats. split; [reflexivity|].
  destruct (byType_inherited_names "constructor"
              (ReferenceObject.native "Object") _ stats Hstats) as (_ & Hg).
  destruct (Hg eq_refl ltac:(discriminate) Hex) as (s & Hs).
  rewrite Hs. f_equal. vm_compute in Hstats. injection Hstats as <-.
  vm_compute in Hs. injection Hs as <-. reflexivity.
Defined.

(** X13 on a file whose single line is [null]: JSON for the
    diagnostics, without a type for the parser. *)
Lemma diagnostics_counters_witness :
  let w := {| this := Example.loaded "null";
              disk := Example.storage_with "null" [] |} in
  Forall parsed_from_its_text (lines (this w)) /\
  (runDiagnostics w).1 =
    Returns {| jsonLines := 1; nonJsonLines := 0; emptyLines := 0 |} /\
  length (List.filter has_type (lines (this w))) = 0.
Proof.
  cbv zeta. split; [repeat constructor|]. split; [|reflexivity].
  destruct (diagnostics_counters
              {| this := Example.loaded "null";
                 disk := Example.storage_with "null" [] |})
    as (_ & r & Hr & _).
  rewrite Hr. vm_compute in Hr. injection Hr as <-. reflexivity.
Defined.

(** X15 on the four lines. *)
Lemma deselect_all_then_save_witness :
  let t := Example.loaded Example.four_lines in
  let d := Example.storage_with Example.four_lines [] in
  let run :=
    (toggleAll false;; saveChanges true Example.now)
      {| this := t; disk := d |} in
  constructed t /\ coming d 0 = Succeeds /\ coming d 1 = Succeeds /\
  files (disk run.2) !! sessionFile t = Some "" /\
  files (disk run.2) !! backupFile_at t Example.now =
    Some Example.four_lines.
Proof.
  cbv zeta.
  destruct (deselect_all_then_save (Example.loaded Example.four_lines)
              (Example.storage_with Example.four_lines []) Example.now
              (constructed_loaded _) eq_refl eq_refl)
    as (_ & Hfile & Hbackup & _).
  split; [apply constructed_loaded|]. split; [reflexivity|].
  split; [reflexivity|]. split; [exact Hfile | exact Hbackup].
Defined.

(** X16 and X17 on the curated session, saved at two times one second
    apart. *)
Lemma backups_of_different_times_witness :
  let later := "2024-05-06T07:08:10.123Z" in
  colon_mask Example.now = colon_mask later /\ Example.now <> later /\
  backupFile_at Example.curated Example.now <>
    backupFile_at Example.curated later.
Proof.
  cbv zeta.
  assert (Example.now <> "2024-05-06T07:08:10.123Z") as Hne by discriminate.
  split; [reflexivity|]. split; [exact Hne|].
  exact (backups_of_different_times Example.curated Example.now
           "2024-05-06T07:08:10.123Z" eq_refl Hne).
Defined.

Lemma save_twice_witness :
  let t := Example.curated in
  let d := Example.storage_with Example.four_lines [] in
  let later := "2024-05-06T07:08:10.123Z" in
  let run :=
    (saveChanges true Example.now;; saveChanges true later)
      {| this := t; disk := d |} in
  constructed t /\ (forall n, n < 4 -> coming d n = Succeeds) /\
  backupFile_at t Example.now <> backupFile_at t later /\
  files (disk run.2) !! backupFile_at t later = Some (output_of (lines t)) /\
  files (disk run.2) !! backupFile_at t Example.now =
    Some Example.four_lines.
Proof.
  cbv zeta.
  assert (backupFile_at Example.curated Example.now <>
          backupFile_at Example.curated "2024-05-06T07:08:10.123Z") as Hdiff
    by (vm_compute; discriminate).
  destruct (save_twice Example.curated
              (Example.storage_with Example.four_lines [])
              Example.now "2024-05-06T07:08:10.123Z" constructed_curated
              (fun n _ => no_failure Example.four_lines n) Hdiff)
    as (_ & _ & Hlater & Hfirst).
  split; [exact constructed_curated|].
  split; [intros n _; apply no_failure|]. split; [exact Hdiff|].
  split; [exact Hlater | exact Hfirst].
Defined.

(** X18 on the curated session: the output of its save parses back to
    its three selected lines. *)
Lemma output_parses_back_witness :
  let ls := lines Example.curated in
  List.filter selected ls <> [] /\
  Forall (fun l => Str.count_LF (line l) = 0 /\ ends_in_CR (line l) = false)
    (List.filter selected ls) /\
  Forall parsed_from_its_text ls /\
  map line (parseContent (output_of ls)) = map line (List.filter selected ls).
Proof.
  cbv zeta. vm_eval (lines Example.curated).
  match goal with
  | |- List.filter selected ?ls <> [] /\ _ => set (kept := ls)
  end.
  assert (List.filter selected kept <> []) as Hne by discriminate.
  assert (Forall (fun l : SessionLine Z =>
                    Str.count_LF (line l) = 0 /\ ends_in_CR (line l) = false)
            (List.filter selected kept)) as Hclean
    by (repeat constructor).
  assert (Forall parsed_from_its_text kept) as Hp
    by (repeat constructor; vm_compute; reflexivity).
  split; [exact Hne|]. split; [exact Hclean|]. split; [exact Hp|].
  pose proof (output_parses_back kept Hne Hclean Hp) as HF.
  clear Hne Hclean Hp. revert HF.
  generalize (parseContent (output_of kept)).
  generalize (List.filter selected kept).
  induction 1 as [|l l' ls ls' (Hl & _) _ IH]; [reflexivity|].
  cbn [map]. rewrite Hl, IH. reflexivity.
Defined.

(** X22 on a storage that holds the session file alone. *)
Lemma restoreBackup_without_backups_witness :
  let t := Example.loaded Example.four_lines in
  let d := Example.storage_with Example.four_lines [] in
  (forall f, f ∈ entries (backupDir t) d ->
             startsWith f (sessionId t +:+ ".") = false) /\
  (restoreBackup first_choice {| this := t; disk := d |}).1 =
    Returns NoBackups.
Proof.
  cbv zeta.
  assert (forall f,
            f ∈ entries (backupDir (Example.loaded Example.four_lines))
                  (Example.storage_with Example.four_lines []) ->
            startsWith f (sessionId (Example.loaded Example.four_lines) +:+ ".")
              = false) as Hnone.
  { intros f Hf. vm_compute in Hf. apply elem_of_nil in Hf. contradiction. }
  split; [exact Hnone|].
  destruct (restoreBackup_without_backups first_choice
              (Example.loaded Example.four_lines)
              (Example.storage_with Example.four_lines []) Hnone)
    as (Hrun & _).
  exact Hrun.
Defined.

(** X23 on the curated session: the save drops line 0, the restore of
    its backup brings the four lines back. *)
Lemma save_then_restore_witness :
  let t := Example.curated in
  let d := Example.storage_with Example.four_lines [] in
  let run :=
    (saveChanges true Example.now;; restoreBackup first_choice)
      {| this := t; disk := d |} in
  constructed t /\ has_slash (sessionId t) = false /\
  has_slash Example.now = false /\
  (forall n, n < 7 -> coming d n = Succeeds) /\
  run.1 = Returns Restored /\
  files (disk run.2) !! sessionFile t = Some Example.four_lines /\
  map selected (lines (this run.2)) = [true; true; true; true].
Proof.
  cbv zeta.
  destruct (save_then_restore first_choice Example.curated
              (Example.storage_with Example.four_lines []) Example.now
              constructed_curated eq_refl eq_refl
              (fun n _ => no_failure Example.four_lines n))
    as (Hrun & Hfile & Hthis).
  { vm_compute. reflexivity. }
  split; [exact constructed_curated|]. split; [reflexivity|].
  split; [reflexivity|]. split; [intros n _; apply no_failure|].
  split; [exact Hrun|]. split; [exact Hfile|].
  rewrite Hthis. vm_compute. reflexivity.
Defined.

(** X25 on an empty storage. *)
Lemma main_without_session_file_witness :
  let d := {| files := ∅; script := []; calls := [] |} in
  files d !! sessionFile Example.manager = None /\
  (main "/home/user" "/work/project" "session-1"
     [act_select mode_none; act_save true Example.now] d).1 = 1.
Proof.
  cbv zeta.
  assert (files {| files := ∅; script := []; calls := [] |} !!
            sessionFile Example.manager = None) as Hmissing
    by apply lookup_empty.
  split; [exact Hmissing|].
  destruct (main_without_session_file (number := Z) "/home/user"
              "/work/project" "session-1"
              [act_select mode_none; act_save true Example.now]
              {| files := ∅; script := []; calls := [] |} Hmissing)
    as (Hcode & _).
  exact Hcode.
Defined.

(** X19 on the four lines: the object the constructor made, once
    [initialize] has run, holds the text of the file and its four
    lines. *)
Lemma initialize_all_or_nothing_witness :
  let d := Example.storage_with Example.four_lines [] in
  let run := initialize {| this := Example.manager; disk := d |} in
  run.1 = Returns () /\
  originalContent (this run.2) = Example.four_lines /\
  lines (this run.2) = parseContent Example.four_lines /\
  map index (lines (this run.2)) = [0; 1; 2; 3] /\
  map type (lines (this run.2)) =
    [Some (JString "user"); None; None; Some (JString "assistant")] /\
  lines Example.manager = [].
Proof.
  cbv zeta.
  destruct (initialize_all_or_nothing Example.manager
              (Example.storage_with Example.four_lines []))
    as (_ & Hcase & _).
  destruct (initialize
              {| this := Example.manager;
                 disk := Example.storage_with Example.four_lines [] |})
    as [[[]|e] w'] eqn:Hrun; cbn [fst snd] in *;
    [|vm_compute in Hrun; discriminate Hrun].
  destruct Hcase as (data & Hdata & Ho & Hl & _).
  assert (data = Example.four_lines) as ->.
  { vm_compute in Hdata. injection Hdata as <-. vm_compute. reflexivity. }
  split; [reflexivity|]. split; [exact Ho|]. split; [exact Hl|].
  rewrite Hl. split; [vm_compute; reflexivity|].
  split; vm_compute; reflexivity.
Defined.

(** X20 on the storage with two backups: the user who picks the first
    choice restores the newer one, and the object then holds its one
    line. *)
Lemma restoreBackup_outcomes_witness :
  let t := Example.loaded Example.four_lines in
  let run :=
    restoreBackup first_choice
      {| this := t; disk := ExampleBackups.storage |} in
  run.1 = Returns Restored /\
  files (disk run.2) !! sessionFile t = Some ExampleBackups.newer_text /\
  originalContent (this run.2) = ExampleBackups.newer_text /\
  map content (lines (this run.2)) = [Some "newer"] /\
  map selected (lines (this run.2)) = [true] /\
  length (lines t) = 4.
Proof.
  cbv zeta.
  destruct (restoreBackup_outcomes first_choice
              (Example.loaded Example.four_lines) ExampleBackups.storage)
    as (_ & Hrestored & _).
  assert ((restoreBackup first_choice
             {| this := Example.loaded Example.four_lines;
                disk := ExampleBackups.storage |}).1 = Returns Restored)
    as Hret by (vm_compute; reflexivity).
  destruct (Hrestored Hret) as (content & Hbackup & Hfile & Ho & Hl & _).
  assert (content = ExampleBackups.newer_text) as ->.
  { vm_compute in Hbackup. injection Hbackup as <-. vm_compute. reflexivity. }
  split; [exact Hret|]. split; [exact Hfile|]. split; [exact Ho|].
  rewrite Hl. split; [vm_compute; reflexivity|].
  split; vm_compute; reflexivity.
Defined.

(** X21 on the storage with two backups of the session and one of
    another session: the newer one is the first choice, the older one
    the last, and the other session's backup is not offered. *)
Lemma restoreBackup_offers_latest_ten_witness :
  let t := Example.loaded Example.four_lines in
  let d := ExampleBackups.storage in
  let dir := backupDir t in
  coming d 0 = Succeeds /\
  (exists f, f ∈ entries dir d /\
             startsWith f (sessionId t +:+ ".") = true) /\
  (exists offered,
     offered <> [] /\ length offered <= 10 /\
     forall choose, exists more,
       calls (disk (restoreBackup choose {| this := t; disk := d |}).2) =
         calls d ++
         [ReadFile dir; ReadFile (path_join [dir; choose offered])] ++ more) /\
  take 2 (calls (disk (restoreBackup first_choice
                         {| this := t; disk := d |}).2)) =
    [ReadFile dir; ReadFile (path_join [dir; ExampleBackups.newer])] /\
  take 2 (calls (disk (restoreBackup ExampleBackups.last_choice
                         {| this := t; disk := d |}).2)) =
    [ReadFile dir; ReadFile (path_join [dir; ExampleBackups.older])].
Proof.
  cbv zeta.
  assert (coming ExampleBackups.storage 0 = Succeeds) as H0 by reflexivity.
  assert (exists f,
            f ∈ entries (backupDir (Example.loaded Example.four_lines))
                  ExampleBackups.storage /\
            startsWith f
              (sessionId (Example.loaded Example.four_lines) +:+ ".") = true)
    as Hex.
  { exists ExampleBackups.newer. split; [|vm_compute; reflexivity].
    vm_eval (entries (backupDir (Example.loaded Example.four_lines))
               ExampleBackups.storage).
    apply list_elem_of_In. vm_compute. tauto. }
  split; [exact H0|]. split; [exact Hex|]. split.
  - destruct (restoreBackup_offers_latest_ten
                (Example.loaded Example.four_lines) ExampleBackups.storage
                H0 Hex) as (offered & Hne & Hlen & _ & _ & _ & _ & Hcalls).
    exists offered. split; [exact Hne|]. split; [exact Hlen | exact Hcalls].
  - split; vm_compute; reflexivity.
Defined.

(** X26 on a run that views, deselects the messages, declines a save
    and looks at the counters. *)
Lemma quiet_menu_leaves_storage_witness :
  let w := {| this := Example.loaded Example.four_lines;
              disk := Example.storage_with Example.four_lines [] |} in
  let answers :=
    [act_view; act_select (mode_individual []); act_save false Example.now;
     act_stats; act_diagnostics; act_exit] in
  Forall (fun action => quiet action = true) answers /\
  types_convert (this w) = true /\
  (interactiveMenu answers w).1 = Returns () /\
  disk (interactiveMenu answers w).2 = disk w /\
  map selected (lines (this (interactiveMenu answers w).2)) =
    [false; true; true; false].
Proof.
  cbv zeta.
  assert (Forall (fun action => quiet action = true)
            [act_view; act_select (mode_individual []);
             act_save false Example.now; act_stats; act_diagnostics;
             act_exit]) as Hq by (repeat constructor).
  assert (types_convert (Example.loaded Example.four_lines) = true) as Hconv
    by (vm_compute; reflexivity).
  split; [exact Hq|]. split; [exact Hconv|].
  destruct (quiet_menu_leaves_storage _
              {| this := Example.loaded Example.four_lines;
                 disk := Example.storage_with Example.four_lines [] |} Hq)
    as (Hdisk & _ & Hret & _).
  cbn [this] in Hret. rewrite Hconv in Hret.
  split; [exact Hret|]. split; [exact Hdisk | vm_compute; reflexivity].
Defined.

(** X26 and X28 on a session whose line has an object with a member
    named [toString] as its [type]: the line is loaded with that
    record kind, [getStats] throws, and the menu throws at its first
    header. *)
Lemma getStats_returns_or_throws_witness :
  let data := dq "{'type':{'toString':1}}" in
  let w := {| this := Example.loaded data;
              disk := Example.storage_with data [] |} in
  map type (lines (this w)) = [Some (JObject [("toString", JNumber 1%Z)])] /\
  types_convert (this w) = false /\
  getStats (this w) = Throws TypeError /\
  getStats (Example.loaded Example.four_lines) =
    Returns {| SessionStats.total := 4; SessionStats.messages := 2;
               SessionStats.selected := 4;
               SessionStats.byType :=
                 {[ "user" := Tally 1; "assistant" := Tally 1 ]} |}.
Proof.
  cbv zeta.
  assert (types_convert (Example.loaded (dq "{'type':{'toString':1}}")) =
          false) as Hconv by (vm_compute; reflexivity).
  split; [vm_compute; reflexivity|]. split; [exact Hconv|].
  destruct (getStats_returns_or_throws
              (Example.loaded (dq "{'type':{'toString':1}}"))) as [Hthrow _].
  rewrite Hconv in Hthrow. split; [exact Hthrow|].
  destruct (getStats_returns_or_throws
              (Example.loaded Example.four_lines)) as [Hret _].
  replace (types_convert (Example.loaded Example.four_lines)) with true
    in Hret by (vm_compute; reflexivity).
  destruct Hret as (stats & Hstats & _). rewrite Hstats.
  vm_compute in Hstats. injection Hstats as <-. vm_compute. reflexivity.
Defined.

(** The menu of the command on the four lines: deselect line 0, save,
    restore the backup, leave; the answer after the exit is not
    read. *)
Example command_scenario :
  let run :=
    main "/home/user" "/work/project" "session-1"
      [act_select (mode_individual [3]); act_save true Example.now;
       act_restore first_choice; act_exit; act_select mode_none]
      (Example.storage_with Example.four_lines []) in
  run.1 = 0 /\
  files (disk run.2) !! sessionFile Example.manager =
    Some Example.four_lines /\
  map selected (lines (this run.2)) = [true; true; true; true] /\
  exists stats,
    getStats (this run.2) = Returns stats /\ SessionStats.total stats = 4.
Proof.
  cbv zeta. split; [vm_compute; reflexivity|].
  split; [vm_compute; reflexivity|]. split; [vm_compute; reflexivity|].
  eexists. split; vm_compute; reflexivity.
Qed.

(** The command on a session whose line has an object with a member
    named [toString] as its [type]: it loads, and ends with code 1 at
    the first header, whatever the user would have answered. *)
Example command_on_unconvertible_type :
  let data := dq "{'type':{'toString':1}}" in
  let run :=
    main "/home/user" "/work/project" "session-1" [act_view; act_exit]
      (Example.storage_with data []) in
  run.1 = 1 /\
  files (disk run.2) !! sessionFile Example.manager = Some data /\
  length (lines (this run.2)) = 1.
Proof.
  cbv zeta. split; [vm_compute; reflexivity|].
  split; vm_compute; reflexivity.
Qed.

End FurtherRuns.
